(** * Strikeout projection engine: a shallow embedding and its properties

    The development follows the Python sources module by module
    (constants, stats_logic, modifiers, preprocessor, simulator, models,
    orchestrator).

    Numbers.  A Python [float] is read as a real number: rounding is not
    modelled, and a computation whose value leaves the reals (NaN, an
    infinity, a complex power) ends in [Undetermined], about which nothing
    is stated, except where a definition says which run [Undetermined]
    stands for (in [calculate_team_trend_modifier] it is exactly the run
    that raises nothing and returns NaN).

    Errors.  A Python exception is a value [Raise e] of the [outcome]
    monad; [try ... except Exception] is [catch].

    What the repository calls and does not define is the record [Python],
    passed to every function that needs one of its fields: the library
    calls (difflib, the text form of a float, [int] and [float] on
    strings), and [get_platoon_modifier], a name that models.py imports
    from modifiers, where no function of that name exists. *)

From Stdlib Require Import Reals Lra Lia List String Ascii ZArith Bool.
Import ListNotations.

Local Open Scope string_scope.
Local Open Scope list_scope.
Local Open Scope R_scope.

(** ** Outcomes of a Python computation *)

Inductive exn : Type :=
| NameError
| TypeError
| ValueError
| KeyError
| IndexError
| ZeroDivisionError
| AttributeError
| FileNotFoundError.

Inductive outcome (A : Type) : Type :=
| Ok (a : A)
| Raise (e : exn)
| Undetermined.

Arguments Ok {A} a.
Arguments Raise {A} e.
Arguments Undetermined {A}.

Definition bind {A B : Type} (m : outcome A) (k : A -> outcome B) : outcome B :=
  match m with
  | Ok a => k a
  | Raise e => Raise e
  | Undetermined => Undetermined
  end.

Notation "x <- m ;; k" := (bind m (fun x => k))
  (at level 61, m at next level, right associativity).

(** [try: m except Exception: h] *)
Definition catch {A : Type} (m : outcome A) (h : exn -> outcome A) : outcome A :=
  match m with
  | Raise e => h e
  | _ => m
  end.

(** [[f(x) for x in l]], left to right; the first failure ends the loop. *)
Fixpoint traverse {A B : Type} (f : A -> outcome B) (l : list A) : outcome (list B) :=
  match l with
  | [] => Ok []
  | x :: xs => y <- f x ;; ys <- traverse f xs ;; Ok (y :: ys)
  end.

(** ** numpy on real numbers *)

(** [np.clip(x, lo, hi)] is [minimum(maximum(x, lo), hi)]. *)
Definition clip (x lo hi : R) : R := Rmin (Rmax x lo) hi.

Definition sum (l : list R) : R := fold_right Rplus 0 l.

Fixpoint dot (u v : list R) : R :=
  match u, v with
  | a :: u', b :: v' => a * b + dot u' v'
  | _, _ => 0
  end.

(** [np.mean]; callers see to it that the list is not empty. *)
Definition mean (l : list R) : R := sum l / INR (List.length l).

(** [np.std] (population standard deviation, [ddof=0]). *)
Definition std (l : list R) : R :=
  let m := mean l in
  sqrt (mean (map (fun x => (x - m) * (x - m)) l)).

(** [l[-n:]] *)
Definition last_n {A : Type} (n : nat) (l : list A) : list A :=
  skipn (List.length l - n) l.

(** [b ** e] on Python floats with a positive, non-integer exponent [e]:
    a negative base gives a complex number. *)
Definition py_pow (b e : R) : outcome R :=
  if Rlt_dec 0 b then Ok (Rpower b e)
  else if Req_dec_T b 0 then Ok 0
  else Undetermined.

(** ** Strings *)

Definition is_upper (c : ascii) : bool :=
  let n := nat_of_ascii c in (65 <=? n)%nat && (n <=? 90)%nat.

Definition is_lower (c : ascii) : bool :=
  let n := nat_of_ascii c in (97 <=? n)%nat && (n <=? 122)%nat.

Definition is_space (c : ascii) : bool :=
  let n := nat_of_ascii c in ((9 <=? n)%nat && (n <=? 13)%nat) || (n =? 32)%nat.

Definition lower_ascii (c : ascii) : ascii :=
  if is_upper c then ascii_of_nat (nat_of_ascii c + 32) else c.

Definition upper_ascii (c : ascii) : ascii :=
  if is_lower c then ascii_of_nat (nat_of_ascii c - 32) else c.

Fixpoint map_string (f : ascii -> ascii) (s : string) : string :=
  match s with
  | EmptyString => EmptyString
  | String c s' => String (f c) (map_string f s')
  end.

Fixpoint filter_string (p : ascii -> bool) (s : string) : string :=
  match s with
  | EmptyString => EmptyString
  | String c s' => if p c then String c (filter_string p s') else filter_string p s'
  end.

(** [s.lower()] and [s.upper()] on ASCII text. *)
Definition lower (s : string) : string := map_string lower_ascii s.
Definition upper (s : string) : string := map_string upper_ascii s.

Fixpoint lstrip (s : string) : string :=
  match s with
  | EmptyString => EmptyString
  | String c s' => if is_space c then lstrip s' else s
  end.

Definition rev_string (s : string) : string :=
  string_of_list_ascii (rev (list_ascii_of_string s)).

(** [s.strip()] *)
Definition strip (s : string) : string :=
  rev_string (lstrip (rev_string (lstrip s))).

(** [sub in s] *)
Fixpoint contains (sub s : string) : bool :=
  if prefix sub s then true
  else match s with
       | EmptyString => false
       | String _ s' => contains sub s'
       end.

(** [s.replace(c, by)] for a one-character pattern. *)
Fixpoint replace_char (c : ascii) (by_ : string) (s : string) : string :=
  match s with
  | EmptyString => EmptyString
  | String d s' =>
      if Ascii.eqb c d then by_ ++ replace_char c by_ s'
      else String d (replace_char c by_ s')
  end%string.

(** The part of [s] before its first [c], and what follows it. *)
Fixpoint split_at (c : ascii) (s : string) : option (string * string) :=
  match s with
  | EmptyString => None
  | String d s' =>
      if Ascii.eqb c d then Some (EmptyString, s')
      else match split_at c s' with
           | Some (a, b) => Some (String d a, b)
           | None => None
           end
  end.

(** ** Dictionaries, table cells and data frames *)

(** A Python [dict] with text keys, in insertion order. *)
Definition dict (A : Type) : Type := list (string * A).

Fixpoint dict_find {A : Type} (d : dict A) (k : string) : option A :=
  match d with
  | [] => None
  | (k', v) :: d' => if String.eqb k' k then Some v else dict_find d' k
  end.

(** [d.get(k, default)] *)
Definition dict_get {A : Type} (d : dict A) (k : string) (default : A) : A :=
  match dict_find d k with
  | Some v => v
  | None => default
  end.

(** [d[k] = v] *)
Fixpoint dict_set {A : Type} (d : dict A) (k : string) (v : A) : dict A :=
  match d with
  | [] => [(k, v)]
  | (k', v') :: d' =>
      if String.eqb k' k then (k, v) :: d' else (k', v') :: dict_set d' k v
  end.

(** A cell of a CSV table as pandas reads it: a number, text, or NaN for
    an empty field. *)
Inductive cell : Type :=
| CNum (r : R)
| CStr (s : string)
| CNaN.

(** A cell used as a number in Python arithmetic and comparisons. *)
Definition as_float (c : cell) : outcome R :=
  match c with
  | CNum r => Ok r
  | CStr _ => Raise TypeError
  | CNaN => Undetermined
  end.

(** A row of a table ([Series], or the [dict] made of it). *)
Definition Series : Type := dict cell.

Record DataFrame : Type := {
  columns : list string;
  rows : list Series
}.

(** [row[col]]; pandas fills a missing field with NaN. *)
Definition series_at (row : Series) (col : string) : cell :=
  dict_get row col CNaN.

(** [df.empty] *)
Definition df_empty (df : DataFrame) : bool :=
  match columns df, rows df with
  | [], _ | _, [] => true
  | _, _ => false
  end.

(** [c in df.columns] *)
Definition has_column (df : DataFrame) (c : string) : bool :=
  existsb (String.eqb c) (columns df).

(** [cell == text], as pandas compares the cells of a column. *)
Definition cell_is (c : cell) (s : string) : bool :=
  match c with
  | CStr t => String.eqb t s
  | _ => false
  end.

Definition is_text (c : cell) : bool :=
  match c with
  | CStr _ => true
  | _ => false
  end.

(** [get_column_name(df, possible_names)]: the same function is defined in
    stats_logic, preprocessor and models. *)
Definition get_column_name (df : DataFrame) (possible_names : list string)
  : option string :=
  find (fun name => existsb (String.eqb name) (columns df)) possible_names.

(** [Series.unique()]: first occurrences, in order. *)
Fixpoint unique (l : list string) : list string :=
  match l with
  | [] => []
  | x :: xs => x :: filter (fun y => negb (String.eqb y x)) (unique xs)
  end.

(** ** Functions from outside the repository *)

Record Python : Type := {
  (** [difflib.get_close_matches(word, possibilities, n, cutoff)] *)
  get_close_matches : string -> list string -> nat -> R -> list string;
  (** [str(x)] for a float [x] *)
  float_repr : R -> string;
  (** [int(s)] for a string; [None] stands for [ValueError] *)
  py_int : string -> option Z;
  (** [float(s)] for a string *)
  py_float : string -> outcome R;
  (** [get_platoon_modifier(pitcher_hand, batter_hand)]: models.py imports
      this name from modifiers and calls it at line 168; modifiers.py
      defines no function of that name, and no other file does.  What the
      name is bound to when [project_strikeouts] runs is a parameter. *)
  get_platoon_modifier : string -> string -> outcome R
}.

(** [Series.astype(str)] on one cell. *)
Definition astype_str (py : Python) (c : cell) : string :=
  match c with
  | CStr s => s
  | CNum r => float_repr py r
  | CNaN => "nan"
  end.

(** ** constants.py *)

Definition LEAGUE_AVG_PITCHER_K_PCT : R := 0.225.
Definition LEAGUE_AVG_TEAM_K_PCT : R := 0.195.
Definition LEAGUE_AVG_K : R := 6.5.

Definition PLATOON_MATCHUPS : list ((string * string) * R) :=
  [ (("L", "L"), 0.93);
    (("L", "R"), 1.07);
    (("R", "R"), 0.95);
    (("R", "L"), 1.05) ].

Definition PARK_FACTORS : dict R :=
  [ ("Angel Stadium", 0.980);
    ("Busch Stadium", 0.970);
    ("Chase Field", 1.030);
    ("Citizens Bank Park", 1.020);
    ("Citi Field", 1.030);
    ("Comerica Park", 0.950);
    ("Coors Field", 0.930);
    ("Dodger Stadium", 1.000);
    ("Fenway Park", 0.960);
    ("Globe Life Field", 0.980);
    ("Great American Ball Park", 1.070);
    ("Guaranteed Rate Field", 1.050);
    ("Kauffman Stadium", 0.960);
    ("loanDepot Park", 0.970);
    ("Minute Maid Park", 1.010);
    ("Nationals Park", 1.020);
    ("Oakland Coliseum", 0.940);
    ("Oracle Park", 1.030);
    ("Petco Park", 0.970);
    ("PNC Park", 1.000);
    ("Progressive Field", 0.990);
    ("Rogers Centre", 1.000);
    ("T-Mobile Park", 0.980);
    ("Target Field", 1.000);
    ("Tropicana Field", 0.980);
    ("Truist Park", 1.030);
    ("Wrigley Field", 1.010);
    ("Yankee Stadium", 1.050);
    ("American Family Field", 1.020);
    ("Oriole Park at Camden Yards", 1.010) ].

Definition CATCHER_FRAMING_DICT : dict R :=
  [ ("Jonah Heim", 0.00);
    ("Logan O'Hoppe", -0.33);
    ("Francisco Alvarez", -0.22);
    ("Connor Wong", 0.11);
    ("Korey Lee", 0.00);
    ("Jose Trevino", 0.00);
    ("Henry Davis", -0.11);
    ("Salvador Perez", 0.11);
    ("Keibert Ruiz", -0.44);
    ("Sean Murphy", 0.00);
    ("Kyle Higashioka", 0.11);
    ("Cal Raleigh", 0.22);
    ("Patrick Bailey", 0.44);
    ("Yainer Diaz", -0.22);
    ("Gabriel Moreno", 0.33) ].

Definition TEAM_ABBREV_MAP : dict (list string) :=
  [ ("BAL", ["BAL"; "BLT"; "BALT"; "BALTI"]);
    ("BOS", ["BOS"; "BRS"; "BOST"; "REDSX"]);
    ("NYY", ["NYY"; "NYA"; "NY"; "YANKS"]);
    ("TBR", ["TBR"; "TBA"; "TB"; "RAYS"]);
    ("TOR", ["TOR"; "TO"; "BLUEJ"; "JAYS"]);
    ("CWS", ["CWS"; "CHW"; "SOX"; "WHITESOX"]);
    ("CLE", ["CLE"; "CLV"; "CLI"; "GUARD"]);
    ("DET", ["DET"; "DT"; "TIGERS"]);
    ("KCR", ["KCR"; "KC"; "ROYALS"]);
    ("MIN", ["MIN"; "MN"; "TWINS"]);
    ("HOU", ["HOU"; "HST"; "ASTROS"]);
    ("LAA", ["LAA"; "ANA"; "ANGELS"]);
    ("OAK", ["OAK"; "OAS"; "ATHLETICS"]);
    ("SEA", ["SEA"; "SE"; "MARINERS"]);
    ("TEX", ["TEX"; "TEXA"; "RANGERS"]);
    ("ATL", ["ATL"; "AT"; "BRAVES"]);
    ("MIA", ["MIA"; "FLA"; "MARLINS"]);
    ("NYM", ["NYM"; "NYN"; "METS"]);
    ("PHI", ["PHI"; "PHIL"; "PHILLIES"]);
    ("WSN", ["WSN"; "WSH"; "WAS"; "NATS"]);
    ("CHC", ["CHC"; "CHN"; "CUBS"]);
    ("CIN", ["CIN"; "REDS"]);
    ("MIL", ["MIL"; "MLW"; "BREWERS"]);
    ("PIT", ["PIT"; "PITT"; "PIRATES"]);
    ("STL", ["STL"; "SL"; "CARDINALS"]);
    ("ARI", ["ARI"; "AZ"; "DBACKS"]);
    ("COL", ["COL"; "CO"; "ROCKIES"]);
    ("LAD", ["LAD"; "LA"; "DODGERS"]);
    ("SDP", ["SDP"; "SD"; "PADRES"]);
    ("SFG", ["SFG"; "SF"; "GIANTS"]) ].

(** The loop that fills [TEAM_ABBREV_REVERSE_MAP]: every variant, in the
    order of the table, is set to its official code. *)
Definition TEAM_ABBREV_REVERSE_MAP : dict string :=
  fold_left
    (fun reverse_map entry =>
       fold_left (fun reverse_map variant =>
                    dict_set reverse_map variant (fst entry))
                 (snd entry) reverse_map)
    TEAM_ABBREV_MAP [].

(** [normalize_team_abbrev] on ASCII text: direct match of the trimmed,
    upper-cased input, then of its letters alone, then the table of
    substitutions. *)
Definition normalize_team_abbrev (team_input : string) : option string :=
  match team_input with
  | EmptyString => None
  | _ =>
      let cleaned := upper (strip team_input) in
      match dict_find TEAM_ABBREV_REVERSE_MAP cleaned with
      | Some official => Some official
      | None =>
          let alpha_only :=
            filter_string (fun c => is_upper c || is_lower c) cleaned in
          match dict_find TEAM_ABBREV_REVERSE_MAP alpha_only with
          | Some official => Some official
          | None =>
              let substitutions : dict (list string) :=
                [ ("NYY", ["YANKEES"; "YANKS"]);
                  ("BOS", ["REDSOX"; "RED SOX"]);
                  ("CHC", ["CUBS"]);
                  ("CHW", ["WHITESOX"; "WHITE SOX"]) ] in
              match find (fun item => existsb (String.eqb cleaned) (snd item))
                         substitutions with
              | Some (official, _) => Some official
              | None => None
              end
          end
      end
  end.

(** ** Data read from the caches *)

(** The [innings_pitched] entry of a game log in the pitcher cache: the
    scraper stores the text sent by the MLB API (for instance "6.1"), and
    [parse_ip] accepts a number as well. *)
Inductive ip_entry : Type :=
| IPNum (r : R)
| IPStr (s : string).

(** One game log; [None] is a key that the JSON object does not have. *)
Record GameLog : Type := {
  strikeouts : option R;
  innings_pitched : option ip_entry
}.

(** A batter after [preprocess_batter_from_lineup]. *)
Record Batter : Type := {
  name : string;
  hand : string;
  k_percent : R;
  woba : R;
  whiff_percent : R;
  put_away : R;
  matched : bool;
  pitch_type : string
}.

Definition cell_eq_dec (x y : cell) : {x = y} + {x <> y}.
Proof.
  decide equality; [apply Req_dec_T | apply string_dec].
Defined.

(** [l[i] = f(l[i])] for an index inside the list. *)
Fixpoint update_at (i : nat) (f : R -> R) (l : list R) : list R :=
  match l, i with
  | [], _ => []
  | x :: xs, O => f x :: xs
  | x :: xs, S j => x :: update_at j f xs
  end.

(** The row lookup shared by the two [get_recent_team_row] functions:
    exact match on the trimmed, upper-cased team name, then the closest
    candidate with similarity at least 0.8.  The row comes back as a
    [dict] that still holds the scratch column [_temp_team]. *)
Definition team_row_lookup (py : Python) (team_col team_name : string)
  (df : DataFrame) : option Series :=
  let team_name := upper (strip team_name) in
  let temp_team :=
    map (fun row => (upper (strip (astype_str py (series_at row team_col))), row))
        (rows df) in
  let to_dict (tr : string * Series) :=
    dict_set (snd tr) "_temp_team" (CStr (fst tr)) in
  match filter (fun tr => String.eqb (fst tr) team_name) temp_team with
  | tr :: _ => Some (to_dict tr)
  | [] =>
      let candidates := unique (map fst temp_team) in
      match get_close_matches py team_name candidates 1 0.8 with
      | m :: _ =>
          match filter (fun tr => String.eqb (fst tr) m) temp_team with
          | tr :: _ => Some (to_dict tr)
          | [] => None
          end
      | [] => None
      end
  end.

(** ** stats_logic.py *)

Module StatsLogic.

Definition alpha_default : R := 0.25.

Definition calculate_ewma (values : list R) (alpha : R) : R :=
  match values with
  | [] => 5.0
  | _ =>
      let weights :=
        map (fun i : nat => exp (- alpha * INR i))
            (rev (seq 0 (List.length values))) in
      let total := sum weights in
      let weights := map (fun w => w / total) weights in
      dot weights values
  end.

Section WithPython.
Variable py : Python.

Definition get_recent_team_row (team_name : string) (df : DataFrame)
  : option Series :=
  if df_empty df then None
  else match get_column_name df ["Team"; "team"; "Tm"; "tm"; "TEAM"] with
       | None => None
       | Some team_col => team_row_lookup py team_col team_name df
       end.

(** The body of the [try] block of [scale_ip_mean]. *)
Definition scale_ip_mean_try (base_ip : R) (opponent hand park : string)
  (l21_lhp l21_rhp delta_lhp delta_rhp : DataFrame) : outcome R :=
  let recent_df := if String.eqb hand "L" then l21_lhp else l21_rhp in
  let delta_df := if String.eqb hand "L" then delta_lhp else delta_rhp in
  let recent_data := get_recent_team_row opponent recent_df in
  let delta_data := get_recent_team_row opponent delta_df in
  let ip_factor := 1.0 in
  let park_factor := dict_get PARK_FACTORS park 1.0 in
  let ip_factor := ip_factor * park_factor in
  ip_factor <-
    match recent_data with
    | Some recent_data =>
        k_pct <- as_float
                   (dict_get recent_data "k_pct"
                      (dict_get recent_data "K%" (CNum LEAGUE_AVG_TEAM_K_PCT))) ;;
        let k_pct := if Rlt_dec 1.0 k_pct then k_pct / 100 else k_pct in
        k_factor <- py_pow (k_pct / LEAGUE_AVG_TEAM_K_PCT) 0.5 ;;
        Ok (ip_factor * k_factor)
    | None => Ok ip_factor
    end ;;
  ip_factor <-
    match delta_data with
    | Some delta_data =>
        wrc_delta <- as_float
                       (dict_get delta_data "wRC+"
                          (dict_get delta_data "wrc_plus" (CNum 0))) ;;
        ratio <- (if Req_dec_T (100 + wrc_delta) 0
                  then Raise ZeroDivisionError
                  else Ok (100 / (100 + wrc_delta))) ;;
        wrc_factor <- py_pow ratio 0.3 ;;
        Ok (ip_factor * wrc_factor)
    | None => Ok ip_factor
    end ;;
  Ok (base_ip * clip ip_factor 0.8 1.2).

Definition scale_ip_mean (base_ip : R) (opponent hand park : string)
  (l21_lhp l21_rhp delta_lhp delta_rhp : DataFrame) : outcome R :=
  catch
    (scale_ip_mean_try base_ip opponent hand park
       l21_lhp l21_rhp delta_lhp delta_rhp)
    (fun _ => Ok (Rmin (Rmax base_ip 4.0) 6.5)).

End WithPython.
End StatsLogic.

(** ** modifiers.py *)

Module Modifiers.

Definition calculate_catcher_framing_modifier (catcher_name : string) : R :=
  let mod_ := dict_get CATCHER_FRAMING_DICT catcher_name 0.0 in
  let percent_mod := mod_ * -3.94 in
  let multiplier := 1 + (percent_mod / 100.0) in
  clip multiplier 0.95 1.05.

Definition get_park_modifier (park_name : string) : R :=
  let normalized := lower (strip park_name) in
  match find (fun item => contains normalized (lower (fst item))) PARK_FACTORS with
  | Some (_, mod_) => mod_
  | None => 1.0
  end.

(** [get_dynamic_platoon_modifier], the only platoon function that
    modifiers.py defines: one plus the gap between the pitcher's K% against the
    batter's side and the league average, capped at 3 points either way.
    No function of the repository calls it.  [df["Name"]] and
    [pitcher_row["K%"]] raise [KeyError] on a missing column, which the
    handler of [IndexError] lets through. *)
Definition get_dynamic_platoon_modifier (pitcher_name pitcher_hand batter_hand : string)
  (vs_lhh_df vs_rhh_df : DataFrame) (league_avg_k_pct : R) : outcome R :=
  let pitcher_name := strip pitcher_name in
  let df := if String.eqb batter_hand "L" then vs_lhh_df else vs_rhh_df in
  if negb (has_column df "Name") then Raise KeyError
  else match filter (fun row => cell_is (series_at row "Name") pitcher_name)
                    (rows df) with
       | [] => Ok 1.0
       | pitcher_row :: _ =>
           if negb (has_column df "K%") then Raise KeyError
           else
             k_pct <- as_float (series_at pitcher_row "K%") ;;
             let delta := Rmax (Rmin (k_pct - league_avg_k_pct) 0.03) (-0.03) in
             Ok (1.0 + delta)
       end.

Definition get_dynamic_weights {A : Type}
  (eq_dec : forall x y : A, {x = y} + {x <> y})
  (pitcher_hand : string) (pitch_types : list A) : list R :=
  let weights := [0.3; 0.25; 0.25; 0.2; 0.2] in
  if Nat.eqb (List.length (nodup eq_dec pitch_types)) 1 then
    let weights := update_at 4 (fun w => w + 0.1) weights in
    let weights := update_at 0 (fun w => w - 0.05) weights in
    let weights := update_at 2 (fun w => w - 0.05) weights in
    weights
  else weights.

(** [log.get('strikeouts', 0) / log.get('innings_pitched', 1)] on the
    values of the JSON object. *)
Definition log_k_rate (log : GameLog) : outcome R :=
  let ks := match strikeouts log with Some k => k | None => 0 end in
  match innings_pitched log with
  | None => Ok (ks / 1)
  | Some (IPNum ip) =>
      if Req_dec_T ip 0 then Raise ZeroDivisionError else Ok (ks / ip)
  | Some (IPStr _) => Raise TypeError
  end.

(** A text cell raises [TypeError] at the first arithmetic on it; the
    quotients of the game logs raise as [log_k_rate] says.  The record is
    a row of the pitcher table, whose numbers are numpy floats: with a K%
    of zero, [recent_k_rate / k_pct] raises nothing and is an infinity,
    which [np.clip] brings to 1.1 (positive recent rate) or 0.9 (negative
    one), or NaN (0 / 0), which stays. *)
Definition calculate_stuff_modifier (pitcher_row : Series) (logs : list GameLog)
  : outcome R :=
  let stuff_plus := dict_get pitcher_row "Stuff+" (CNum 100.0) in
  let k_pct := dict_get pitcher_row "k_pct" (CNum 0.22) in
  let swstr := dict_get pitcher_row "SwStr%" (CNum 0.105) in
  let csw := dict_get pitcher_row "CSW%" (CNum 0.27) in
  let velo := dict_get pitcher_row "FBv" (CNum 92.0) in
  let chase := dict_get pitcher_row "O-Swing%" (CNum 0.30) in
  let z_contact := dict_get pitcher_row "Z-Contact%" (CNum 0.88) in
  stuff_plus <- as_float stuff_plus ;;
  let stuff_score := (stuff_plus - 100) / 125 in
  velo <- as_float velo ;;
  let velo_score := (velo - 92) * 0.008 in
  recent <- match logs with
            | [] => Ok None
            | _ => rates <- traverse log_k_rate (last_n 3 logs) ;;
                   Ok (Some (mean rates))
            end ;;
  k_pct <- as_float k_pct ;;
  let recent_k_rate := match recent with Some r => r | None => k_pct end in
  recent_factor <-
    (if Req_dec_T k_pct 0 then
       if Rlt_dec 0 recent_k_rate then Ok 1.1
       else if Rlt_dec recent_k_rate 0 then Ok 0.9
       else Undetermined
     else Ok (clip (recent_k_rate / k_pct) 0.9 1.1)) ;;
  let k_score := (k_pct - 0.22) * 1.2 * recent_factor in
  swstr <- as_float swstr ;;
  let swstr_score := (swstr - 0.11) * 0.7 in
  chase <- as_float chase ;;
  z_contact <- as_float z_contact ;;
  let chase_whiff := (chase - 0.28) * 0.5 - (z_contact - 0.87) * 0.5 in
  csw <- as_float csw ;;
  let total :=
    stuff_score * 0.35 +
    velo_score * 0.15 +
    k_score * 0.8 +
    swstr_score * 0.6 +
    chase_whiff * 0.4 +
    (csw - 0.27) * 0.3 in
  let final_mod := clip (1 + total) 0.85 1.20 in
  Ok final_mod.

Record LeagueAvg : Type := {
  avg_k : R;
  avg_woba : R;
  avg_whiff : R;
  avg_putaway : R
}.

Definition league_avgs : dict LeagueAvg :=
  [ ("Breaking", {| avg_k := 0.25; avg_woba := 0.320;
                    avg_whiff := 0.30; avg_putaway := 0.18 |});
    ("Fastball", {| avg_k := 0.18; avg_woba := 0.350;
                    avg_whiff := 0.15; avg_putaway := 0.12 |});
    ("Offspeed", {| avg_k := 0.22; avg_woba := 0.330;
                    avg_whiff := 0.25; avg_putaway := 0.16 |}) ].

Definition league_avgs_Breaking : LeagueAvg :=
  {| avg_k := 0.25; avg_woba := 0.320; avg_whiff := 0.30; avg_putaway := 0.18 |}.

(** The modifier of one batter inside the loop of
    [calculate_batter_vulnerability_mod]. *)
Definition batter_mod (avg : LeagueAvg) (pitcher_hand : string)
  (pitcher_quality : R) (batter : Batter) : R :=
  let batter_hand := hand batter in
  let platoon_boost :=
    if negb (String.eqb pitcher_hand batter_hand) then 1.1 else 0.95 in
  let vulnerability_score :=
    (0.30 * (k_percent batter - avg_k avg) +
     0.25 * (whiff_percent batter - avg_whiff avg) +
     0.15 * (put_away batter - avg_putaway avg) -
     0.30 * (woba batter - avg_woba avg))
    * platoon_boost * pitcher_quality in
  clip (1 + vulnerability_score * 1.8) 0.85 1.15.

(** [pitch_type] is the putaway pitch, a cell of the pitcher table;
    [pitcher_quality] keeps its default 1.0 in the only call. *)
Definition calculate_batter_vulnerability_mod (batters : list Batter)
  (pitch_type : cell) (pitcher_hand : string) (pitcher_quality : R) : R :=
  match batters with
  | [] => 1.0
  | _ =>
      let avg :=
        match pitch_type with
        | CStr s => dict_get league_avgs s league_avgs_Breaking
        | _ => league_avgs_Breaking
        end in
      let modifiers := map (batter_mod avg pitcher_hand pitcher_quality) batters in
      mean modifiers
  end.

Section WithPython.
Variable py : Python.

Definition get_recent_team_row (team_name : string) (df : DataFrame)
  : option Series :=
  match get_column_name df ["Team"; "team"; "Tm"; "tm"] with
  | None => None
  | Some team_col => team_row_lookup py team_col team_name df
  end.

(** The body of the [try] block of [calculate_team_trend_modifier].  A
    text cell raises [TypeError], the recent one at [rec_k > 1.0] and the
    delta one at the sum.  A NaN cell (an empty field of the CSV) raises
    nothing: the comparison is false, [trend_mod] is NaN and [np.clip]
    returns NaN.  [Undetermined] is exactly that run. *)
Definition calculate_team_trend_modifier_try (team_name pitcher_hand : string)
  (l21_lhp_df l21_rhp_df delta_lhp_df delta_rhp_df : DataFrame) : outcome R :=
  let '(recent_df, delta_df) :=
    if String.eqb pitcher_hand "L" then (l21_lhp_df, delta_lhp_df)
    else (l21_rhp_df, delta_rhp_df) in
  let team_recent := get_recent_team_row team_name recent_df in
  let team_delta := get_recent_team_row team_name delta_df in
  match team_recent, team_delta with
  | Some team_recent, Some team_delta =>
      let rec_k := dict_get team_recent "k_pct" (CNum LEAGUE_AVG_TEAM_K_PCT) in
      let delta_k := dict_get team_delta "k_pct" (CNum 0.00) in
      match rec_k, delta_k with
      | CStr _, _ => Raise TypeError
      | _, CStr _ => Raise TypeError
      | CNum rec_k, CNum delta_k =>
          let rec_k := if Rlt_dec 1.0 rec_k then rec_k / 100 else rec_k in
          let trend_mod := 0.98 + 0.25 * (rec_k / LEAGUE_AVG_TEAM_K_PCT) + delta_k in
          Ok (clip trend_mod 0.85 1.15)
      | _, _ => Undetermined
      end
  | _, _ => Raise ValueError
  end.

Definition calculate_team_trend_modifier (team_name pitcher_hand : string)
  (l21_lhp_df l21_rhp_df delta_lhp_df delta_rhp_df : DataFrame) : outcome R :=
  catch
    (calculate_team_trend_modifier_try team_name pitcher_hand
       l21_lhp_df l21_rhp_df delta_lhp_df delta_rhp_df)
    (fun _ => Ok (if String.eqb pitcher_hand "L" then 1.05 else 1.02)).

End WithPython.
End Modifiers.

(** ** preprocessor.py *)

Module Preprocessor.

(** An element of the [lineup] array of a cached lineup file: a JSON
    object with optional [name] and [hand], or a value of another kind. *)
Inductive lineup_entry : Type :=
| BatterDict (name hand : option string)
| NotADict.

Definition LEAGUE_AVG_STATS_Breaking (name hand : string) : Batter :=
  {| name := name; hand := hand;
     k_percent := 0.25; woba := 0.320; whiff_percent := 0.30; put_away := 0.18;
     matched := false; pitch_type := "Breaking" |}.

(** [re.sub(r'[^a-zA-Z.]', '', raw_name).lower()] *)
Definition clean_dotted (raw_name : string) : string :=
  lower (filter_string
           (fun c => is_upper c || is_lower c || Ascii.eqb c "."%char)
           raw_name).

(** Reading a name that the module neither defines nor imports. *)
Definition undefined_name {A : Type} : outcome A := Raise NameError.

(** [preprocess_batter_from_lineup] on a JSON object.  preprocessor.py
    defines neither [expand_initials] nor [putaway_pitch].  The call of
    the first, made for a name with a dot, is outside the [try] block.
    The second is read in the third statement of the [try] block, before
    [get_batter_stats] is called; the handler returns the league averages
    of the Breaking category. *)
Definition preprocess_batter_from_lineup (name hand : option string)
  : outcome Batter :=
  let raw_name := strip (match name with Some n => n | None => "" end) in
  let clean_name := clean_dotted raw_name in
  _ <- (if contains "." clean_name then @undefined_name string
        else Ok clean_name) ;;
  catch
    (putaway_pitch <- @undefined_name string ;;
     (* get_batter_stats and the return of its figures: never reached *)
     Undetermined)
    (fun _ =>
       Ok (LEAGUE_AVG_STATS_Breaking
             (match name with Some n => n | None => "Unknown" end)
             (match hand with Some h => h | None => "R" end))).

Section WithPython.
Variable py : Python.

(** [parse_ip]: a number as it is; a text "w.f" gives [w + 1/3] for
    [f = "1"], [w + 2/3] for [f = "2"] and [w] otherwise; any exception
    inside gives 0.0. *)
Definition parse_ip_try (ip_str : ip_entry) : outcome R :=
  match ip_str with
  | IPNum r => Ok r
  | IPStr s =>
      let ip_str := strip s in
      if contains "." ip_str then
        match split_at "."%char ip_str with
        | Some (whole, frac) =>
            if contains "." frac then Raise ValueError
            else match py_int py whole with
                 | None => Raise ValueError
                 | Some whole =>
                     if String.eqb frac "1" then Ok (IZR whole + 1 / 3)
                     else if String.eqb frac "2" then Ok (IZR whole + 2 / 3)
                     else Ok (IZR whole)
                 end
        | None => Raise ValueError
        end
      else py_float py ip_str
  end.

Definition parse_ip (ip_str : ip_entry) : outcome R :=
  catch (parse_ip_try ip_str) (fun _ => Ok 0.0).

End WithPython.
End Preprocessor.

(** ** simulator.py *)

Module Simulator.

(** The arguments of one call [simulate_ks(adjusted_mean, base_ip,
    scaled_ip)], under the names of the parameters. *)
Record Call : Type := {
  adjusted_mean : R;
  base_ip : R;
  scaled_ip : R
}.

(** The deterministic head of [simulate_ks]: [None] when the function
    returns the all-zero sample, otherwise the rate of the Poisson draws.
    The draws themselves are random and are not modelled. *)
Definition k_rate_per_inning (c : Call) : option R :=
  if Rle_dec (adjusted_mean c) 0 then None
  else if Rle_dec (base_ip c) 0 then None
  else if Rle_dec (scaled_ip c) 0 then None
  else Some (adjusted_mean c / base_ip c).

(** The two random sources of [simulate_ks], [np.random.normal(loc,
    scale)] and [np.random.poisson(lam)], each as one draw that passes the
    state of the generator along. *)
Record Generator (S : Type) : Type := {
  normal : R -> R -> S -> R * S;
  poisson : R -> S -> nat * S
}.

Arguments normal {S} g loc scale s.
Arguments poisson {S} g lam s.

Section WithGenerator.
Context {S : Type} (g : Generator S).

(** [np.random.normal(loc, scale, size=n)] *)
Fixpoint normal_samples (loc scale : R) (n : nat) (s : S) : list R * S :=
  match n with
  | O => ([], s)
  | Datatypes.S m =>
      let (x, s1) := normal g loc scale s in
      let (xs, s2) := normal_samples loc scale m s1 in
      (x :: xs, s2)
  end.

(** [for _ in range(full): ks += np.random.poisson(k_rate_per_inning)] *)
Fixpoint full_innings (k_rate_per_inning : R) (full : nat) (s : S) : nat * S :=
  match full with
  | O => (O, s)
  | Datatypes.S m =>
      let (k, s1) := poisson g k_rate_per_inning s in
      let (ks, s2) := full_innings k_rate_per_inning m s1 in
      ((k + ks)%nat, s2)
  end.

(** The body of the loop over [ip_samples]: [int(ip)] and [ip % 1] are
    the integer and the fractional part of an innings figure, which is
    positive after the clamp to [3.0, 8.0]. *)
Definition trial (k_rate_per_inning ip : R) (s : S) : nat * S :=
  let full := Z.to_nat (Int_part ip) in
  let frac := frac_part ip in
  let (ks, s1) := full_innings k_rate_per_inning full s in
  if Rlt_dec 0 frac then
    let (k, s2) := poisson g (k_rate_per_inning * frac) s1 in
    ((ks + k)%nat, s2)
  else (ks, s1).

Fixpoint trials (k_rate_per_inning : R) (ip_samples : list R) (s : S)
  : list nat * S :=
  match ip_samples with
  | [] => ([], s)
  | ip :: rest =>
      let (ks, s1) := trial k_rate_per_inning ip s in
      let (ks_samples, s2) := trials k_rate_per_inning rest s1 in
      (ks :: ks_samples, s2)
  end.

(** [simulate_ks]; the caller leaves [n] at its default 20000. *)
Definition simulate_ks (adjusted_mean base_ip scaled_ip : R) (n : nat) (s : S)
  : list nat * S :=
  match k_rate_per_inning
          {| adjusted_mean := adjusted_mean; base_ip := base_ip;
             scaled_ip := scaled_ip |} with
  | None => (repeat O n, s)
  | Some k_rate_per_inning =>
      let (ip_samples, s1) := normal_samples scaled_ip 1.0 n s in
      let ip_samples := map (fun ip => clip ip 3.0 8.0) ip_samples in
      trials k_rate_per_inning ip_samples s1
  end.

End WithGenerator.
End Simulator.

(** ** models.py *)

Module Models.

(** The JSON object of a pitcher cache file, after the three [data.get]
    calls: a missing [logs] key reads as the empty list. *)
Record PitcherCache : Type := {
  logs : list GameLog;
  cache_hand : option string;
  cache_team : option string
}.

(** What the function reads from disk.  [cache_file] maps the safe name of
    a pitcher to the content of cache/<safe name>_2025.json, [None] when
    the file does not exist.  [cached_lineup] is [load_cached_lineup]
    followed by [.get("lineup", [])], [None] when the loader raises.  The
    five tables are the CSV files as [pd.read_csv] returns them. *)
Record Env : Type := {
  cache_file : string -> option PitcherCache;
  cached_lineup : string -> option (list Preprocessor.lineup_entry);
  FINAL_PITCHER_FILE : DataFrame;
  TEAM_TRENDS_LHP_L21 : DataFrame;
  TEAM_TRENDS_RHP_L21 : DataFrame;
  TEAM_TRENDS_LHP_DELTA : DataFrame;
  TEAM_TRENDS_RHP_DELTA : DataFrame
}.

(** The values computed by [project_strikeouts] on a run that reaches its
    last [return], under the names of the local variables; [samples] is
    the call of the simulator, whose random draws (and the percentiles and
    rounded figures derived from them) are not modelled. *)
Record Projection : Type := {
  ks_logs : list R;
  ip_logs : list R;
  pitcher_hand : string;
  opponent_lineup : list Batter;
  matchup_mod : R;
  platoon_mod : R;
  park_mod : R;
  team_trend_mod : R;
  putaway_pitch : cell;
  stuff_mod : R;
  framing_mod : R;
  batter_vuln_mod : R;
  weights : list R;
  base_ks : R;
  base_ip : R;
  scaled_ip : R;
  dispersion : R;
  total_mod : R;
  adjusted_mean : R;
  samples : Simulator.Call
}.

(** [load_normalized_trend_df]: the CSV with its column names lower-cased,
    "%" replaced by "pct", "+" by "plus", and trimmed. *)
Definition normalize_column (c : string) : string :=
  strip (replace_char "+"%char "plus" (replace_char "%"%char "pct" (lower c))).

Definition load_normalized_trend_df (csv : DataFrame) : DataFrame :=
  {| columns := map normalize_column (columns csv);
     rows := map (map (fun kv => (normalize_column (fst kv), snd kv))) (rows csv) |}.

(** The handler of lines 158-161: it prints
    [sorted(trend_df['Team'].unique())], and [sorted] raises [TypeError]
    on a column that mixes text with numbers or NaN. *)
Definition league_average_fallback (trend_df : DataFrame) : outcome R :=
  let teams := map (fun row => series_at row "Team") (rows trend_df) in
  if forallb is_text teams || forallb (fun c => negb (is_text c)) teams
  then Ok LEAGUE_AVG_TEAM_K_PCT
  else Raise TypeError.

(** Lines 153-164: the K% of the opponent in the raw L21 table, the
    league average on [IndexError] or NaN.  A text cell passes
    [pd.isna] and fails the [.1f] format of the next print. *)
Definition lookup_team_k_pct (trend_df : DataFrame) (opponent_team : string)
  : outcome R :=
  if negb (has_column trend_df "Team") then Raise KeyError
  else if negb (has_column trend_df "K%") then Raise KeyError
  else match filter (fun row => cell_is (series_at row "Team") opponent_team)
                    (rows trend_df) with
       | [] => league_average_fallback trend_df
       | row :: _ =>
           match series_at row "K%" with
           | CNaN => league_average_fallback trend_df
           | CNum team_k_pct => Ok team_k_pct
           | CStr _ => Raise ValueError
           end
       end.

(** The [.str] accessor of a column: pandas reads a column without any
    text cell as numbers, and [.str] then raises [AttributeError]. *)
Definition str_accessor (df : DataFrame) (col : string) : outcome unit :=
  match rows df with
  | [] => Ok tt
  | _ => if existsb (fun row => is_text (series_at row col)) (rows df)
         then Ok tt else Raise AttributeError
  end.

(** The JSON objects of a lineup array ([isinstance(b, dict)]). *)
Fixpoint dict_entries (raw_lineup : list Preprocessor.lineup_entry)
  : list (option string * option string) :=
  match raw_lineup with
  | [] => []
  | Preprocessor.BatterDict n h :: l => (n, h) :: dict_entries l
  | Preprocessor.NotADict :: l => dict_entries l
  end.

Section WithPython.
Variable py : Python.
Variable env : Env.

Definition safe_name (pitcher_name : string) : string :=
  lower (replace_char " "%char "_" pitcher_name).

Definition get_recent_ks_and_ip (pitcher_name : string)
  : outcome (list R * list R * string * string * list GameLog) :=
  match cache_file env (safe_name pitcher_name) with
  | None => Raise FileNotFoundError
  | Some data =>
      let logs := logs data in
      let ks := map (fun log => match strikeouts log with
                                | Some k => k | None => 0 end) logs in
      ip <- traverse
              (fun log => Preprocessor.parse_ip py
                            (match innings_pitched log with
                             | Some v => v | None => IPNum 0 end)) logs ;;
      let hand := match cache_hand data with Some h => h | None => "R" end in
      let team := match cache_team data with Some t => t | None => "UNK" end in
      Ok (ks, ip, hand, team, logs)
  end.

(** [df[name_col].str.strip().str.lower() == key]: only text cells have a
    [.str] value. *)
Definition str_name_is (key : string) (c : cell) : bool :=
  match c with
  | CStr s => String.eqb (lower (strip s)) key
  | _ => false
  end.

Definition get_putaway_pitch (pitcher_name : string) (pitcher_df : DataFrame)
  (opponent_lineup : list Batter) : outcome cell :=
  match get_column_name pitcher_df ["Name"; "name"; "pitcher_name"; "player_name"] with
  | None => Ok (CStr "SL")
  | Some name_col =>
      _ <- str_accessor pitcher_df name_col ;;
      match filter (fun row => str_name_is (lower pitcher_name) (series_at row name_col))
                   (rows pitcher_df) with
      | [] => Ok (CStr "SL")
      | row :: _ =>
          let n_left :=
            List.length (filter (fun b => String.eqb (hand b) "L") opponent_lineup) in
          let n_right := (List.length opponent_lineup - n_left)%nat in
          let lhb_col := get_column_name pitcher_df
                           ["Putaway vs LHB"; "putaway_vs_lhb"; "LHB_putaway"] in
          let rhb_col := get_column_name pitcher_df
                           ["Putaway vs RHB"; "putaway_vs_rhb"; "RHB_putaway"] in
          match lhb_col, rhb_col with
          | Some lhb_col, Some rhb_col =>
              if (n_right <? n_left)%nat then Ok (series_at row lhb_col)
              else Ok (series_at row rhb_col)
          | _, _ => Ok (CStr "SL")
          end
      end
  end.

(** [df[name_col].astype(str).str.strip().str.lower()] on one row. *)
Definition normalized_name (name_col : string) (row : Series) : string :=
  lower (strip (astype_str py (series_at row name_col))).

(** Lines 191-208: the rows of the pitcher, by exact match on the
    normalized name, else by the first of the three closest names
    (similarity at least 0.6) that selects a row. *)
Definition find_pitcher_rows (pitcher_df : DataFrame) (name_col pitcher_name : string)
  : list Series :=
  let rows_named key :=
    filter (fun row => String.eqb (normalized_name name_col row) key)
           (rows pitcher_df) in
  match rows_named (lower pitcher_name) with
  | (_ :: _) as pitcher_rows => pitcher_rows
  | [] =>
      let candidates := map (normalized_name name_col) (rows pitcher_df) in
      let close_matches :=
        get_close_matches py (lower pitcher_name) candidates 3 0.6 in
      match find (fun m => match rows_named m with [] => false | _ => true end)
                 close_matches with
      | Some m => rows_named m
      | None => []
      end
  end.

Definition project_strikeouts (pitcher_name opponent_team park : string)
  : outcome (option Projection) :=
  match get_recent_ks_and_ip pitcher_name with
  | Raise FileNotFoundError => Ok None
  | Raise e => Raise e
  | Undetermined => Undetermined
  | Ok (ks_logs, ip_logs, pitcher_hand, pitcher_team, logs) =>
  let framing_mod := Modifiers.calculate_catcher_framing_modifier pitcher_team in
  match cached_lineup env opponent_team with
  | None => Ok None
  | Some raw_lineup =>
  let pitcher_df := FINAL_PITCHER_FILE env in
  opponent_lineup <-
    traverse (fun b => Preprocessor.preprocess_batter_from_lineup (fst b) (snd b))
             (dict_entries raw_lineup) ;;
  match opponent_lineup with
  | [] => Ok None
  | _ =>
  let team_lookup_name := strip opponent_team in
  let trend_df :=
    if String.eqb pitcher_hand "L" then TEAM_TRENDS_LHP_L21 env
    else TEAM_TRENDS_RHP_L21 env in
  team_k_pct <- lookup_team_k_pct trend_df opponent_team ;;
  let matchup_mod :=
    clip (0.9 + 0.2 * (team_k_pct / LEAGUE_AVG_TEAM_K_PCT)) 0.85 1.15 in
  platoon_mods <-
    traverse (fun b => get_platoon_modifier py pitcher_hand (hand b))
             opponent_lineup ;;
  let platoon_mod := mean platoon_mods in
  let park_mod := Modifiers.get_park_modifier park in
  let l21_lhp_df := load_normalized_trend_df (TEAM_TRENDS_LHP_L21 env) in
  let l21_rhp_df := load_normalized_trend_df (TEAM_TRENDS_RHP_L21 env) in
  let delta_lhp_df := load_normalized_trend_df (TEAM_TRENDS_LHP_DELTA env) in
  let delta_rhp_df := load_normalized_trend_df (TEAM_TRENDS_RHP_DELTA env) in
  team_trend_mod <-
    Modifiers.calculate_team_trend_modifier py team_lookup_name pitcher_hand
      l21_lhp_df l21_rhp_df delta_lhp_df delta_rhp_df ;;
  match get_column_name pitcher_df ["Name"; "name"; "pitcher_name"; "player_name"] with
  | None => Ok None
  | Some name_col =>
  match find_pitcher_rows pitcher_df name_col pitcher_name with
  | [] => Ok None
  | pitcher_row :: _ =>
  putaway_pitch <- get_putaway_pitch pitcher_name pitcher_df opponent_lineup ;;
  stuff_mod <- Modifiers.calculate_stuff_modifier pitcher_row logs ;;
  let weights := Modifiers.get_dynamic_weights cell_eq_dec pitcher_hand [putaway_pitch] in
  let base_ks :=
    match ks_logs with
    | [] => LEAGUE_AVG_K
    | _ => StatsLogic.calculate_ewma ks_logs StatsLogic.alpha_default
    end in
  let base_ip :=
    match ip_logs with
    | [] => 5.0
    | _ => StatsLogic.calculate_ewma ip_logs StatsLogic.alpha_default
    end in
  scaled_ip <-
    catch (StatsLogic.scale_ip_mean py base_ip opponent_team pitcher_hand park
             l21_lhp_df l21_rhp_df delta_lhp_df delta_rhp_df)
          (fun _ => Ok base_ip) ;;
  let dispersion :=
    if (5 <=? List.length ks_logs)%nat then std (last_n 5 ks_logs) else 1.0 in
  let batter_vuln_mod :=
    Modifiers.calculate_batter_vulnerability_mod
      opponent_lineup putaway_pitch pitcher_hand 1.0 in
  let total_mod :=
    1.0 + sum [ (matchup_mod - 1) * nth 0 weights 0;
                (platoon_mod - 1) * nth 1 weights 0;
                (park_mod - 1) * nth 2 weights 0;
                (team_trend_mod - 1) * nth 3 weights 0;
                (batter_vuln_mod - 1) * nth 4 weights 0 ] in
  let total_mod := clip (total_mod * stuff_mod * framing_mod) 0.85 1.15 in
  let adjusted_mean := base_ks * total_mod in
  let samples :=
    {| Simulator.adjusted_mean := adjusted_mean;
       Simulator.base_ip := dispersion;
       Simulator.scaled_ip := scaled_ip |} in
  Ok (Some
        {| ks_logs := ks_logs; ip_logs := ip_logs; pitcher_hand := pitcher_hand;
           opponent_lineup := opponent_lineup;
           matchup_mod := matchup_mod; platoon_mod := platoon_mod;
           park_mod := park_mod; team_trend_mod := team_trend_mod;
           putaway_pitch := putaway_pitch; stuff_mod := stuff_mod;
           framing_mod := framing_mod; batter_vuln_mod := batter_vuln_mod;
           weights := weights; base_ks := base_ks; base_ip := base_ip;
           scaled_ip := scaled_ip; dispersion := dispersion;
           total_mod := total_mod; adjusted_mean := adjusted_mean;
           samples := samples |})
  end end end end end.

End WithPython.
End Models.

(** ** orchestrator.py *)

Module Orchestrator.

Definition team_schedule : dict string :=
  [ ("NYY", "BOS"); ("BOS", "NYY");
    ("LAD", "SFG"); ("SFG", "LAD");
    ("HOU", "TEX"); ("TEX", "HOU");
    ("ATL", "MIA"); ("MIA", "ATL");
    ("WSH", "PHI"); ("PHI", "WSH");
    ("KC", "CWS"); ("CWS", "KC");
    ("PIT", "MIL"); ("MIL", "PIT");
    ("NYM", "CHC"); ("CHC", "NYM");
    ("SD", "COL"); ("COL", "SD");
    ("TB", "BAL"); ("BAL", "TB");
    ("SEA", "LAA"); ("LAA", "SEA");
    ("STL", "CIN"); ("CIN", "STL");
    ("MIN", "DET"); ("DET", "MIN");
    ("TOR", "ARI"); ("ARI", "TOR") ].

Definition team_parks : dict string :=
  [ ("NYY", "Yankee Stadium"); ("BOS", "Fenway Park");
    ("LAD", "Dodger Stadium"); ("SFG", "Oracle Park");
    ("HOU", "Minute Maid Park"); ("TEX", "Globe Life Field");
    ("ATL", "Truist Park"); ("MIA", "loanDepot park");
    ("WSH", "Nationals Park"); ("PHI", "Citizens Bank Park");
    ("KC", "Kauffman Stadium"); ("CWS", "Guaranteed Rate Field");
    ("PIT", "PNC Park"); ("MIL", "American Family Field");
    ("NYM", "Citi Field"); ("CHC", "Wrigley Field");
    ("SD", "Petco Park"); ("COL", "Coors Field");
    ("TB", "Tropicana Field"); ("BAL", "Oriole Park");
    ("SEA", "T-Mobile Park"); ("LAA", "Angel Stadium");
    ("STL", "Busch Stadium"); ("CIN", "Great American Ball Park");
    ("MIN", "Target Field"); ("DET", "Comerica Park");
    ("TOR", "Rogers Centre"); ("ARI", "Chase Field") ].

Definition _find_opponent (team : string) : string :=
  dict_get team_schedule team "Unknown".

Definition _get_park_for_team (team : string) : string :=
  dict_get team_parks team "Unknown Park".

(** The dictionary that [_calculate_edge] returns. *)
Record Edge : Type := {
  projected_ks : R;
  edge : R;
  recommendation : string
}.

Section WithPython.
Variable py : Python.
Variable env : Models.Env.

(** [_get_projection]: any exception of the projection becomes [None]. *)
Definition _get_projection (pitcher opponent_team park : string)
  : outcome (option Models.Projection) :=
  catch (Models.project_strikeouts py env pitcher opponent_team park)
        (fun _ => Ok None).

End WithPython.

(** [_calculate_edge] on the line of the prop and on the [mean] entry of
    the projection, [None] when there is no projection.  [round2] is
    Python's [round(x, 2)]; with a line of zero the quotient is no real
    number. *)
Definition _calculate_edge (round2 : R -> R) (line : R) (projection : option R)
  : outcome Edge :=
  match projection with
  | None => Ok {| projected_ks := 0; edge := 0; recommendation := "SKIP" |}
  | Some projected =>
      if Req_dec_T line 0 then Undetermined
      else
        let edge_pct := ((projected - line) / line) * 100 in
        let recommendation :=
          if Rlt_dec 10 edge_pct then "OVER"
          else if Rlt_dec edge_pct (-10) then "UNDER"
          else "PASS" in
        Ok {| projected_ks := round2 projected;
              edge := round2 edge_pct;
              recommendation := recommendation |}
  end.

(** A row of the props table: the pitcher, the team and the line. *)
Record Prop_ : Type := {
  pitcher : string;
  team : string;
  line : R
}.

(** An entry of the list [projections] that [run] builds: the prop, the
    edge data, the opponent and the park. *)
Record OutputRow : Type := {
  prop : Prop_;
  edge_data : Edge;
  opponent : string;
  park : string
}.

Section WithEnv.
Variable py : Python.
Variable env : Models.Env.
Variable round2 : R -> R.

(** Step 2.5 of [run]: a pitcher is valid when the cache file exists and
    has game logs, a hand, and a team other than "UNK". *)
Definition valid_pitcher (pitcher : string) : bool :=
  match Models.cache_file env (lower (replace_char " "%char "_" pitcher)) with
  | None => false
  | Some data =>
      match Models.logs data with [] => false | _ => true end
      && match Models.cache_hand data with
         | Some hand => negb (String.eqb hand "")
         | None => false
         end
      && match Models.cache_team data with
         | Some team => negb (String.eqb team "UNK")
         | None => true
         end
  end.

Definition valid_pitchers (pitcher_names : list string) : list string :=
  filter valid_pitcher pitcher_names.

(** The body of the loop of step 3 on one prop: [None] is [continue].
    The [mean] entry of the projection is the rounded adjusted mean. *)
Definition process_prop (valid_pitchers : list string) (prop : Prop_)
  : outcome (option OutputRow) :=
  catch
    (let pitcher := pitcher prop in
     let pitcher_team := team prop in
     if negb (existsb (String.eqb pitcher) valid_pitchers) then Ok None
     else
       let opponent_team := _find_opponent pitcher_team in
       if String.eqb opponent_team "Unknown" || String.eqb opponent_team "UNK"
       then Ok None
       else
         let park := _get_park_for_team pitcher_team in
         projection <- _get_projection py env pitcher opponent_team park ;;
         match projection with
         | None => Ok None
         | Some projection =>
             edge_data <- _calculate_edge round2 (line prop)
                            (Some (round2 (Models.adjusted_mean projection))) ;;
             Ok (Some {| prop := prop; edge_data := edge_data;
                         opponent := opponent_team; park := park |})
         end)
    (fun _ => Ok None).

(** Step 3 of [run]: the list [projections], in the order of the props. *)
Definition projections (valid_pitchers : list string) (props : list Prop_)
  : outcome (list OutputRow) :=
  rows <- traverse (process_prop valid_pitchers) props ;;
  Ok (flat_map (fun row => match row with Some r => [r] | None => [] end) rows).

End WithEnv.

End Orchestrator.

(** * Vocabulary of the statements *)

(** The weight of the observation [i] places from the end in a sequence
    of [n] observations. *)
Definition ewma_weight (alpha : R) (n i : nat) : R :=
  exp (- alpha * INR i) / sum (map (fun k : nat => exp (- alpha * INR k)) (seq 0 n)).

(** A game log whose quotient strikeouts / innings is defined. *)
Definition countable_log (log : GameLog) : Prop :=
  match innings_pitched log with
  | None => True
  | Some (IPNum ip) => ip <> 0
  | Some (IPStr _) => False
  end.

(** A K% as the code uses it: a value above 1.0 is taken to be in percent
    points and divided by 100. *)
Definition as_fraction (k_pct : R) : R :=
  if Rlt_dec 1.0 k_pct then k_pct / 100 else k_pct.

(** The team has no row in the table: no cell of the team column equals
    the trimmed, upper-cased name, and difflib finds no name close to it. *)
Definition team_absent (py : Python) (team_name : string) (df : DataFrame) : Prop :=
  forall team_col : string,
    get_column_name df ["Team"; "team"; "Tm"; "tm"] = Some team_col ->
    let key (row : Series) :=
      upper (strip (astype_str py (series_at row team_col))) in
    (forall row, In row (rows df) -> key row <> upper (strip team_name)) /\
    get_close_matches py (upper (strip team_name))
      (unique (map key (rows df))) 1 0.8 = [].

(** The 2x2 table: LL 0.93, LR 1.07, RR 0.95, RL 1.05. *)
Definition platoon_table (pitcher_hand batter_hand : string) (m : R) : Prop :=
  (pitcher_hand = "L" /\ batter_hand = "L" /\ m = 0.93) \/
  (pitcher_hand = "L" /\ batter_hand = "R" /\ m = 1.07) \/
  (pitcher_hand = "R" /\ batter_hand = "R" /\ m = 0.95) \/
  (pitcher_hand = "R" /\ batter_hand = "L" /\ m = 1.05).

(** The base expected strikeouts of line 219: the EWMA of the strikeout
    logs, and the league average 6.5 when there is no log. *)
Definition base_strikeouts (ks_logs : list R) : R :=
  match ks_logs with
  | [] => LEAGUE_AVG_K
  | _ => StatsLogic.calculate_ewma ks_logs StatsLogic.alpha_default
  end.

(** The four conditions: (a) no cache file for the pitcher, (b) no cached
    lineup for the opponent, (c) no JSON object in the lineup, (d) no row
    for the pitcher in the reference table, by exact or by close match
    (which covers a table without name column). *)
Definition no_result_condition (py : Python) (env : Models.Env)
  (pitcher_name opponent_team : string) : Prop :=
  Models.cache_file env (Models.safe_name pitcher_name) = None \/
  Models.cached_lineup env opponent_team = None \/
  (exists raw_lineup,
      Models.cached_lineup env opponent_team = Some raw_lineup /\
      Models.dict_entries raw_lineup = []) \/
  (forall name_col,
      get_column_name (Models.FINAL_PITCHER_FILE env)
        ["Name"; "name"; "pitcher_name"; "player_name"] = Some name_col ->
      Models.find_pitcher_rows py (Models.FINAL_PITCHER_FILE env) name_col pitcher_name
      = []).

(** No column of the table is named [k] once the names are normalized. *)
Definition no_header (k : string) (df : DataFrame) : Prop :=
  forall row key, In row (rows df) -> In key (map fst row) ->
                  Models.normalize_column key <> k.

(** A generator that draws nothing: every normal draw is its mean, every
    Poisson draw is zero, and the state records the rates of the Poisson
    draws that were asked for, the last one first. *)
Definition rate_log : Simulator.Generator (list R) :=
  {| Simulator.normal := fun loc _ s => (loc, s);
     Simulator.poisson := fun lam s => (O, lam :: s) |}.

(** * Inputs of the closed examples *)

(** A binding of [get_platoon_modifier] for the closed examples: the
    lookup in [PLATOON_MATCHUPS], the one platoon table of the
    repository, which no function reads. *)
Definition platoon_matchup (pitcher_hand batter_hand : string) : outcome R :=
  match find (fun e => String.eqb (fst (fst e)) pitcher_hand
                       && String.eqb (snd (fst e)) batter_hand)
             PLATOON_MATCHUPS with
  | Some (_, v) => Ok v
  | None => Raise KeyError
  end.

(** Library functions for the closed examples.  The examples parse no
    text, and they call [get_close_matches] where difflib returns the
    empty list: on tables without rows, and for "max fried" against
    "gerrit cole" (similarity 0.3, below the cutoff 0.6). *)
Definition python_stub : Python :=
  {| get_close_matches := fun _ _ _ _ => [];
     float_repr := fun _ => "";
     py_int := fun _ => None;
     py_float := fun _ => Raise ValueError;
     get_platoon_modifier := platoon_matchup |}.

(** The same with the name [get_platoon_modifier] as the repository
    leaves it: bound to nothing, so that reading it raises [NameError]. *)
Definition python_unbound : Python :=
  {| get_close_matches := fun _ _ _ _ => [];
     float_repr := fun _ => "";
     py_int := fun _ => None;
     py_float := fun _ => Raise ValueError;
     get_platoon_modifier := fun _ _ => Raise NameError |}.

(** A normalized trend table without rows. *)
Definition no_rows : DataFrame :=
  {| columns := ["team"; "k_pct"]; rows := [] |}.

Definition l21_example : DataFrame :=
  {| columns := ["team"; "k_pct"];
     rows := [ [("team", CStr "BOS"); ("k_pct", CNum 0.156)] ] |}.

Definition delta_example : DataFrame :=
  {| columns := ["team"; "k_pct"];
     rows := [ [("team", CStr "BOS"); ("k_pct", CNum (-0.08))] ] |}.

(** The same tables with an empty K% field for Boston, which pandas
    reads as NaN: normalized, and as the CSV file has it. *)
Definition l21_nan_example : DataFrame :=
  {| columns := ["team"; "k_pct"];
     rows := [ [("team", CStr "BOS"); ("k_pct", CNaN)] ] |}.

Definition raw_nan_example : DataFrame :=
  {| columns := ["Team"; "K%"];
     rows := [ [("Team", CStr "BOS"); ("K%", CNaN)] ] |}.

(** A delta table whose K% entry for Boston is text. *)
Definition delta_text_example : DataFrame :=
  {| columns := ["team"; "k_pct"];
     rows := [ [("team", CStr "BOS"); ("k_pct", CStr "n/a")] ] |}.


(** A left-hander of the Yankees with one start on record (7 strikeouts
    in 6.0 innings) against a one-man Boston lineup at Fenway Park; the
    trend tables have no rows, the pitcher table has his name only. *)
Definition one_start : Models.PitcherCache :=
  {| Models.logs := [ {| strikeouts := Some 7; innings_pitched := Some (IPNum 6.0) |} ];
     Models.cache_hand := Some "L";
     Models.cache_team := Some "NYY" |}.

Definition no_starts : Models.PitcherCache :=
  {| Models.logs := [];
     Models.cache_hand := Some "L";
     Models.cache_team := Some "NYY" |}.

Definition raw_no_rows : DataFrame :=
  {| columns := ["Team"; "K%"]; rows := [] |}.

Definition pitcher_table : DataFrame :=
  {| columns := ["Name"]; rows := [ [("Name", CStr "Max Fried")] ] |}.

Definition env_of (cache : Models.PitcherCache)
  (lineup : list Preprocessor.lineup_entry) (pitchers : DataFrame) : Models.Env :=
  {| Models.cache_file :=
       fun f => if String.eqb f "max_fried" then Some cache else None;
     Models.cached_lineup :=
       fun t => if String.eqb t "BOS" then Some lineup else None;
     Models.FINAL_PITCHER_FILE := pitchers;
     Models.TEAM_TRENDS_LHP_L21 := raw_no_rows;
     Models.TEAM_TRENDS_RHP_L21 := raw_no_rows;
     Models.TEAM_TRENDS_LHP_DELTA := raw_no_rows;
     Models.TEAM_TRENDS_RHP_DELTA := raw_no_rows |}.

Definition env_one_start : Models.Env :=
  env_of one_start
    [Preprocessor.BatterDict (Some "Jarren Duran") (Some "L")] pitcher_table.

(** The same game for a pitcher whose cache file holds no game log. *)
Definition env_no_starts : Models.Env :=
  env_of no_starts
    [Preprocessor.BatterDict (Some "Jarren Duran") (Some "L")] pitcher_table.

(** The same game with a batter whose name has dots, and a pitcher table
    that lists another pitcher only. *)
Definition env_dotted_name : Models.Env :=
  env_of one_start
    [Preprocessor.BatterDict (Some "J.T. Realmuto") (Some "R")]
    {| columns := ["Name"]; rows := [ [("Name", CStr "Gerrit Cole")] ] |}.

(** A start whose innings are the text of the MLB feed. *)
Definition text_start : Models.PitcherCache :=
  {| Models.logs := [ {| strikeouts := Some 7;
                         innings_pitched := Some (IPStr "6.0") |} ];
     Models.cache_hand := Some "L";
     Models.cache_team := Some "NYY" |}.

Definition env_text_innings : Models.Env :=
  env_of text_start
    [Preprocessor.BatterDict (Some "Jarren Duran") (Some "L")] pitcher_table.

(** Trend tables as the CSV files have them, with a row for Boston. *)
Definition l21_raw : DataFrame :=
  {| columns := ["Team"; "K%"];
     rows := [ [("Team", CStr "BOS"); ("K%", CNum 0.26)] ] |}.

Definition delta_raw : DataFrame :=
  {| columns := ["Team"; "K%"; "wRC+"];
     rows := [ [("Team", CStr "BOS"); ("K%", CNum 0.02); ("wRC+", CNum 12)] ] |}.

Definition env_trends : Models.Env :=
  {| Models.cache_file :=
       fun f => if String.eqb f "max_fried" then Some one_start else None;
     Models.cached_lineup :=
       fun t => if String.eqb t "BOS"
                then Some [Preprocessor.BatterDict (Some "Jarren Duran") (Some "L")]
                else None;
     Models.FINAL_PITCHER_FILE := pitcher_table;
     Models.TEAM_TRENDS_LHP_L21 := l21_raw;
     Models.TEAM_TRENDS_RHP_L21 := l21_raw;
     Models.TEAM_TRENDS_LHP_DELTA := delta_raw;
     Models.TEAM_TRENDS_RHP_DELTA := delta_raw |}.

(** [difflib.get_close_matches] where every candidate is close: "max
    freid" against "max fried" has similarity 0.89. *)
Definition python_close : Python :=
  {| get_close_matches := fun _ possibilities n _ => firstn n possibilities;
     float_repr := fun _ => "";
     py_int := fun _ => None;
     py_float := fun _ => Raise ValueError;
     get_platoon_modifier := platoon_matchup |}.

(** A reference table with putaway pitches, and a cache file under a
    misspelled name. *)
Definition pitcher_table_putaway : DataFrame :=
  {| columns := ["Name"; "Putaway vs LHB"; "Putaway vs RHB"];
     rows := [ [("Name", CStr "Max Fried");
                ("Putaway vs LHB", CStr "CU");
                ("Putaway vs RHB", CStr "FF")] ] |}.

Definition env_misspelled : Models.Env :=
  {| Models.cache_file :=
       fun f => if String.eqb f "max_freid" then Some one_start else None;
     Models.cached_lineup :=
       fun t => if String.eqb t "BOS"
                then Some [Preprocessor.BatterDict (Some "Jarren Duran") (Some "L")]
                else None;
     Models.FINAL_PITCHER_FILE := pitcher_table_putaway;
     Models.TEAM_TRENDS_LHP_L21 := raw_no_rows;
     Models.TEAM_TRENDS_RHP_L21 := raw_no_rows;
     Models.TEAM_TRENDS_LHP_DELTA := raw_no_rows;
     Models.TEAM_TRENDS_RHP_DELTA := raw_no_rows |}.

(** Five starts of 7 strikeouts in 6.0 innings each. *)
Definition five_equal_starts : Models.PitcherCache :=
  {| Models.logs :=
       repeat {| strikeouts := Some 7; innings_pitched := Some (IPNum 6.0) |} 5;
     Models.cache_hand := Some "L";
     Models.cache_team := Some "NYY" |}.

Definition env_five_equal_starts : Models.Env :=
  env_of five_equal_starts
    [Preprocessor.BatterDict (Some "Jarren Duran") (Some "L")] pitcher_table.

(** * Properties *)

(** ** Tactics *)

(** Two lists of reals written with different numerals. *)
Ltac list_lra :=
  repeat (apply (f_equal2 (@cons R)); [lra|]); reflexivity.

(** A goal about clamped values, by cases on the comparisons. *)
Ltac solve_clip :=
  unfold clip, Rmin, Rmax; repeat destruct Rle_dec; lra.

(** Evaluation of everything but the operations on real numbers. *)
Ltac run :=
  cbv -[Rplus Rminus Rmult Rdiv Rinv Ropp IZR INR Rlt_dec Rle_dec Req_dec_T
        Rmin Rmax Rpower exp sqrt clip mean std sum dot].

Ltac run_lazy :=
  lazy -[Rplus Rminus Rmult Rdiv Rinv Ropp IZR INR Rlt_dec Rle_dec Req_dec_T
         Rmin Rmax Rpower exp sqrt clip mean std sum dot].

(** Peels the outer [match] or [bind] of a run that is known to return. *)
Ltac peel H :=
  repeat lazymatch type of H with
         | bind ?m _ = _ =>
             let E := fresh "E" in
             destruct m eqn:E; cbn [bind] in H; try discriminate H
         | catch ?m _ = _ =>
             let E := fresh "E" in
             destruct m eqn:E; cbn [catch] in H; try discriminate H
         | match ?x with _ => _ end = _ =>
             let E := fresh "E" in
             destruct x eqn:E; try discriminate H
         end.

(** ** Sums and dot products *)

Lemma sum_app (l1 l2 : list R) : sum (l1 ++ l2) = sum l1 + sum l2.
Proof.
  unfold sum. induction l1 as [|x l1 IH]; simpl; [lra | rewrite IH; lra].
Qed.

Lemma sum_rev (l : list R) : sum (rev l) = sum l.
Proof.
  induction l as [|x l IH]; simpl; [reflexivity|].
  rewrite sum_app, IH. unfold sum. simpl. lra.
Qed.

Lemma sum_map_div {A : Type} (f : A -> R) (t : R) (l : list A) :
  sum (map (fun x => f x / t) l) = sum (map f l) / t.
Proof.
  unfold sum. induction l as [|x l IH]; simpl; [lra | rewrite IH; lra].
Qed.

Lemma sum_exp_pos {A : Type} (f : A -> R) (l : list A) :
  l <> [] -> 0 < sum (map (fun x => exp (f x)) l).
Proof.
  destruct l as [|a l]; [congruence|]. intros _.
  assert (H : forall l', 0 <= sum (map (fun x => exp (f x)) l')).
  { induction l' as [|b l' IH]; unfold sum in *; simpl; [lra|].
    pose proof (exp_pos (f b)). lra. }
  unfold sum in *. simpl. pose proof (exp_pos (f a)). specialize (H l). lra.
Qed.

Lemma dot_app (a1 a2 b1 b2 : list R) :
  List.length a1 = List.length b1 ->
  dot (a1 ++ a2) (b1 ++ b2) = dot a1 b1 + dot a2 b2.
Proof.
  revert b1. induction a1 as [|x a1 IH]; intros [|y b1] Hlen;
    simpl in *; try discriminate; [lra|].
  rewrite IH by congruence. lra.
Qed.

Lemma dot_rev (a b : list R) :
  List.length a = List.length b -> dot (rev a) b = dot a (rev b).
Proof.
  revert b. induction a as [|x a IH]; intros b Hlen.
  - destruct b; [reflexivity | discriminate].
  - destruct (rev b) as [|y rb] eqn:Hrb.
    + apply (f_equal (@rev R)) in Hrb. rewrite rev_involutive in Hrb.
      subst b. discriminate.
    + assert (Hb : b = rev rb ++ [y]).
      { rewrite <- (rev_involutive b), Hrb. reflexivity. }
      subst b. rewrite length_app in Hlen. simpl in Hlen.
      simpl. rewrite dot_app by (rewrite length_rev; lia).
      rewrite IH by lia. rewrite rev_involutive. simpl. lra.
Qed.

Lemma dot_map_div {A : Type} (f : A -> R) (t : R) (l : list A) (v : list R) :
  dot (map (fun i => f i / t) l) v = dot (map f l) v / t.
Proof.
  revert v. induction l as [|i l IH]; intros [|y v]; simpl; try lra.
  rewrite IH. lra.
Qed.

(** ** C5: [calculate_ewma] *)

(** C5.  [calculate_ewma] returns 5.0 on the empty sequence.  On a
    sequence of [n > 0] observations it returns the weighted average in
    which the observation [i] places from the end ([rev values] lists them
    from the newest) has the weight [exp (- alpha * i)] divided by the sum
    of these exponentials over [i < n], so that the weights sum to 1.
    Hence [calculate_ewma [x] = x]. *)
Theorem calculate_ewma_weighted_average (alpha : R) :
  StatsLogic.calculate_ewma [] alpha = 5.0 /\
  (forall values : list R,
      values <> [] ->
      let n := List.length values in
      sum (map (ewma_weight alpha n) (seq 0 n)) = 1 /\
      StatsLogic.calculate_ewma values alpha
      = dot (map (ewma_weight alpha n) (seq 0 n)) (rev values)) /\
  (forall x : R, StatsLogic.calculate_ewma [x] alpha = x).
Proof.
  assert (Hgen : forall values : list R,
      values <> [] ->
      let n := List.length values in
      sum (map (ewma_weight alpha n) (seq 0 n)) = 1 /\
      StatsLogic.calculate_ewma values alpha
      = dot (map (ewma_weight alpha n) (seq 0 n)) (rev values)).
  { intros values Hne n.
    assert (Hn : seq 0 n <> []).
    { destruct values; [congruence | discriminate]. }
    pose proof (sum_exp_pos (fun k : nat => - alpha * INR k) (seq 0 n) Hn) as Hpos.
    split.
    - unfold ewma_weight. rewrite sum_map_div. field. lra.
    - unfold StatsLogic.calculate_ewma.
      destruct values as [|v values]; [congruence|].
      fold n. cbv zeta.
      rewrite (map_rev (fun i : nat => exp (- alpha * INR i))).
      rewrite sum_rev.
      rewrite (dot_map_div (fun w : R => w)), map_id.
      rewrite dot_rev by (now rewrite length_map, length_seq).
      unfold ewma_weight.
      rewrite (dot_map_div (fun i : nat => exp (- alpha * INR i))).
      reflexivity. }
  split; [reflexivity|]. split; [exact Hgen|].
  intro x. destruct (Hgen [x]) as [_ ->]; [discriminate|].
  unfold ewma_weight. simpl. unfold sum. simpl.
  replace (- alpha * 0) with 0 by lra. rewrite exp_0. field.
Qed.

(** ** C9: [get_dynamic_weights] *)

Section Weights.
Context {A : Type} (eq_dec : forall x y : A, {x = y} + {x <> y}).

Lemma nodup_single (a : A) (l : list A) :
  l <> [] -> (forall x, In x l -> x = a) -> nodup eq_dec l = [a].
Proof.
  induction l as [|x l IH]; [congruence|]. intros _ Hall.
  assert (x = a) by (apply Hall; now left). subst x. simpl.
  destruct (in_dec eq_dec a l) as [Hin|Hnin].
  - apply IH.
    + intro E. rewrite E in Hin. destruct Hin.
    + intros y Hy. apply Hall. now right.
  - destruct l as [|y l]; [reflexivity|].
    exfalso. apply Hnin. left. apply Hall. right. now left.
Qed.

Lemma nodup_two (x y : A) (l : list A) :
  In x l -> In y l -> x <> y -> (2 <= List.length (nodup eq_dec l))%nat.
Proof.
  intros Hx Hy Hxy.
  apply (nodup_In eq_dec) in Hx. apply (nodup_In eq_dec) in Hy.
  destruct (nodup eq_dec l) as [|a [|b l']]; simpl in *.
  - contradiction.
  - destruct Hx as [<-|[]]. destruct Hy as [<-|[]]. congruence.
  - lia.
Qed.

(** C9.  With more than one distinct pitch category in the list the
    selector returns the base vector (matchup 0.30, platoon 0.25, park
    0.25, team trend 0.20, batter vulnerability 0.20); with a single
    distinct category it returns the vector with the batter-vulnerability
    weight raised by 0.10 and the matchup and park weights lowered by 0.05
    each; both vectors sum to 1.20. *)
Theorem get_dynamic_weights_vectors (pitcher_hand : string) (pitch_types : list A) :
  ((exists x y, In x pitch_types /\ In y pitch_types /\ x <> y) ->
   Modifiers.get_dynamic_weights eq_dec pitcher_hand pitch_types
   = [0.30; 0.25; 0.25; 0.20; 0.20]) /\
  ((exists a, In a pitch_types /\ forall x, In x pitch_types -> x = a) ->
   Modifiers.get_dynamic_weights eq_dec pitcher_hand pitch_types
   = [0.30 - 0.05; 0.25; 0.25 - 0.05; 0.20; 0.20 + 0.10]) /\
  sum (Modifiers.get_dynamic_weights eq_dec pitcher_hand pitch_types) = 1.20.
Proof.
  unfold Modifiers.get_dynamic_weights. repeat split.
  - intros (x & y & Hx & Hy & Hxy).
    pose proof (nodup_two x y pitch_types Hx Hy Hxy) as H2.
    destruct (Nat.eqb_spec (List.length (nodup eq_dec pitch_types)) 1);
      [lia | list_lra].
  - intros (a & Ha & Hall).
    rewrite (nodup_single a).
    + simpl. list_lra.
    + intro E. rewrite E in Ha. destruct Ha.
    + exact Hall.
  - destruct (Nat.eqb _ 1); unfold sum; simpl; lra.
Qed.

End Weights.

(** The two vectors, for a one-element and a two-element list. *)
Lemma get_dynamic_weights_vectors_witness :
  Modifiers.get_dynamic_weights string_dec "R" ["SL"; "FF"]
  = [0.30; 0.25; 0.25; 0.20; 0.20] /\
  Modifiers.get_dynamic_weights string_dec "R" ["SL"]
  = [0.30 - 0.05; 0.25; 0.25 - 0.05; 0.20; 0.20 + 0.10] /\
  sum (Modifiers.get_dynamic_weights string_dec "R" ["SL"]) = 1.20.
Proof.
  destruct (get_dynamic_weights_vectors string_dec "R" ["SL"; "FF"]) as (H1 & _ & _).
  destruct (get_dynamic_weights_vectors string_dec "R" ["SL"]) as (_ & H2 & H3).
  split; [|split].
  - apply H1. exists "SL", "FF". simpl. repeat split; auto. discriminate.
  - apply H2. exists "SL". simpl. split; [auto|]. intros x [<-|[]]. reflexivity.
  - exact H3.
Defined.

(** ** Clipping *)

Lemma clip_bounds (x lo hi : R) : lo <= hi -> lo <= clip x lo hi <= hi.
Proof.
  intro H. unfold clip, Rmin, Rmax.
  repeat destruct Rle_dec; lra.
Qed.

Lemma clip_monotone (x y lo hi : R) : x <= y -> clip x lo hi <= clip y lo hi.
Proof.
  intro H. unfold clip, Rmin, Rmax.
  repeat destruct Rle_dec; lra.
Qed.

Lemma clip_inside (x lo hi : R) :
  lo <= hi -> clip x lo hi <> lo -> clip x lo hi <> hi -> clip x lo hi = x.
Proof.
  unfold clip, Rmin, Rmax.
  repeat destruct Rle_dec; intros; lra.
Qed.

(** ** C8: the stuff modifier grows with Stuff+ *)

Lemma dict_get_agree {A : Type} (d1 d2 : dict A) (k : string) (default : A) :
  dict_find d1 k = dict_find d2 k -> dict_get d1 k default = dict_get d2 k default.
Proof.
  unfold dict_get. now intros ->.
Qed.

(** C8.  Two pitcher records that agree on every key except "Stuff+",
    with Stuff+ values [s1 <= s2], and one list of game logs: when both
    modifiers are computed, the one of the larger Stuff+ is at least the
    other, and it is strictly larger when [s1 < s2] and neither result
    sits on a clamp bound (0.85 or 1.20). *)
Theorem calculate_stuff_modifier_monotone
  (row1 row2 : Series) (logs : list GameLog) (s1 s2 m1 m2 : R) :
  (forall k, k <> "Stuff+" -> dict_find row1 k = dict_find row2 k) ->
  dict_get row1 "Stuff+" (CNum 100.0) = CNum s1 ->
  dict_get row2 "Stuff+" (CNum 100.0) = CNum s2 ->
  s1 <= s2 ->
  Modifiers.calculate_stuff_modifier row1 logs = Ok m1 ->
  Modifiers.calculate_stuff_modifier row2 logs = Ok m2 ->
  m1 <= m2 /\
  (s1 < s2 ->
   m1 <> 0.85 -> m1 <> 1.20 -> m2 <> 0.85 -> m2 <> 1.20 -> m1 < m2).
Proof.
  intros Hagree Hs1 Hs2 Hle H1 H2.
  unfold Modifiers.calculate_stuff_modifier in H1, H2.
  rewrite Hs1 in H1. rewrite Hs2 in H2.
  rewrite <- !(dict_get_agree row1 row2) in H2
    by (apply Hagree; discriminate).
  cbn [as_float bind] in H1, H2.
  destruct (as_float (dict_get row1 "FBv" _)) as [velo| |];
    cbn [bind] in H1, H2; try discriminate.
  destruct (match logs with [] => _ | _ => _ end) as [recent| |];
    cbn [bind] in H1, H2; try discriminate.
  destruct (as_float (dict_get row1 "k_pct" _)) as [k_pct| |];
    cbn [bind] in H1, H2; try discriminate.
  match type of H1 with
  | bind ?x _ = _ =>
      destruct x as [recent_factor| |]; cbn [bind] in H1, H2; try discriminate
  end.
  destruct (as_float (dict_get row1 "SwStr%" _)) as [swstr| |];
    cbn [bind] in H1, H2; try discriminate.
  destruct (as_float (dict_get row1 "O-Swing%" _)) as [chase| |];
    cbn [bind] in H1, H2; try discriminate.
  destruct (as_float (dict_get row1 "Z-Contact%" _)) as [z_contact| |];
    cbn [bind] in H1, H2; try discriminate.
  destruct (as_float (dict_get row1 "CSW%" _)) as [csw| |];
    cbn [bind] in H1, H2; try discriminate.
  injection H1 as <-. injection H2 as <-.
  match goal with
  | |- clip (1 + ?t1) _ _ <= clip (1 + ?t2) _ _ /\ _ =>
      assert (Ht : s1 <= s2 -> t1 <= t2) by (intro; lra);
      assert (Hts : s1 < s2 -> t1 < t2) by (intro; lra);
      set (x1 := t1) in *; set (x2 := t2) in *
  end.
  split.
  - apply clip_monotone. specialize (Ht Hle). lra.
  - intros Hlt N1 N2 N3 N4.
    rewrite (clip_inside (1 + x1)), (clip_inside (1 + x2))
      by (assumption || lra).
    specialize (Hts Hlt). lra.
Qed.

Lemma traverse_returns {A B : Type} (f : A -> outcome B) (l : list A) :
  Forall (fun x => exists y, f x = Ok y) l -> exists ys, traverse f l = Ok ys.
Proof.
  induction 1 as [|x l [y Hy] _ [ys Hys]]; cbn.
  - now exists [].
  - rewrite Hy, Hys. cbn. now exists (y :: ys).
Qed.

(** The stuff modifier is computed, and lies in [0.85, 1.20], for a
    record whose cells are numbers, with a K% other than zero, and game
    logs of which the last three have numeric, non-zero innings. *)
Lemma calculate_stuff_modifier_returns (pitcher_row : Series) (logs : list GameLog) :
  (forall k c, dict_find pitcher_row k = Some c -> exists r, c = CNum r) ->
  dict_get pitcher_row "k_pct" (CNum 0.22) <> CNum 0 ->
  Forall countable_log (last_n 3 logs) ->
  exists m, Modifiers.calculate_stuff_modifier pitcher_row logs = Ok m /\
            0.85 <= m <= 1.20.
Proof.
  intros Hnum Hk Hlogs.
  assert (Hget : forall k d, exists r, dict_get pitcher_row k (CNum d) = CNum r).
  { intros k d. unfold dict_get.
    destruct (dict_find pitcher_row k) as [c|] eqn:E; [|now exists d].
    destruct (Hnum k c E) as [r ->]. now exists r. }
  assert (Hrates : exists rates,
             traverse Modifiers.log_k_rate (last_n 3 logs) = Ok rates).
  { apply traverse_returns. eapply Forall_impl; [|exact Hlogs].
    intros log Hlog. unfold countable_log in Hlog. unfold Modifiers.log_k_rate.
    destruct (innings_pitched log) as [[ip|s]|]; [|contradiction|eauto].
    destruct (Req_dec_T ip 0); [contradiction|eauto]. }
  destruct Hrates as [rates Hrates].
  unfold Modifiers.calculate_stuff_modifier.
  destruct (Hget "Stuff+" 100.0) as [stuff_plus ->].
  destruct (Hget "k_pct" 0.22) as [k_pct Ek]. rewrite Ek in *.
  destruct (Hget "SwStr%" 0.105) as [swstr ->].
  destruct (Hget "CSW%" 0.27) as [csw ->].
  destruct (Hget "FBv" 92.0) as [velo ->].
  destruct (Hget "O-Swing%" 0.30) as [chase ->].
  destruct (Hget "Z-Contact%" 0.88) as [z_contact ->].
  cbn [as_float bind].
  assert (Hk0 : k_pct <> 0) by (intro; subst; now apply Hk).
  destruct logs as [|log logs'].
  - cbn [bind]. destruct (Req_dec_T k_pct 0); [contradiction|]. cbn [bind].
    eexists. split; [reflexivity|]. apply clip_bounds. lra.
  - rewrite Hrates. cbn [bind].
    destruct (Req_dec_T k_pct 0); [contradiction|]. cbn [bind].
    eexists. split; [reflexivity|]. apply clip_bounds. lra.
Qed.

(** A record without game logs, Stuff+ 100 against Stuff+ 110. *)
Lemma calculate_stuff_modifier_monotone_witness :
  Modifiers.calculate_stuff_modifier [("Stuff+", CNum 100)] [] = Ok 0.9999 /\
  Modifiers.calculate_stuff_modifier [("Stuff+", CNum 110)] [] = Ok 1.0279 /\
  0.9999 <= 1.0279 /\ 0.9999 < 1.0279.
Proof.
  assert (E1 : Modifiers.calculate_stuff_modifier [("Stuff+", CNum 100)] []
               = Ok 0.9999).
  { unfold Modifiers.calculate_stuff_modifier. cbn.
    destruct (Req_dec_T 0.22 0); [lra|]. cbn. f_equal. solve_clip. }
  assert (E2 : Modifiers.calculate_stuff_modifier [("Stuff+", CNum 110)] []
               = Ok 1.0279).
  { unfold Modifiers.calculate_stuff_modifier. cbn.
    destruct (Req_dec_T 0.22 0); [lra|]. cbn. f_equal. solve_clip. }
  split; [exact E1|]. split; [exact E2|].
  destruct (calculate_stuff_modifier_monotone
              [("Stuff+", CNum 100)] [("Stuff+", CNum 110)] []
              100 110 0.9999 1.0279) as [Hle Hlt].
  - intros k Hk. unfold dict_find.
    destruct (String.eqb_spec "Stuff+" k); [congruence | reflexivity].
  - reflexivity.
  - reflexivity.
  - lra.
  - exact E1.
  - exact E2.
  - split; [exact Hle|]. apply Hlt; lra.
Defined.

(** ** C7: the team-trend modifier *)

Lemma filter_nil_iff {A : Type} (p : A -> bool) (l : list A) :
  (forall x, In x l -> p x = false) -> filter p l = [].
Proof.
  induction l as [|x l IH]; intro H; simpl; [reflexivity|].
  rewrite (H x) by now left. apply IH. intros y Hy. apply H. now right.
Qed.

Lemma team_absent_no_row (py : Python) (team_name : string) (df : DataFrame) :
  team_absent py team_name df ->
  Modifiers.get_recent_team_row py team_name df = None.
Proof.
  unfold team_absent, Modifiers.get_recent_team_row. intro H.
  destruct (get_column_name df _) as [team_col|]; [|reflexivity].
  destruct (H team_col eq_refl) as [Hexact Hclose].
  unfold team_row_lookup.
  rewrite filter_nil_iff.
  - rewrite map_map. cbn [fst]. rewrite Hclose. reflexivity.
  - intros [k row] Hin. apply in_map_iff in Hin.
    destruct Hin as (row' & [= <- <-] & Hin). cbn [fst].
    apply String.eqb_neq. now apply Hexact.
Qed.

Lemma calculate_team_trend_modifier_range (py : Python)
  (team_name pitcher_hand : string)
  (l21_lhp_df l21_rhp_df delta_lhp_df delta_rhp_df : DataFrame) (m : R) :
  Modifiers.calculate_team_trend_modifier py team_name pitcher_hand
    l21_lhp_df l21_rhp_df delta_lhp_df delta_rhp_df = Ok m ->
  0.85 <= m <= 1.15.
Proof.
  unfold Modifiers.calculate_team_trend_modifier. intro H.
  destruct (Modifiers.calculate_team_trend_modifier_try _ _ _ _ _ _ _)
    as [m'|e|] eqn:E; cbn [catch] in H; try discriminate.
  - injection H as <-.
    unfold Modifiers.calculate_team_trend_modifier_try in E.
    destruct (String.eqb pitcher_hand "L"); cbv zeta beta iota in E;
      peel E; injection E as <-; apply clip_bounds; lra.
  - injection H as <-. destruct (String.eqb pitcher_hand "L"); lra.
Qed.

(** With a row for the team in the recent and in the delta table of
    the pitcher's hand, whose [k_pct] entries are numbers, the modifier is
    [0.98 + 0.25 * (recent K% / league average K%) + delta K%] clamped to
    [0.85, 1.15]: 0.85 below, 1.15 above, the sum itself in between; a
    missing [k_pct] key reads as the league average (recent) or 0 (delta).
    When the computation raises, and so when a row is missing or a [k_pct]
    cell is text, the result is 1.05 for hand "L" and 1.02 otherwise.  A
    team absent from all four tables and hand "L" give exactly 1.05.
    Every number that is returned lies in [0.85, 1.15].  With both rows,
    no text cell and a NaN cell, nothing is raised and the result is NaN,
    not the fallback. *)
Lemma calculate_team_trend_modifier_cases (py : Python)
  (team_name pitcher_hand : string)
  (l21_lhp_df l21_rhp_df delta_lhp_df delta_rhp_df : DataFrame) :
  let recent_df := if String.eqb pitcher_hand "L" then l21_lhp_df else l21_rhp_df in
  let delta_df := if String.eqb pitcher_hand "L" then delta_lhp_df else delta_rhp_df in
  let result :=
    Modifiers.calculate_team_trend_modifier py team_name pitcher_hand
      l21_lhp_df l21_rhp_df delta_lhp_df delta_rhp_df in
  let fallback := if String.eqb pitcher_hand "L" then 1.05 else 1.02 in
  (forall team_recent team_delta rec_k delta_k,
      Modifiers.get_recent_team_row py team_name recent_df = Some team_recent ->
      Modifiers.get_recent_team_row py team_name delta_df = Some team_delta ->
      dict_get team_recent "k_pct" (CNum LEAGUE_AVG_TEAM_K_PCT) = CNum rec_k ->
      dict_get team_delta "k_pct" (CNum 0.00) = CNum delta_k ->
      let trend_mod :=
        0.98 + 0.25 * (as_fraction rec_k / LEAGUE_AVG_TEAM_K_PCT) + delta_k in
      result = Ok (clip trend_mod 0.85 1.15) /\
      (trend_mod <= 0.85 -> result = Ok 0.85) /\
      (1.15 <= trend_mod -> result = Ok 1.15) /\
      (0.85 <= trend_mod <= 1.15 -> result = Ok trend_mod)) /\
  (forall e,
      Modifiers.calculate_team_trend_modifier_try py team_name pitcher_hand
        l21_lhp_df l21_rhp_df delta_lhp_df delta_rhp_df = Raise e ->
      result = Ok fallback) /\
  (Modifiers.get_recent_team_row py team_name recent_df = None \/
   Modifiers.get_recent_team_row py team_name delta_df = None ->
   result = Ok fallback) /\
  (forall team_recent team_delta,
      Modifiers.get_recent_team_row py team_name recent_df = Some team_recent ->
      Modifiers.get_recent_team_row py team_name delta_df = Some team_delta ->
      is_text (dict_get team_recent "k_pct" (CNum LEAGUE_AVG_TEAM_K_PCT)) = true \/
      is_text (dict_get team_delta "k_pct" (CNum 0.00)) = true ->
      result = Ok fallback) /\
  (pitcher_hand = "L" ->
   team_absent py team_name l21_lhp_df -> team_absent py team_name l21_rhp_df ->
   team_absent py team_name delta_lhp_df -> team_absent py team_name delta_rhp_df ->
   result = Ok 1.05) /\
  (forall m, result = Ok m -> 0.85 <= m <= 1.15) /\
  (forall team_recent team_delta,
      Modifiers.get_recent_team_row py team_name recent_df = Some team_recent ->
      Modifiers.get_recent_team_row py team_name delta_df = Some team_delta ->
      is_text (dict_get team_recent "k_pct" (CNum LEAGUE_AVG_TEAM_K_PCT)) = false ->
      is_text (dict_get team_delta "k_pct" (CNum 0.00)) = false ->
      dict_get team_recent "k_pct" (CNum LEAGUE_AVG_TEAM_K_PCT) = CNaN \/
      dict_get team_delta "k_pct" (CNum 0.00) = CNaN ->
      result = Undetermined).
Proof.
  intros recent_df delta_df result fallback.
  assert (Hmiss :
    Modifiers.get_recent_team_row py team_name recent_df = None \/
    Modifiers.get_recent_team_row py team_name delta_df = None ->
    result = Ok fallback).
  { intro H. subst result fallback recent_df delta_df.
    unfold Modifiers.calculate_team_trend_modifier,
      Modifiers.calculate_team_trend_modifier_try.
    destruct (String.eqb pitcher_hand "L"); cbv zeta beta iota;
      (destruct H as [H | H]; rewrite H;
       [ reflexivity
       | match goal with
         | |- context [match ?x with Some _ => _ | None => _ end] => destruct x
         end; reflexivity ]). }
  assert (Hrows : forall team_recent team_delta,
    Modifiers.get_recent_team_row py team_name recent_df = Some team_recent ->
    Modifiers.get_recent_team_row py team_name delta_df = Some team_delta ->
    result
    = catch
        (match dict_get team_recent "k_pct" (CNum LEAGUE_AVG_TEAM_K_PCT),
               dict_get team_delta "k_pct" (CNum 0.00) with
         | CStr _, _ => Raise TypeError
         | _, CStr _ => Raise TypeError
         | CNum rec_k, CNum delta_k =>
             Ok (clip (0.98 + 0.25 * (as_fraction rec_k / LEAGUE_AVG_TEAM_K_PCT)
                       + delta_k) 0.85 1.15)
         | _, _ => Undetermined
         end)
        (fun _ => Ok fallback)).
  { intros team_recent team_delta Hr Hd.
    subst result fallback recent_df delta_df.
    unfold Modifiers.calculate_team_trend_modifier,
      Modifiers.calculate_team_trend_modifier_try.
    destruct (String.eqb pitcher_hand "L"); cbv zeta beta iota;
      rewrite Hr, Hd; reflexivity. }
  split; [|split; [|split; [|split; [|split; [|split]]]]].
  - intros team_recent team_delta rec_k delta_k Hr Hd Hrk Hdk trend_mod.
    rewrite (Hrows _ _ Hr Hd), Hrk, Hdk. cbn [catch].
    split; [reflexivity|].
    subst trend_mod. unfold clip, Rmin, Rmax.
    repeat split; intros; f_equal; repeat destruct Rle_dec; lra.
  - intros e He. subst result fallback.
    unfold Modifiers.calculate_team_trend_modifier. rewrite He. reflexivity.
  - exact Hmiss.
  - intros team_recent team_delta Hr Hd Htext.
    rewrite (Hrows _ _ Hr Hd).
    destruct (dict_get team_recent "k_pct" _) as [r|s|];
      destruct (dict_get team_delta "k_pct" _) as [d|s'|];
      cbn [is_text] in Htext; try reflexivity;
      destruct Htext; discriminate.
  - intros -> H1 _ H3 _. apply Hmiss. left.
    subst recent_df. cbn. now apply team_absent_no_row.
  - intros m Hm. subst result.
    eapply calculate_team_trend_modifier_range. exact Hm.
  - intros team_recent team_delta Hr Hd Ht1 Ht2 Hnan.
    rewrite (Hrows _ _ Hr Hd).
    destruct (dict_get team_recent "k_pct" _) as [r|s|];
      destruct (dict_get team_delta "k_pct" _) as [d|s'|];
      cbn [is_text] in Ht1, Ht2; try discriminate; try reflexivity;
      destruct Hnan; discriminate.
Qed.

(** A team against a table without rows. *)
Lemma team_absent_no_rows (py : Python) (team_name : string) :
  get_close_matches py (upper (strip team_name)) [] 1 0.8 = [] ->
  team_absent py team_name no_rows.
Proof.
  intros H team_col _. split; [intros row []|exact H].
Qed.

(** Boston against a left-hander: 0.98 + 0.25 * 0.8 - 0.08 = 1.10; and a
    team that no table lists. *)
Lemma calculate_team_trend_modifier_examples :
  Modifiers.calculate_team_trend_modifier python_stub "BOS" "L"
    l21_example no_rows delta_example no_rows = Ok 1.10 /\
  Modifiers.calculate_team_trend_modifier python_stub "XYZ" "L"
    no_rows no_rows no_rows no_rows = Ok 1.05.
Proof.
  split.
  - destruct (calculate_team_trend_modifier_cases python_stub "BOS" "L"
                l21_example no_rows delta_example no_rows) as (H & _).
    cbv zeta in H.
    destruct (H _ _ 0.156 (-0.08) eq_refl eq_refl eq_refl eq_refl) as [H1 _].
    rewrite H1. f_equal. unfold as_fraction, LEAGUE_AVG_TEAM_K_PCT.
    destruct (Rlt_dec 1.0 0.156); [lra|]. solve_clip.
  - destruct (calculate_team_trend_modifier_cases python_stub "XYZ" "L"
                no_rows no_rows no_rows no_rows) as (_ & _ & _ & _ & H & _).
    apply H; try reflexivity; now apply team_absent_no_rows.
Qed.

(** C7 at a recent table whose K% field for Boston is empty.  The row is
    found and nothing is raised inside the [try] block, so the handler
    does not run: the result is NaN, not the fallback 1.05 of a
    left-hander.  The K% lookup of [project_strikeouts] on the raw table
    tests the same cell with [pd.isna] and falls back to the league
    average; and when the delta cell is text besides, [TypeError] is
    raised and the fallback is returned. *)
Theorem calculate_team_trend_modifier_nan_cell :
  Modifiers.get_recent_team_row python_stub "BOS" l21_nan_example
  = Some [("team", CStr "BOS"); ("k_pct", CNaN); ("_temp_team", CStr "BOS")] /\
  Modifiers.calculate_team_trend_modifier_try python_stub "BOS" "L"
    l21_nan_example no_rows delta_example no_rows = Undetermined /\
  Modifiers.calculate_team_trend_modifier python_stub "BOS" "L"
    l21_nan_example no_rows delta_example no_rows = Undetermined /\
  Modifiers.calculate_team_trend_modifier python_stub "BOS" "L"
    l21_nan_example no_rows delta_example no_rows <> Ok 1.05 /\
  Models.lookup_team_k_pct raw_nan_example "BOS" = Ok LEAGUE_AVG_TEAM_K_PCT /\
  Modifiers.calculate_team_trend_modifier python_stub "BOS" "L"
    l21_nan_example no_rows delta_text_example no_rows = Ok 1.05.
Proof.
  assert (Hrow : Modifiers.get_recent_team_row python_stub "BOS" l21_nan_example
                 = Some [("team", CStr "BOS"); ("k_pct", CNaN);
                         ("_temp_team", CStr "BOS")]) by reflexivity.
  assert (Hnan : Modifiers.calculate_team_trend_modifier python_stub "BOS" "L"
                   l21_nan_example no_rows delta_example no_rows = Undetermined).
  { destruct (calculate_team_trend_modifier_cases python_stub "BOS" "L"
                l21_nan_example no_rows delta_example no_rows)
      as (_ & _ & _ & _ & _ & _ & H).
    cbv zeta in H. eapply H; try reflexivity. now left. }
  split; [exact Hrow|].
  split; [reflexivity|].
  split; [exact Hnan|].
  split; [rewrite Hnan; discriminate|].
  split; [reflexivity|].
  destruct (calculate_team_trend_modifier_cases python_stub "BOS" "L"
              l21_nan_example no_rows delta_text_example no_rows)
    as (_ & _ & _ & H & _).
  cbv zeta in H. eapply H; try reflexivity. now right.
Qed.

(** ** C3: [scale_ip_mean] *)





(** ** The composer: what a returned projection holds *)

Lemma project_strikeouts_fields (py : Python) (env : Models.Env)
  (pitcher_name opponent_team park : string) (p : Models.Projection) :
  Models.project_strikeouts py env pitcher_name opponent_team park = Ok (Some p) ->
  exists (data : Models.PitcherCache)
         (raw_lineup : list Preprocessor.lineup_entry)
         (name_col : string) (platoon_mods : list R),
    Models.cache_file env (Models.safe_name pitcher_name) = Some data /\
    Models.cached_lineup env opponent_team = Some raw_lineup /\
    Models.dict_entries raw_lineup <> [] /\
    get_column_name (Models.FINAL_PITCHER_FILE env)
      ["Name"; "name"; "pitcher_name"; "player_name"] = Some name_col /\
    Models.find_pitcher_rows py (Models.FINAL_PITCHER_FILE env) name_col pitcher_name
    <> [] /\
    Models.ks_logs p
    = map (fun log => match strikeouts log with Some k => k | None => 0 end)
          (Models.logs data) /\
    traverse (fun log => Preprocessor.parse_ip py
                           (match innings_pitched log with
                            | Some v => v | None => IPNum 0 end))
             (Models.logs data) = Ok (Models.ip_logs p) /\
    Models.opponent_lineup p <> [] /\
    traverse (fun b => get_platoon_modifier py (Models.pitcher_hand p) (hand b))
             (Models.opponent_lineup p) = Ok platoon_mods /\
    Models.platoon_mod p = mean platoon_mods /\
    Models.weights p
    = Modifiers.get_dynamic_weights cell_eq_dec (Models.pitcher_hand p)
        [Models.putaway_pitch p] /\
    Models.base_ks p
    = match Models.ks_logs p with
      | [] => LEAGUE_AVG_K
      | _ => StatsLogic.calculate_ewma (Models.ks_logs p) StatsLogic.alpha_default
      end /\
    Models.base_ip p
    = StatsLogic.calculate_ewma (Models.ip_logs p) StatsLogic.alpha_default /\
    Models.dispersion p
    = (if (5 <=? List.length (Models.ks_logs p))%nat
       then std (last_n 5 (Models.ks_logs p)) else 1.0) /\
    Models.total_mod p
    = clip ((1.0 + sum [ (Models.matchup_mod p - 1) * nth 0 (Models.weights p) 0;
                         (Models.platoon_mod p - 1) * nth 1 (Models.weights p) 0;
                         (Models.park_mod p - 1) * nth 2 (Models.weights p) 0;
                         (Models.team_trend_mod p - 1) * nth 3 (Models.weights p) 0;
                         (Models.batter_vuln_mod p - 1) * nth 4 (Models.weights p) 0 ])
            * Models.stuff_mod p * Models.framing_mod p) 0.85 1.15 /\
    Models.adjusted_mean p = Models.base_ks p * Models.total_mod p /\
    Models.samples p
    = {| Simulator.adjusted_mean := Models.adjusted_mean p;
         Simulator.base_ip := Models.dispersion p;
         Simulator.scaled_ip := Models.scaled_ip p |}.
Proof.
  intro H. unfold Models.project_strikeouts in H.
  unfold Models.get_recent_ks_and_ip in H.
  destruct (Models.cache_file env (Models.safe_name pitcher_name)) as [data|] eqn:Edata;
    [|discriminate].
  peel H. cbv zeta in H. injection H as <-.
  peel E. injection E as <- <- <- <- <-. cbn.
  eexists data, _, _, _.
  repeat split; try eassumption; try reflexivity; try discriminate.
  - intro Hnil.
    match goal with
    | T : traverse _ (Models.dict_entries _) = Ok (_ :: _) |- _ =>
        rewrite Hnil in T; discriminate T
    end.
  - match goal with
    | F : Models.find_pitcher_rows _ _ _ _ = _ :: _ |- _ => rewrite F
    end. discriminate.
  - match goal with
    | |- context [match ?l with [] => 5.0 | _ => _ end] => destruct l
    end; reflexivity.
Qed.

(** Where the modifiers of a projection come from. *)
Lemma project_strikeouts_modifiers (py : Python) (env : Models.Env)
  (pitcher_name opponent_team park : string) (p : Models.Projection) :
  Models.project_strikeouts py env pitcher_name opponent_team park = Ok (Some p) ->
  exists (data : Models.PitcherCache)
         (raw_lineup : list Preprocessor.lineup_entry)
         (name_col : string) (pitcher_row : Series) (others : list Series)
         (team_k_pct : R),
    Models.cache_file env (Models.safe_name pitcher_name) = Some data /\
    Models.cached_lineup env opponent_team = Some raw_lineup /\
    Models.pitcher_hand p
    = match Models.cache_hand data with Some h => h | None => "R" end /\
    traverse (fun b => Preprocessor.preprocess_batter_from_lineup (fst b) (snd b))
             (Models.dict_entries raw_lineup) = Ok (Models.opponent_lineup p) /\
    Models.lookup_team_k_pct
      (if String.eqb (Models.pitcher_hand p) "L"
       then Models.TEAM_TRENDS_LHP_L21 env else Models.TEAM_TRENDS_RHP_L21 env)
      opponent_team = Ok team_k_pct /\
    Models.matchup_mod p
    = clip (0.9 + 0.2 * (team_k_pct / LEAGUE_AVG_TEAM_K_PCT)) 0.85 1.15 /\
    Models.park_mod p = Modifiers.get_park_modifier park /\
    Modifiers.calculate_team_trend_modifier py (strip opponent_team)
      (Models.pitcher_hand p)
      (Models.load_normalized_trend_df (Models.TEAM_TRENDS_LHP_L21 env))
      (Models.load_normalized_trend_df (Models.TEAM_TRENDS_RHP_L21 env))
      (Models.load_normalized_trend_df (Models.TEAM_TRENDS_LHP_DELTA env))
      (Models.load_normalized_trend_df (Models.TEAM_TRENDS_RHP_DELTA env))
    = Ok (Models.team_trend_mod p) /\
    get_column_name (Models.FINAL_PITCHER_FILE env)
      ["Name"; "name"; "pitcher_name"; "player_name"] = Some name_col /\
    Models.find_pitcher_rows py (Models.FINAL_PITCHER_FILE env) name_col pitcher_name
    = pitcher_row :: others /\
    Models.get_putaway_pitch pitcher_name (Models.FINAL_PITCHER_FILE env)
      (Models.opponent_lineup p) = Ok (Models.putaway_pitch p) /\
    Modifiers.calculate_stuff_modifier pitcher_row (Models.logs data)
    = Ok (Models.stuff_mod p) /\
    Models.framing_mod p
    = Modifiers.calculate_catcher_framing_modifier
        (match Models.cache_team data with Some t => t | None => "UNK" end) /\
    Models.batter_vuln_mod p
    = Modifiers.calculate_batter_vulnerability_mod
        (Models.opponent_lineup p) (Models.putaway_pitch p)
        (Models.pitcher_hand p) 1.0 /\
    catch (StatsLogic.scale_ip_mean py (Models.base_ip p) opponent_team
             (Models.pitcher_hand p) park
             (Models.load_normalized_trend_df (Models.TEAM_TRENDS_LHP_L21 env))
             (Models.load_normalized_trend_df (Models.TEAM_TRENDS_RHP_L21 env))
             (Models.load_normalized_trend_df (Models.TEAM_TRENDS_LHP_DELTA env))
             (Models.load_normalized_trend_df (Models.TEAM_TRENDS_RHP_DELTA env)))
          (fun _ => Ok (Models.base_ip p)) = Ok (Models.scaled_ip p).
Proof.
  intro H. unfold Models.project_strikeouts in H.
  unfold Models.get_recent_ks_and_ip in H.
  destruct (Models.cache_file env (Models.safe_name pitcher_name)) as [data|] eqn:Edata;
    [|discriminate].
  peel H. cbv zeta in H. injection H as <-.
  peel E. injection E as <- <- <- <- <-. cbn.
  eexists data, _, _, _, _, _.
  repeat split; try eassumption; try reflexivity.
Qed.

Lemma env_one_start_projects :
  exists p : Models.Projection,
    Models.project_strikeouts python_stub env_one_start
      "Max Fried" "BOS" "Fenway Park" = Ok (Some p).
Proof.
  eexists. unfold Models.project_strikeouts. run.
  destruct (Req_dec_T (60 * / 10) 0); [exfalso; lra|].
  destruct (Req_dec_T (22 * / 100) 0); [exfalso; lra|].
  reflexivity.
Qed.

Lemma env_no_starts_projects :
  exists p : Models.Projection,
    Models.project_strikeouts python_stub env_no_starts
      "Max Fried" "BOS" "Fenway Park" = Ok (Some p).
Proof.
  eexists. unfold Models.project_strikeouts. run.
  destruct (Req_dec_T (22 * / 100) 0); [exfalso; lra|].
  reflexivity.
Qed.

(** ** C10: the weights of every projection *)

(** C10.  [project_strikeouts] calls the weight selector with the
    one-element list made of the putaway pitch, so the weights of every
    projection are the adjusted vector (matchup 0.25, platoon 0.25, park
    0.20, team trend 0.20, batter vulnerability 0.30) and never the base
    vector. *)
Theorem project_strikeouts_weights (py : Python) (env : Models.Env)
  (pitcher_name opponent_team park : string) (p : Models.Projection) :
  Models.project_strikeouts py env pitcher_name opponent_team park = Ok (Some p) ->
  Models.weights p
  = Modifiers.get_dynamic_weights cell_eq_dec (Models.pitcher_hand p)
      [Models.putaway_pitch p] /\
  Models.weights p = [0.25; 0.25; 0.20; 0.20; 0.30] /\
  Models.weights p <> [0.30; 0.25; 0.25; 0.20; 0.20].
Proof.
  intro H.
  destruct (project_strikeouts_fields _ _ _ _ _ _ H)
    as (data & raw & name_col & pm & _ & _ & _ & _ & _ & _ & _ & _ & _ & _ & Hw & _).
  split; [exact Hw|].
  rewrite Hw. unfold Modifiers.get_dynamic_weights. cbn.
  split; [list_lra|].
  intro E. injection E as E _. lra.
Qed.

Lemma project_strikeouts_weights_witness :
  exists p : Models.Projection,
    Models.project_strikeouts python_stub env_one_start
      "Max Fried" "BOS" "Fenway Park" = Ok (Some p) /\
    Models.weights p = [0.25; 0.25; 0.20; 0.20; 0.30].
Proof.
  destruct env_one_start_projects as [p Hp].
  exists p. split; [exact Hp|].
  exact (proj1 (proj2 (project_strikeouts_weights _ _ _ _ _ _ Hp))).
Defined.

(** ** C6: the platoon modifier of a projection *)

Lemma traverse_Forall2 {A B : Type} (f : A -> outcome B) (l : list A) (ys : list B) :
  traverse f l = Ok ys -> Forall2 (fun x y => f x = Ok y) l ys.
Proof.
  revert ys. induction l as [|x l IH]; intros ys H; cbn in H.
  - injection H as <-. constructor.
  - destruct (f x) as [y| |] eqn:Ex; cbn in H; try discriminate.
    destruct (traverse f l) as [ys'| |]; cbn in H; try discriminate.
    injection H as <-. constructor; [exact Ex | now apply IH].
Qed.

(** The platoon function that modifiers.py defines stays within 3 points
    of 1.0, so it yields none of the four table entries. *)
Lemma get_dynamic_platoon_modifier_range
  (pitcher_name pitcher_hand batter_hand : string)
  (vs_lhh_df vs_rhh_df : DataFrame) (league_avg_k_pct m : R) :
  Modifiers.get_dynamic_platoon_modifier pitcher_name pitcher_hand batter_hand
    vs_lhh_df vs_rhh_df league_avg_k_pct = Ok m ->
  0.97 <= m <= 1.03 /\ ~ platoon_table pitcher_hand batter_hand m.
Proof.
  unfold Modifiers.get_dynamic_platoon_modifier. intro H.
  assert (Hr : 0.97 <= m <= 1.03).
  { peel H.
    - injection H as <-. lra.
    - injection H as <-. unfold Rmax, Rmin. repeat destruct Rle_dec; lra. }
  split; [exact Hr|]. unfold platoon_table. intro Ht.
  decompose [and or] Ht; lra.
Qed.

(** Whatever the name is bound to, the platoon modifier of a projection
    is the mean of what it returns for the pitcher's hand and the hand of
    each batter of the lineup, without clamp; and there is a projection
    only if it returns a number for every batter. *)
Lemma project_strikeouts_platoon_mean (py : Python) (env : Models.Env)
  (pitcher_name opponent_team park : string) (p : Models.Projection) :
  Models.project_strikeouts py env pitcher_name opponent_team park = Ok (Some p) ->
  exists returned : list R,
    Forall2 (fun b m => get_platoon_modifier py (Models.pitcher_hand p) (hand b) = Ok m)
            (Models.opponent_lineup p) returned /\
    Models.opponent_lineup p <> [] /\
    Models.platoon_mod p
    = sum returned / INR (List.length (Models.opponent_lineup p)).
Proof.
  intro H.
  destruct (project_strikeouts_fields _ _ _ _ _ _ H)
    as (data & raw & name_col & pm & _ & _ & _ & _ & _ & _ & _ & Hne & Ht & Hm & _).
  exists pm. apply traverse_Forall2 in Ht.
  split; [exact Ht|split; [exact Hne|]].
  rewrite Hm. unfold mean.
  now rewrite (Forall2_length Ht).
Qed.

(** C6.  The platoon modifier of line 168 is the mean of the values of
    [get_platoon_modifier], a name that models.py imports from modifiers
    and that the repository binds to nothing.  For the left-hander with
    one start against a one-man Boston lineup: with the name unbound the
    call ends in [NameError] and there is no projection; and whatever the
    name is bound to, the platoon modifier of a projection is the very
    value returned for the hands ("L", "L"), and every number is that of
    a projection under some binding: nothing in the code makes it the
    table entry 0.93. *)
Theorem project_strikeouts_platoon_unbound :
  Models.project_strikeouts python_unbound env_one_start
    "Max Fried" "BOS" "Fenway Park" = Raise NameError /\
  (forall (py : Python) (p : Models.Projection),
      Models.project_strikeouts py env_one_start
        "Max Fried" "BOS" "Fenway Park" = Ok (Some p) ->
      get_platoon_modifier py "L" "L" = Ok (Models.platoon_mod p)) /\
  (forall m : R,
      exists (py : Python) (p : Models.Projection),
        Models.project_strikeouts py env_one_start
          "Max Fried" "BOS" "Fenway Park" = Ok (Some p) /\
        Models.platoon_mod p = m).
Proof.
  split; [|split].
  - unfold Models.project_strikeouts. run. reflexivity.
  - intros py p H.
    destruct (project_strikeouts_platoon_mean _ _ _ _ _ _ H)
      as (returned & Hret & Hne & Hmean).
    destruct (project_strikeouts_modifiers _ _ _ _ _ _ H)
      as (data & raw & name_col & row & others & k & Hdata & Hraw & Hhand & Hl & _).
    assert (Hc : Models.cache_file env_one_start (Models.safe_name "Max Fried")
                 = Some one_start) by reflexivity.
    rewrite Hc in Hdata. injection Hdata as <-.
    assert (Hr : Models.cached_lineup env_one_start "BOS"
                 = Some [Preprocessor.BatterDict (Some "Jarren Duran") (Some "L")])
      by reflexivity.
    rewrite Hr in Hraw. injection Hraw as <-.
    assert (Hlineup : Models.opponent_lineup p
                      = [Preprocessor.LEAGUE_AVG_STATS_Breaking "Jarren Duran" "L"]).
    { assert (Hpre : traverse
                       (fun b => Preprocessor.preprocess_batter_from_lineup (fst b) (snd b))
                       (Models.dict_entries
                          [Preprocessor.BatterDict (Some "Jarren Duran") (Some "L")])
                     = Ok [Preprocessor.LEAGUE_AVG_STATS_Breaking "Jarren Duran" "L"])
        by reflexivity.
      rewrite Hpre in Hl. now injection Hl as <-. }
    rewrite Hlineup in Hret, Hmean. cbn [Models.cache_hand one_start] in Hhand.
    rewrite Hhand in Hret.
    inversion Hret as [|b m l returned' Hb Hrest]; subst.
    inversion Hrest; subst.
    cbn [hand Preprocessor.LEAGUE_AVG_STATS_Breaking] in Hb.
    rewrite Hb, Hmean. f_equal. unfold sum. cbn [fold_right List.length INR]. field.
  - intro m.
    exists {| get_close_matches := fun _ _ _ _ => [];
              float_repr := fun _ => "";
              py_int := fun _ => None;
              py_float := fun _ => Raise ValueError;
              get_platoon_modifier := fun _ _ => Ok m |}.
    eexists. split.
    + unfold Models.project_strikeouts. run.
      repeat match goal with
             | |- context [Req_dec_T ?a ?b] =>
                 destruct (Req_dec_T a b); [exfalso; lra|]
             end.
      reflexivity.
    + cbn [Models.platoon_mod]. unfold mean, sum.
      cbn [fold_right List.length INR]. field.
Qed.

(** ** C1: the arguments of the simulator call *)

Lemma calculate_ewma_singleton (x alpha : R) :
  StatsLogic.calculate_ewma [x] alpha = x.
Proof.
  unfold StatsLogic.calculate_ewma. cbn. unfold sum. cbn.
  replace (- alpha * 0) with 0 by lra. rewrite exp_0. field.
Qed.

(** What every projection passes to [simulate_ks]: the adjusted mean, the
    dispersion of the strikeout logs in the place of [base_ip], and the
    scaled innings. *)
Lemma project_strikeouts_simulator_call (py : Python) (env : Models.Env)
  (pitcher_name opponent_team park : string) (p : Models.Projection) :
  Models.project_strikeouts py env pitcher_name opponent_team park = Ok (Some p) ->
  Simulator.adjusted_mean (Models.samples p) = Models.adjusted_mean p /\
  Simulator.base_ip (Models.samples p)
  = (if (5 <=? List.length (Models.ks_logs p))%nat
     then std (last_n 5 (Models.ks_logs p)) else 1.0) /\
  Simulator.scaled_ip (Models.samples p) = Models.scaled_ip p.
Proof.
  intro H.
  destruct (project_strikeouts_fields _ _ _ _ _ _ H)
    as (data & raw & name_col & pm & _ & _ & _ & _ & _ & _ & _ & _ & _ & _ & _
        & _ & _ & Hd & _ & _ & Hs).
  rewrite Hs. cbn. rewrite Hd. repeat split.
Qed.

(** When the simulator draws at all, its rate per inning is the adjusted
    mean divided by the dispersion. *)
Lemma project_strikeouts_k_rate (py : Python) (env : Models.Env)
  (pitcher_name opponent_team park : string) (p : Models.Projection) (rate : R) :
  Models.project_strikeouts py env pitcher_name opponent_team park = Ok (Some p) ->
  Simulator.k_rate_per_inning (Models.samples p) = Some rate ->
  rate = Models.adjusted_mean p / Models.dispersion p.
Proof.
  intros H Hr.
  destruct (project_strikeouts_fields _ _ _ _ _ _ H)
    as (data & raw & name_col & pm & _ & _ & _ & _ & _ & _ & _ & _ & _ & _ & _
        & _ & _ & _ & _ & _ & Hs).
  rewrite Hs in Hr. unfold Simulator.k_rate_per_inning in Hr. cbn in Hr.
  repeat destruct Rle_dec; try discriminate. now injection Hr as <-.
Qed.

(** C1 at a pitcher with one start of 7 strikeouts in 6.0 innings: the
    projection exists, the baseline innings figure (the EWMA of the
    innings logs) is 6.0, and the second argument of the simulator call is
    1.0, the default dispersion, not the baseline innings.  The third
    argument is the scaled innings figure. *)
Theorem project_strikeouts_simulator_base_ip_one_start :
  exists p : Models.Projection,
    Models.project_strikeouts python_stub env_one_start
      "Max Fried" "BOS" "Fenway Park" = Ok (Some p) /\
    Models.ip_logs p = [6.0] /\
    Models.base_ip p
    = StatsLogic.calculate_ewma (Models.ip_logs p) StatsLogic.alpha_default /\
    Models.base_ip p = 6.0 /\
    Simulator.base_ip (Models.samples p) = 1.0 /\
    Simulator.base_ip (Models.samples p) <> Models.base_ip p /\
    Simulator.scaled_ip (Models.samples p) = Models.scaled_ip p.
Proof.
  destruct env_one_start_projects as [p Hp]. exists p.
  destruct (project_strikeouts_simulator_call _ _ _ _ _ _ Hp) as (_ & Hd & Hs).
  destruct (project_strikeouts_fields _ _ _ _ _ _ Hp)
    as (data & raw & name_col & pm & Hdata & _ & _ & _ & _ & Hks & Hip & _ & _
        & _ & _ & _ & Hb & _).
  assert (Hc : Models.cache_file env_one_start (Models.safe_name "Max Fried")
               = Some one_start) by reflexivity.
  rewrite Hc in Hdata. injection Hdata as <-.
  assert (Hip' : Models.ip_logs p = [6.0]).
  { cbn in Hip. injection Hip as <-. reflexivity. }
  assert (Hb' : Models.base_ip p = 6.0).
  { rewrite Hb, Hip'. apply calculate_ewma_singleton. }
  rewrite Hks in Hd. cbn in Hd.
  repeat split; try assumption.
  rewrite Hd, Hb'. lra.
Qed.

(** ** C2: the total modifier and the adjusted mean *)

(** C2, as the code has it.  For every projection the total modifier is
    1 plus the sum of weight times (modifier - 1) over matchup, platoon,
    park, team trend and batter vulnerability, multiplied by the stuff and
    framing modifiers and clamped to [0.85, 1.15]; the weights are 0.25,
    0.25, 0.20, 0.20 and 0.30.  The adjusted mean is this total modifier
    times the EWMA of the strikeout logs when there is a log, and times
    the league average 6.5 when there is none. *)
Theorem project_strikeouts_adjusted_mean (py : Python) (env : Models.Env)
  (pitcher_name opponent_team park : string) (p : Models.Projection) :
  Models.project_strikeouts py env pitcher_name opponent_team park = Ok (Some p) ->
  Models.total_mod p
  = clip ((1 + (nth 0 (Models.weights p) 0 * (Models.matchup_mod p - 1) +
                nth 1 (Models.weights p) 0 * (Models.platoon_mod p - 1) +
                nth 2 (Models.weights p) 0 * (Models.park_mod p - 1) +
                nth 3 (Models.weights p) 0 * (Models.team_trend_mod p - 1) +
                nth 4 (Models.weights p) 0 * (Models.batter_vuln_mod p - 1)))
          * Models.stuff_mod p * Models.framing_mod p) 0.85 1.15 /\
  Models.total_mod p
  = clip ((1 + (0.25 * (Models.matchup_mod p - 1) +
                0.25 * (Models.platoon_mod p - 1) +
                0.20 * (Models.park_mod p - 1) +
                0.20 * (Models.team_trend_mod p - 1) +
                0.30 * (Models.batter_vuln_mod p - 1)))
          * Models.stuff_mod p * Models.framing_mod p) 0.85 1.15 /\
  0.85 <= Models.total_mod p <= 1.15 /\
  Models.adjusted_mean p = base_strikeouts (Models.ks_logs p) * Models.total_mod p /\
  (Models.ks_logs p <> [] ->
   Models.adjusted_mean p
   = StatsLogic.calculate_ewma (Models.ks_logs p) StatsLogic.alpha_default
     * Models.total_mod p) /\
  (Models.ks_logs p = [] ->
   Models.adjusted_mean p = 6.5 * Models.total_mod p).
Proof.
  intro H.
  destruct (project_strikeouts_fields _ _ _ _ _ _ H)
    as (data & raw & name_col & pm & _ & _ & _ & _ & _ & _ & _ & _ & _ & _ & Hw
        & Hks & _ & _ & Ht & Ha & _).
  assert (Hw' : Models.weights p = [0.3 - 0.05; 0.25; 0.25 - 0.05; 0.2; 0.2 + 0.1]).
  { rewrite Hw. reflexivity. }
  assert (Ht1 : Models.total_mod p
    = clip ((1 + (nth 0 (Models.weights p) 0 * (Models.matchup_mod p - 1) +
                  nth 1 (Models.weights p) 0 * (Models.platoon_mod p - 1) +
                  nth 2 (Models.weights p) 0 * (Models.park_mod p - 1) +
                  nth 3 (Models.weights p) 0 * (Models.team_trend_mod p - 1) +
                  nth 4 (Models.weights p) 0 * (Models.batter_vuln_mod p - 1)))
            * Models.stuff_mod p * Models.framing_mod p) 0.85 1.15).
  { rewrite Ht. f_equal. unfold sum. cbn [fold_right]. lra. }
  split; [exact Ht1|].
  split.
  { rewrite Ht1, Hw'. cbn [nth]. f_equal. lra. }
  split.
  { rewrite Ht1. apply clip_bounds. lra. }
  split.
  { rewrite Ha, Hks. reflexivity. }
  split.
  - intro Hne. rewrite Ha, Hks. destruct (Models.ks_logs p); [congruence | reflexivity].
  - intro Hnil. rewrite Ha, Hks, Hnil. unfold LEAGUE_AVG_K. reflexivity.
Qed.

Lemma project_strikeouts_adjusted_mean_witness :
  exists p : Models.Projection,
    Models.project_strikeouts python_stub env_one_start
      "Max Fried" "BOS" "Fenway Park" = Ok (Some p) /\
    0.85 <= Models.total_mod p <= 1.15 /\
    Models.adjusted_mean p = base_strikeouts (Models.ks_logs p) * Models.total_mod p.
Proof.
  destruct env_one_start_projects as [p Hp].
  exists p. split; [exact Hp|].
  destruct (project_strikeouts_adjusted_mean _ _ _ _ _ _ Hp)
    as (_ & _ & Hb & Ha & _).
  split; [exact Hb | exact Ha].
Defined.

(** C2 as stated fails for a pitcher whose cache file holds no game log:
    the projection exists, the EWMA of the empty strikeout list is 5.0,
    and the adjusted mean is 6.5 times the total modifier. *)
Lemma adjusted_mean_no_logs_counterexample :
  exists p : Models.Projection,
    Models.project_strikeouts python_stub env_no_starts
      "Max Fried" "BOS" "Fenway Park" = Ok (Some p) /\
    Models.ks_logs p = [] /\
    StatsLogic.calculate_ewma (Models.ks_logs p) StatsLogic.alpha_default = 5.0 /\
    Models.adjusted_mean p = 6.5 * Models.total_mod p /\
    Models.adjusted_mean p
    <> StatsLogic.calculate_ewma (Models.ks_logs p) StatsLogic.alpha_default
       * Models.total_mod p.
Proof.
  destruct env_no_starts_projects as [p Hp]. exists p.
  destruct (project_strikeouts_fields _ _ _ _ _ _ Hp)
    as (data & raw & name_col & pm & Hdata & _ & _ & _ & _ & Hks & _ & _ & _ & _
        & _ & Hbk & _ & _ & Ht & Ha & _).
  assert (Hc : Models.cache_file env_no_starts (Models.safe_name "Max Fried")
               = Some no_starts) by reflexivity.
  rewrite Hc in Hdata. injection Hdata as <-. cbn in Hks.
  assert (Hb : 0.85 <= Models.total_mod p <= 1.15).
  { rewrite Ht. apply clip_bounds. lra. }
  rewrite Hks in *. unfold LEAGUE_AVG_K in Hbk. rewrite Hbk in Ha.
  split; [exact Hp|]. split; [reflexivity|]. split; [reflexivity|].
  split; [exact Ha|].
  rewrite Ha. cbn. lra.
Qed.

(** ** C4: when there is no result *)

Lemma traverse_nil {A B : Type} (f : A -> outcome B) (l : list A) :
  traverse f l = Ok [] -> l = [].
Proof.
  destruct l as [|x l]; [reflexivity|]. cbn.
  destruct (f x); cbn; try discriminate.
  destruct (traverse f l); cbn; discriminate.
Qed.

Lemma parse_ip_no_raise (py : Python) (ip_str : ip_entry) (e : exn) :
  Preprocessor.parse_ip py ip_str <> Raise e.
Proof.
  unfold Preprocessor.parse_ip, catch.
  destruct (Preprocessor.parse_ip_try py ip_str); discriminate.
Qed.

Lemma traverse_no_raise {A B : Type} (f : A -> outcome B) (l : list A) (e : exn) :
  (forall x e', f x <> Raise e') -> traverse f l <> Raise e.
Proof.
  intro Hf. induction l as [|x l IH]; cbn; [discriminate|].
  destruct (f x) as [y|e'|] eqn:Ex; cbn; try discriminate.
  - destruct (traverse f l); cbn; congruence.
  - now apply Hf in Ex.
Qed.

(** On a run that returns, the result is [None] exactly under one of the
    four conditions. *)
Lemma project_strikeouts_returns_none_iff (py : Python) (env : Models.Env)
  (pitcher_name opponent_team park : string) (r : option Models.Projection) :
  Models.project_strikeouts py env pitcher_name opponent_team park = Ok r ->
  (r = None <-> no_result_condition py env pitcher_name opponent_team).
Proof.
  intro H. split.
  - intros ->. unfold no_result_condition.
    unfold Models.project_strikeouts, Models.get_recent_ks_and_ip in H.
    destruct (Models.cache_file env (Models.safe_name pitcher_name)) as [data|];
      [|now left].
    right.
    destruct (Models.cached_lineup env opponent_team) as [raw|] eqn:Eraw.
    2:{ now left. }
    right.
    peel H; cbv zeta in H; try discriminate H.
    + left. exists raw. split; [reflexivity|].
      eapply traverse_nil; eassumption.
    + right. intros name_col Hn. congruence.
    + right. intros name_col Hn. congruence.
    + exfalso. peel E.
      eapply traverse_no_raise; [|eassumption].
      intros log e'. apply parse_ip_no_raise.
  - intros Hc. destruct r as [p|]; [exfalso|reflexivity].
    destruct (project_strikeouts_fields _ _ _ _ _ _ H)
      as (data & raw & name_col & pm & Hdata & Hraw & Hent & Hcol & Hrows & _).
    destruct Hc as [Ha | [Hb | [(raw' & Hraw' & Hnil) | Hd]]].
    + congruence.
    + congruence.
    + rewrite Hraw in Hraw'. injection Hraw' as <-. contradiction.
    + apply Hrows. now apply Hd.
Qed.

(** Lookups that fail without stopping the projection: in the example
    the trend tables have no row for Boston and the catcher-framing table
    has no entry for the pitcher's team; the league-average K%, the
    left-hander fallback 1.05 and the neutral framing 1.0 take their
    place. *)
Lemma project_strikeouts_degraded_lookups :
  exists p : Models.Projection,
    Models.project_strikeouts python_stub env_one_start
      "Max Fried" "BOS" "Fenway Park" = Ok (Some p) /\
    Models.lookup_team_k_pct raw_no_rows "BOS" = Ok LEAGUE_AVG_TEAM_K_PCT /\
    dict_find CATCHER_FRAMING_DICT "NYY" = None.
Proof.
  destruct env_one_start_projects as [p Hp]. exists p.
  repeat split; [exact Hp|reflexivity..].
Qed.

(** C4 at a lineup with the batter "J.T. Realmuto" and a reference table
    that has no row for the pitcher: condition (d) holds, and the call ends in
    [NameError] (raised by [preprocess_batter_from_lineup]) instead of
    returning [None]. *)
Theorem project_strikeouts_dotted_name_raises :
  no_result_condition python_stub env_dotted_name "Max Fried" "BOS" /\
  Models.project_strikeouts python_stub env_dotted_name
    "Max Fried" "BOS" "Fenway Park" = Raise NameError /\
  Models.project_strikeouts python_stub env_dotted_name
    "Max Fried" "BOS" "Fenway Park" <> Ok None.
Proof.
  assert (E : Models.project_strikeouts python_stub env_dotted_name
                "Max Fried" "BOS" "Fenway Park" = Raise NameError).
  { unfold Models.project_strikeouts. run. reflexivity. }
  split; [|split; [exact E | rewrite E; discriminate]].
  right. right. right. intros name_col Hn.
  cbv in Hn. injection Hn as <-. reflexivity.
Qed.

(** * Further properties of the code *)

(** ** Averages stay between the extremes *)

Lemma sum_bounds (lo hi : R) (l : list R) :
  Forall (fun x => lo <= x <= hi) l ->
  lo * INR (List.length l) <= sum l <= hi * INR (List.length l).
Proof.
  induction 1 as [|x l Hx _ IH].
  - unfold sum. simpl. lra.
  - change (sum (x :: l)) with (x + sum l).
    change (List.length (x :: l)) with (Datatypes.S (List.length l)).
    rewrite S_INR. lra.
Qed.

Lemma mean_bounds (lo hi : R) (l : list R) :
  l <> [] -> Forall (fun x => lo <= x <= hi) l -> lo <= mean l <= hi.
Proof.
  intros Hne Hl. pose proof (sum_bounds lo hi l Hl) as Hs.
  assert (Hn : 0 < INR (List.length l)).
  { destruct l; [congruence|]. apply lt_0_INR. simpl. lia. }
  unfold mean. split.
  - apply Rmult_le_reg_r with (INR (List.length l)); [exact Hn|].
    unfold Rdiv. rewrite Rmult_assoc, Rinv_l by lra. lra.
  - apply Rmult_le_reg_r with (INR (List.length l)); [exact Hn|].
    unfold Rdiv. rewrite Rmult_assoc, Rinv_l by lra. lra.
Qed.

Lemma dot_bounds (lo hi : R) (w v : list R) :
  List.length w = List.length v ->
  Forall (fun x => 0 <= x) w ->
  Forall (fun x => lo <= x <= hi) v ->
  lo * sum w <= dot w v <= hi * sum w.
Proof.
  intros Hlen Hw. revert v Hlen.
  induction Hw as [|a w Ha _ IH]; intros [|b v] Hlen Hv;
    try discriminate; unfold sum in *; simpl.
  - lra.
  - inversion Hv as [|? ? Hb Hv']; subst.
    specialize (IH v ltac:(simpl in Hlen; lia) Hv'). nra.
Qed.

Lemma normalized_dot_bounds (lo hi : R) (e values : list R) :
  List.length e = List.length values ->
  Forall (fun x => 0 <= x) e ->
  0 < sum e ->
  Forall (fun v => lo <= v <= hi) values ->
  lo <= dot (map (fun w => w / sum e) e) values <= hi.
Proof.
  intros Hlen He Hpos Hv.
  rewrite (dot_map_div (fun w : R => w)), map_id.
  pose proof (dot_bounds lo hi e values Hlen He Hv) as [H1 H2].
  split.
  - apply Rmult_le_reg_r with (sum e); [exact Hpos|].
    unfold Rdiv. rewrite Rmult_assoc, Rinv_l by lra. lra.
  - apply Rmult_le_reg_r with (sum e); [exact Hpos|].
    unfold Rdiv. rewrite Rmult_assoc, Rinv_l by lra. lra.
Qed.

Lemma ewma_weights (alpha : R) (n : nat) :
  let e := map (fun i : nat => exp (- alpha * INR i)) (rev (seq 0 n)) in
  List.length e = n /\ Forall (fun x => 0 <= x) e /\ (n <> O -> 0 < sum e).
Proof.
  intro e. subst e. split; [|split].
  - now rewrite length_map, length_rev, length_seq.
  - apply Forall_forall. intros x Hx.
    apply in_map_iff in Hx. destruct Hx as (i & <- & _).
    left. apply exp_pos.
  - intro Hn. apply sum_exp_pos with (f := fun i : nat => - alpha * INR i).
    intro E. apply (f_equal (@List.length nat)) in E.
    rewrite length_rev, length_seq in E. now apply Hn.
Qed.

(** X1.  The EWMA of a non-empty sequence lies between any two bounds of
    its observations: the recency weights redistribute the observations
    and never push the average beyond the smallest or the largest one. *)
Theorem calculate_ewma_between (values : list R) (alpha lo hi : R) :
  values <> [] ->
  Forall (fun v => lo <= v <= hi) values ->
  lo <= StatsLogic.calculate_ewma values alpha <= hi.
Proof.
  intros Hne Hv. unfold StatsLogic.calculate_ewma.
  destruct values as [|v0 values']; [congruence|].
  set (values := v0 :: values') in *.
  destruct (ewma_weights alpha (List.length values)) as (Hlen & He & Hpos).
  apply normalized_dot_bounds; try assumption.
  apply Hpos. discriminate.
Qed.

(** Five starts between 5 and 9 strikeouts. *)
Lemma calculate_ewma_between_witness :
  5 <= StatsLogic.calculate_ewma [7; 9; 5; 8; 6] 0.25 <= 9.
Proof.
  apply calculate_ewma_between; [discriminate|].
  repeat (apply Forall_cons; [lra|]). apply Forall_nil.
Defined.

(** ** Every modifier keeps to its range *)

Lemma PARK_FACTORS_range :
  Forall (fun item => 0.93 <= snd item <= 1.07) PARK_FACTORS.
Proof.
  unfold PARK_FACTORS.
  repeat (apply Forall_cons; [simpl; lra|]). apply Forall_nil.
Qed.

Lemma get_park_modifier_range (park_name : string) :
  0.93 <= Modifiers.get_park_modifier park_name <= 1.07.
Proof.
  unfold Modifiers.get_park_modifier.
  destruct (find _ PARK_FACTORS) as [[official mod_]|] eqn:E; [|lra].
  apply find_some in E. destruct E as [Hin _].
  pose proof PARK_FACTORS_range as Hall.
  rewrite Forall_forall in Hall. exact (Hall _ Hin).
Qed.

Lemma calculate_stuff_modifier_range (pitcher_row : Series) (logs : list GameLog)
  (m : R) :
  Modifiers.calculate_stuff_modifier pitcher_row logs = Ok m ->
  0.85 <= m <= 1.20.
Proof.
  unfold Modifiers.calculate_stuff_modifier. intro H.
  peel H. cbv zeta in H. injection H as <-. apply clip_bounds. lra.
Qed.

Lemma batter_mod_range (avg : Modifiers.LeagueAvg) (pitcher_hand : string)
  (pitcher_quality : R) (batter : Batter) :
  0.85 <= Modifiers.batter_mod avg pitcher_hand pitcher_quality batter <= 1.15.
Proof.
  unfold Modifiers.batter_mod. apply clip_bounds. lra.
Qed.

Lemma calculate_batter_vulnerability_mod_range (batters : list Batter)
  (pitch_type : cell) (pitcher_hand : string) (pitcher_quality : R) :
  0.85 <= Modifiers.calculate_batter_vulnerability_mod
            batters pitch_type pitcher_hand pitcher_quality <= 1.15.
Proof.
  unfold Modifiers.calculate_batter_vulnerability_mod.
  destruct batters as [|b batters]; [lra|].
  apply mean_bounds; [discriminate|].
  apply Forall_forall. intros x Hx. apply in_map_iff in Hx.
  destruct Hx as (b' & <- & _). apply batter_mod_range.
Qed.

Lemma Forall2_right {A B : Type} (Q : A -> B -> Prop) (P : B -> Prop)
  (l : list A) (ms : list B) :
  Forall2 Q l ms -> (forall a b, Q a b -> P b) -> Forall P ms.
Proof.
  intros H HP. induction H; constructor; eauto.
Qed.

(** X2.  In every projection each modifier that the repository computes
    lies in its range: matchup, team trend and batter vulnerability in
    [0.85, 1.15], park in [0.93, 1.07], stuff in [0.85, 1.20], framing in
    [0.95, 1.05], and the total modifier in [0.85, 1.15], whatever the
    platoon modifier is. *)
Theorem project_strikeouts_modifier_ranges (py : Python) (env : Models.Env)
  (pitcher_name opponent_team park : string) (p : Models.Projection) :
  Models.project_strikeouts py env pitcher_name opponent_team park = Ok (Some p) ->
  0.85 <= Models.matchup_mod p <= 1.15 /\
  0.93 <= Models.park_mod p <= 1.07 /\
  0.85 <= Models.team_trend_mod p <= 1.15 /\
  0.85 <= Models.batter_vuln_mod p <= 1.15 /\
  0.85 <= Models.stuff_mod p <= 1.20 /\
  0.95 <= Models.framing_mod p <= 1.05 /\
  0.85 <= Models.total_mod p <= 1.15.
Proof.
  intro H.
  destruct (project_strikeouts_modifiers _ _ _ _ _ _ H)
    as (data & raw & name_col & row & others & k & _ & _ & _ & _ & _ & Hm & Hp
        & Ht & _ & _ & _ & Hs & Hf & Hv & _).
  destruct (project_strikeouts_fields _ _ _ _ _ _ H)
    as (data' & raw' & name_col' & pm & _ & _ & _ & _ & _ & _ & _ & _ & _
        & _ & _ & _ & _ & _ & Htot & _).
  split; [rewrite Hm; apply clip_bounds; lra|].
  split; [rewrite Hp; apply get_park_modifier_range|].
  split; [eapply calculate_team_trend_modifier_range; exact Ht|].
  split; [rewrite Hv; apply calculate_batter_vulnerability_mod_range|].
  split; [eapply calculate_stuff_modifier_range; exact Hs|].
  split; [rewrite Hf; apply clip_bounds; lra|].
  rewrite Htot. apply clip_bounds. lra.
Qed.

Lemma project_strikeouts_modifier_ranges_witness :
  exists p : Models.Projection,
    Models.project_strikeouts python_stub env_one_start
      "Max Fried" "BOS" "Fenway Park" = Ok (Some p) /\
    0.85 <= Models.stuff_mod p <= 1.20 /\
    0.85 <= Models.total_mod p <= 1.15.
Proof.
  destruct env_one_start_projects as [p Hp]. exists p.
  split; [exact Hp|].
  destruct (project_strikeouts_modifier_ranges _ _ _ _ _ _ Hp)
    as (_ & _ & _ & _ & Hs & _ & Ht).
  split; [exact Hs | exact Ht].
Defined.

(** ** Batter statistics never reach the projection *)

Lemma preprocess_batter_from_lineup_default (n h : option string) (b : Batter) :
  Preprocessor.preprocess_batter_from_lineup n h = Ok b ->
  b = Preprocessor.LEAGUE_AVG_STATS_Breaking (name b) (hand b).
Proof.
  unfold Preprocessor.preprocess_batter_from_lineup. intro H.
  destruct (contains "." _); cbn in H; [discriminate|].
  injection H as <-. reflexivity.
Qed.

Lemma batter_mod_league_average (pitcher_hand : string) (pitcher_quality : R)
  (n h : string) :
  Modifiers.batter_mod Modifiers.league_avgs_Breaking pitcher_hand pitcher_quality
    (Preprocessor.LEAGUE_AVG_STATS_Breaking n h) = 1.
Proof.
  unfold Modifiers.batter_mod. cbn.
  destruct (negb (String.eqb pitcher_hand h)); solve_clip.
Qed.

Lemma league_avgs_other (pitch : string) :
  pitch <> "Fastball" -> pitch <> "Offspeed" ->
  dict_get Modifiers.league_avgs pitch Modifiers.league_avgs_Breaking
  = Modifiers.league_avgs_Breaking.
Proof.
  intros HF HO. unfold dict_get, Modifiers.league_avgs, dict_find.
  destruct (String.eqb_spec "Breaking" pitch); [reflexivity|].
  destruct (String.eqb_spec "Fastball" pitch); [congruence|].
  destruct (String.eqb_spec "Offspeed" pitch); [congruence|].
  reflexivity.
Qed.

(** X3.  Every batter of a projection's lineup carries the league
    averages of the Breaking category with [matched = False], whatever
    the batter table holds; so the batter-vulnerability modifier of the
    projection is exactly 1.0 unless the putaway pitch is the text
    "Fastball" or "Offspeed". *)
Theorem project_strikeouts_batter_vuln_neutral (py : Python) (env : Models.Env)
  (pitcher_name opponent_team park : string) (p : Models.Projection) :
  Models.project_strikeouts py env pitcher_name opponent_team park = Ok (Some p) ->
  Forall (fun b => b = Preprocessor.LEAGUE_AVG_STATS_Breaking (name b) (hand b))
         (Models.opponent_lineup p) /\
  (Models.putaway_pitch p <> CStr "Fastball" ->
   Models.putaway_pitch p <> CStr "Offspeed" ->
   Models.batter_vuln_mod p = 1).
Proof.
  intro H.
  destruct (project_strikeouts_modifiers _ _ _ _ _ _ H)
    as (data & raw & name_col & row & others & k & _ & _ & _ & Hl & _ & _ & _
        & _ & _ & _ & _ & _ & _ & Hv & _).
  assert (Hall : Forall (fun b => b = Preprocessor.LEAGUE_AVG_STATS_Breaking
                                        (name b) (hand b))
                        (Models.opponent_lineup p)).
  { apply traverse_Forall2 in Hl.
    eapply Forall2_right; [exact Hl|].
    intros e b Hb. now apply preprocess_batter_from_lineup_default in Hb. }
  split; [exact Hall|].
  intros HF HO. rewrite Hv.
  unfold Modifiers.calculate_batter_vulnerability_mod.
  destruct (Models.opponent_lineup p) as [|b0 bs] eqn:El; [lra|].
  assert (Havg : match Models.putaway_pitch p with
                 | CStr s => dict_get Modifiers.league_avgs s
                               Modifiers.league_avgs_Breaking
                 | _ => Modifiers.league_avgs_Breaking
                 end = Modifiers.league_avgs_Breaking).
  { destruct (Models.putaway_pitch p) as [r|s|]; try reflexivity.
    apply league_avgs_other; congruence. }
  rewrite Havg.
  assert (Hone : Forall (fun x => 1 <= x <= 1)
                   (map (Modifiers.batter_mod Modifiers.league_avgs_Breaking
                           (Models.pitcher_hand p) 1.0) (b0 :: bs))).
  { apply Forall_forall. intros x Hx. apply in_map_iff in Hx.
    destruct Hx as (b & <- & Hb).
    rewrite Forall_forall in Hall. rewrite (Hall b Hb).
    rewrite batter_mod_league_average. lra. }
  apply mean_bounds in Hone; [lra | discriminate].
Qed.

Lemma project_strikeouts_batter_vuln_neutral_witness :
  exists p : Models.Projection,
    Models.project_strikeouts python_stub env_one_start
      "Max Fried" "BOS" "Fenway Park" = Ok (Some p) /\
    Models.batter_vuln_mod p = 1.
Proof.
  destruct env_one_start_projects as [p Hp]. exists p.
  split; [exact Hp|].
  destruct (project_strikeouts_batter_vuln_neutral _ _ _ _ _ _ Hp) as [_ Hv].
  destruct (project_strikeouts_modifiers _ _ _ _ _ _ Hp)
    as (data & raw & name_col & row & others & k & _ & _ & _ & _ & _ & _ & _
        & _ & _ & _ & Hput & _).
  assert (Hsl : Models.putaway_pitch p = CStr "SL").
  { assert (Hg : Models.get_putaway_pitch "Max Fried"
                   (Models.FINAL_PITCHER_FILE env_one_start)
                   (Models.opponent_lineup p) = Ok (CStr "SL")) by reflexivity.
    rewrite Hg in Hput. now injection Hput as <-. }
  apply Hv; rewrite Hsl; discriminate.
Defined.

(** ** An opponent without trend row *)

Lemma lookup_team_k_pct_no_row (trend_df : DataFrame) (opponent_team : string)
  (team_k_pct : R) :
  Models.lookup_team_k_pct trend_df opponent_team = Ok team_k_pct ->
  (forall row, In row (rows trend_df) ->
               series_at row "Team" <> CStr opponent_team) ->
  team_k_pct = LEAGUE_AVG_TEAM_K_PCT.
Proof.
  unfold Models.lookup_team_k_pct. intros H Hno.
  rewrite filter_nil_iff in H.
  - unfold Models.league_average_fallback in H. peel H. now injection H as <-.
  - intros row Hin. specialize (Hno row Hin).
    destruct (series_at row "Team") as [r|s|]; try reflexivity.
    cbn. apply String.eqb_neq. congruence.
Qed.

(** X4.  When the raw trend table of the pitcher's hand has no row whose
    Team cell is the opponent, the league-average K% stands in and the
    matchup modifier of the projection is 1.10 (0.9 + 0.2), not the
    neutral 1.0. *)
Theorem project_strikeouts_matchup_without_row (py : Python) (env : Models.Env)
  (pitcher_name opponent_team park : string) (p : Models.Projection) :
  Models.project_strikeouts py env pitcher_name opponent_team park = Ok (Some p) ->
  (forall row,
      In row (rows (if String.eqb (Models.pitcher_hand p) "L"
                    then Models.TEAM_TRENDS_LHP_L21 env
                    else Models.TEAM_TRENDS_RHP_L21 env)) ->
      series_at row "Team" <> CStr opponent_team) ->
  Models.matchup_mod p = 1.10.
Proof.
  intros H Hno.
  destruct (project_strikeouts_modifiers _ _ _ _ _ _ H)
    as (data & raw & name_col & row & others & k & _ & _ & _ & _ & Hk & Hm & _).
  rewrite (lookup_team_k_pct_no_row _ _ _ Hk Hno) in Hm.
  rewrite Hm. unfold LEAGUE_AVG_TEAM_K_PCT. solve_clip.
Qed.

Lemma project_strikeouts_matchup_without_row_witness :
  exists p : Models.Projection,
    Models.project_strikeouts python_stub env_one_start
      "Max Fried" "BOS" "Fenway Park" = Ok (Some p) /\
    Models.matchup_mod p = 1.10.
Proof.
  destruct env_one_start_projects as [p Hp]. exists p.
  split; [exact Hp|].
  apply (project_strikeouts_matchup_without_row _ _ _ _ _ _ Hp).
  intros row Hin. destruct (String.eqb (Models.pitcher_hand p) "L"); destruct Hin.
Defined.

(** ** The recommendation of the orchestrator *)

(** X5.  For a positive line, [_calculate_edge] recommends OVER exactly
    when the projected mean exceeds the line by more than 10 percent,
    UNDER exactly when it falls short by more than 10 percent, and PASS in
    between (both bounds included); without projection it recommends SKIP
    with edge 0. *)
Theorem calculate_edge_thresholds (round2 : R -> R) (line projected : R) :
  0 < line ->
  exists e : Orchestrator.Edge,
    Orchestrator._calculate_edge round2 line (Some projected) = Ok e /\
    (Orchestrator.recommendation e = "OVER" <-> 1.1 * line < projected) /\
    (Orchestrator.recommendation e = "UNDER" <-> projected < 0.9 * line) /\
    (Orchestrator.recommendation e = "PASS"
     <-> 0.9 * line <= projected <= 1.1 * line) /\
    Orchestrator.recommendation e <> "SKIP" /\
    Orchestrator._calculate_edge round2 line None
    = Ok {| Orchestrator.projected_ks := 0; Orchestrator.edge := 0;
            Orchestrator.recommendation := "SKIP" |}.
Proof.
  intro Hline. unfold Orchestrator._calculate_edge.
  destruct (Req_dec_T line 0) as [H0|_]; [lra|].
  eexists. split; [reflexivity|]. cbn [Orchestrator.recommendation].
  assert (Hq : projected = line + ((projected - line) / line) * line)
    by (field; lra).
  revert Hq. generalize ((projected - line) / line). intros q Hq.
  destruct (Rlt_dec 10 (q * 100)) as [Ho|Ho];
    [|destruct (Rlt_dec (q * 100) (-10)) as [Hu|Hu]];
    repeat split; intros; try discriminate; try reflexivity; try nra.
Qed.

Lemma calculate_edge_thresholds_witness :
  exists e : Orchestrator.Edge,
    Orchestrator._calculate_edge (fun x => x) 5.5 (Some 6.2) = Ok e /\
    Orchestrator.recommendation e = "OVER".
Proof.
  destruct (calculate_edge_thresholds (fun x => x) 5.5 6.2 ltac:(lra))
    as (e & He & Hover & _).
  exists e. split; [exact He|]. apply Hover. lra.
Defined.

(** ** Team abbreviations *)

Lemma dict_find_In {A : Type} (d : dict A) (k : string) (v : A) :
  dict_find d k = Some v -> In v (map snd d).
Proof.
  induction d as [|[k' v'] d IH]; cbn; [discriminate|].
  destruct (String.eqb k' k); intro H.
  - injection H as <-. now left.
  - right. now apply IH.
Qed.

Lemma existsb_eqb_In (x : string) (l : list string) :
  existsb (String.eqb x) l = true -> In x l.
Proof.
  intro H. apply existsb_exists in H. destruct H as (y & Hy & Hxy).
  apply String.eqb_eq in Hxy. now subst.
Qed.

Lemma TEAM_ABBREV_REVERSE_MAP_official (variant official : string) :
  dict_find TEAM_ABBREV_REVERSE_MAP variant = Some official ->
  In official (map fst TEAM_ABBREV_MAP).
Proof.
  intro H. apply dict_find_In in H.
  assert (Hall : forallb (fun o => existsb (String.eqb o) (map fst TEAM_ABBREV_MAP))
                         (map snd TEAM_ABBREV_REVERSE_MAP) = true)
    by (vm_compute; reflexivity).
  rewrite forallb_forall in Hall. apply existsb_eqb_In, Hall, H.
Qed.

Lemma normalize_team_abbrev_fixed (official : string) :
  In official (map fst TEAM_ABBREV_MAP) ->
  normalize_team_abbrev official = Some official.
Proof.
  intro H.
  assert (Hall : forallb (fun o => match normalize_team_abbrev o with
                                   | Some o' => String.eqb o' o
                                   | None => false
                                   end)
                         (map fst TEAM_ABBREV_MAP) = true)
    by (vm_compute; reflexivity).
  rewrite forallb_forall in Hall. specialize (Hall _ H).
  destruct (normalize_team_abbrev official) as [o'|]; [|discriminate].
  apply String.eqb_eq in Hall. now subst.
Qed.

(** X6.  Whatever the input, [normalize_team_abbrev] returns [None] or one
    of the thirty official codes of [TEAM_ABBREV_MAP] (the code "CHW" of
    its substitution table is never returned: "WHITESOX" and "WHITE SOX"
    are resolved to "CWS" before the table is reached), and an official
    code is returned unchanged, so normalising twice is normalising
    once. *)
Theorem normalize_team_abbrev_official (team_input official : string) :
  normalize_team_abbrev team_input = Some official ->
  In official (map fst TEAM_ABBREV_MAP) /\
  normalize_team_abbrev official = Some official.
Proof.
  intro H.
  assert (Hin : In official (map fst TEAM_ABBREV_MAP)).
  { unfold normalize_team_abbrev in H.
    destruct team_input as [|a team_input]; [discriminate|].
    revert H. generalize (upper (strip (String a team_input))). intros cleaned H.
    destruct (dict_find TEAM_ABBREV_REVERSE_MAP cleaned) as [o|] eqn:E1.
    { injection H as <-. eapply TEAM_ABBREV_REVERSE_MAP_official, E1. }
    destruct (dict_find TEAM_ABBREV_REVERSE_MAP
                (filter_string (fun c => is_upper c || is_lower c) cleaned))
      as [o|] eqn:E2.
    { injection H as <-. eapply TEAM_ABBREV_REVERSE_MAP_official, E2. }
    cbv zeta in H.
    match type of H with
    | match find ?f ?l with _ => _ end = _ =>
        destruct (find f l) as [[o names]|] eqn:E3; [|discriminate]
    end.
    injection H as <-. apply find_some in E3. destruct E3 as [Hitem Hname].
    apply existsb_exists in Hname. destruct Hname as (n & Hn & Heq).
    apply String.eqb_eq in Heq. subst n. cbn [In] in Hitem.
    repeat (destruct Hitem as [Hitem|Hitem];
            [injection Hitem as <- <-; cbn [In snd] in Hn|]);
      try contradiction;
      repeat (destruct Hn as [<-|Hn]); try contradiction;
      first [ now (vm_compute; tauto)
            | now (vm_compute in E1; discriminate E1)
            | now (vm_compute in E2; discriminate E2) ]. }
  split; [exact Hin|]. now apply normalize_team_abbrev_fixed.
Qed.

Lemma normalize_team_abbrev_official_witness :
  In "CWS" (map fst TEAM_ABBREV_MAP) /\ normalize_team_abbrev "CWS" = Some "CWS".
Proof.
  apply (normalize_team_abbrev_official " white sox "). reflexivity.
Defined.

(** ** The framing modifier of a projection *)

Lemma CATCHER_FRAMING_DICT_keys (catcher_name : string) :
  contains " " catcher_name = false ->
  dict_find CATCHER_FRAMING_DICT catcher_name = None.
Proof.
  intro H. unfold CATCHER_FRAMING_DICT, dict_find.
  repeat match goal with
         | |- context [String.eqb ?k catcher_name] =>
             destruct (String.eqb_spec k catcher_name) as [<-|_];
             [vm_compute in H; discriminate|]
         end.
  reflexivity.
Qed.

(** X7.  [project_strikeouts] looks the framing modifier up under the
    pitcher's team, while the keys of [CATCHER_FRAMING_DICT] are catcher
    names: when the team of the cache file (or its default "UNK") holds no
    blank, as every team abbreviation does, the framing modifier of the
    projection is exactly 1.0. *)
Theorem project_strikeouts_framing_neutral (py : Python) (env : Models.Env)
  (pitcher_name opponent_team park : string) (p : Models.Projection)
  (data : Models.PitcherCache) :
  Models.project_strikeouts py env pitcher_name opponent_team park = Ok (Some p) ->
  Models.cache_file env (Models.safe_name pitcher_name) = Some data ->
  contains " " (match Models.cache_team data with
                | Some team => team | None => "UNK" end) = false ->
  Models.framing_mod p = 1.
Proof.
  intros H Hdata Hteam.
  destruct (project_strikeouts_modifiers _ _ _ _ _ _ H)
    as (data' & raw & name_col & row & others & k & Hdata' & _ & _ & _ & _ & _
        & _ & _ & _ & _ & _ & _ & Hf & _).
  rewrite Hdata in Hdata'. injection Hdata' as <-.
  rewrite Hf. unfold Modifiers.calculate_catcher_framing_modifier, dict_get.
  rewrite (CATCHER_FRAMING_DICT_keys _ Hteam). solve_clip.
Qed.

Lemma project_strikeouts_framing_neutral_witness :
  exists p : Models.Projection,
    Models.project_strikeouts python_stub env_one_start
      "Max Fried" "BOS" "Fenway Park" = Ok (Some p) /\
    Models.framing_mod p = 1.
Proof.
  destruct env_one_start_projects as [p Hp]. exists p.
  split; [exact Hp|].
  apply (project_strikeouts_framing_neutral _ _ _ _ _ _ one_start Hp);
    reflexivity.
Defined.

(** ** Park names *)

(** X8.  [get_park_modifier] gives every official park name of
    [PARK_FACTORS] its own factor, also in other letter case or with
    blanks around it: the substring test never stops at an earlier entry
    of the table.  A name that is empty after trimming is a substring of
    every entry and gets the factor 0.98 of the first one, not the
    neutral 1.0. *)
Theorem get_park_modifier_official :
  (forall official_name mod_,
      In (official_name, mod_) PARK_FACTORS ->
      Modifiers.get_park_modifier official_name = mod_ /\
      Modifiers.get_park_modifier (upper official_name) = mod_ /\
      Modifiers.get_park_modifier (" " ++ lower official_name ++ " ") = mod_) /\
  (forall park_name,
      strip park_name = "" -> Modifiers.get_park_modifier park_name = 0.98).
Proof.
  split.
  - intros official_name mod_ H. unfold PARK_FACTORS in H. cbn [In] in H.
    repeat (destruct H as [H|H];
            [injection H as <- <-; unfold Modifiers.get_park_modifier; run_lazy;
             repeat split; reflexivity|]).
    destruct H.
  - intros park_name H. unfold Modifiers.get_park_modifier. rewrite H.
    run. lra.
Qed.

(** The entry of a table that a goal names, found by trying each one. *)
Ltac pick_entry := solve [left; reflexivity] + (right; pick_entry).

(** X9.  The home parks of the orchestrator against the two park lookups
    of a projection: [get_park_modifier] (the park modifier) finds the
    factor of every home park, while the exact-key lookup of
    [scale_ip_mean] misses "loanDepot park" (MIA) and "Oriole Park" (BAL)
    and scales their innings with 1.0; for every other team the two
    lookups agree. *)
Theorem team_parks_park_factors (team : string) :
  In team (map fst Orchestrator.team_parks) ->
  let park := Orchestrator._get_park_for_team team in
  (exists official_name,
      In (official_name, Modifiers.get_park_modifier park) PARK_FACTORS /\
      contains (lower park) (lower official_name) = true) /\
  (dict_find PARK_FACTORS park = None <-> team = "MIA" \/ team = "BAL") /\
  (dict_get PARK_FACTORS park 1.0 = Modifiers.get_park_modifier park
   <-> team <> "MIA" /\ team <> "BAL").
Proof.
  intro H. unfold Orchestrator.team_parks in H. cbn [In map fst] in H.
  repeat (destruct H as [<-|H];
          [ run_lazy;
            split; [eexists; split; [pick_entry | reflexivity]|];
            split; split; intros Hx;
            first [ discriminate Hx
                  | reflexivity
                  | destruct Hx as [Hx|Hx]; discriminate Hx
                  | split; discriminate
                  | exfalso; lra
                  | left; reflexivity
                  | right; reflexivity
                  | exfalso; destruct Hx as [Hx1 Hx2];
                    first [now apply Hx1 | now apply Hx2] ] |]).
  destruct H.
Qed.

Lemma team_parks_park_factors_witness :
  dict_get PARK_FACTORS "loanDepot park" 1.0
  <> Modifiers.get_park_modifier "loanDepot park".
Proof.
  destruct (team_parks_park_factors "MIA") as (_ & _ & Hagree).
  { vm_compute. tauto. }
  intro Heq. apply Hagree in Heq. destruct Heq as [Hmia _]. now apply Hmia.
Defined.

(** ** The simulation *)

Section Simulation.
Context {S : Type} (g : Simulator.Generator S).

Lemma normal_samples_length (loc scale : R) (n : nat) (s : S) :
  List.length (fst (Simulator.normal_samples g loc scale n s)) = n.
Proof.
  revert s. induction n as [|n IH]; intro s; cbn; [reflexivity|].
  destruct (Simulator.normal g loc scale s) as [x s1].
  specialize (IH s1).
  destruct (Simulator.normal_samples g loc scale n s1) as [xs s2].
  cbn in *. now rewrite IH.
Qed.

Lemma trials_length (k_rate_per_inning : R) (ip_samples : list R) (s : S) :
  List.length (fst (Simulator.trials g k_rate_per_inning ip_samples s))
  = List.length ip_samples.
Proof.
  revert s. induction ip_samples as [|ip rest IH]; intro s; cbn; [reflexivity|].
  destruct (Simulator.trial g k_rate_per_inning ip s) as [ks s1].
  specialize (IH s1).
  destruct (Simulator.trials g k_rate_per_inning rest s1) as [l s2].
  cbn in *. now rewrite IH.
Qed.

(** X10.  [simulate_ks] returns [n] samples for every generator and every
    input; when the adjusted mean, the base innings or the scaled innings
    is zero or negative, all [n] samples are zero and no random number is
    drawn. *)
Theorem simulate_ks_samples (adjusted_mean base_ip scaled_ip : R) (n : nat) (s : S) :
  List.length (fst (Simulator.simulate_ks g adjusted_mean base_ip scaled_ip n s)) = n /\
  (adjusted_mean <= 0 \/ base_ip <= 0 \/ scaled_ip <= 0 ->
   Simulator.simulate_ks g adjusted_mean base_ip scaled_ip n s = (repeat O n, s)).
Proof.
  unfold Simulator.simulate_ks, Simulator.k_rate_per_inning.
  cbn [Simulator.adjusted_mean Simulator.base_ip Simulator.scaled_ip].
  destruct (Rle_dec adjusted_mean 0) as [Ha|Ha];
    [split; [cbn; apply repeat_length | reflexivity]|].
  destruct (Rle_dec base_ip 0) as [Hb|Hb];
    [split; [cbn; apply repeat_length | reflexivity]|].
  destruct (Rle_dec scaled_ip 0) as [Hc|Hc];
    [split; [cbn; apply repeat_length | reflexivity]|].
  split; [|intros [H|[H|H]]; lra].
  pose proof (normal_samples_length scaled_ip 1.0 n s) as Hn.
  destruct (Simulator.normal_samples g scaled_ip 1.0 n s) as [ip_samples s1].
  rewrite trials_length, length_map. exact Hn.
Qed.

End Simulation.

Lemma full_innings_rates (k_rate_per_inning : R) (full : nat) (s : list R) :
  sum (snd (Simulator.full_innings rate_log k_rate_per_inning full s))
  = INR full * k_rate_per_inning + sum s.
Proof.
  revert s. induction full as [|m IH]; intro s.
  - change (sum s = 0 * k_rate_per_inning + sum s). lra.
  - rewrite S_INR.
    cbn [Simulator.full_innings rate_log Simulator.poisson].
    specialize (IH (k_rate_per_inning :: s)).
    destruct (Simulator.full_innings rate_log k_rate_per_inning m
                (k_rate_per_inning :: s)) as [ks s2].
    cbn [snd] in *. rewrite IH.
    change (sum (k_rate_per_inning :: s)) with (k_rate_per_inning + sum s). lra.
Qed.

Lemma Int_part_nonneg (ip : R) : 0 <= ip -> (0 <= Int_part ip)%Z.
Proof.
  intro H. unfold Int_part.
  destruct (archimed ip) as [Hup _].
  assert (0 < IZR (up ip)) by lra.
  apply lt_IZR in H0. lia.
Qed.

Lemma trial_rates (k_rate_per_inning ip : R) (s : list R) :
  0 <= ip ->
  sum (snd (Simulator.trial rate_log k_rate_per_inning ip s))
  = k_rate_per_inning * ip + sum s.
Proof.
  intro Hip. unfold Simulator.trial.
  pose proof (full_innings_rates k_rate_per_inning (Z.to_nat (Int_part ip)) s) as Hf.
  destruct (Simulator.full_innings rate_log k_rate_per_inning
              (Z.to_nat (Int_part ip)) s) as [ks s1].
  cbn [snd] in Hf.
  rewrite INR_IZR_INZ, Z2Nat.id in Hf by now apply Int_part_nonneg.
  assert (Hsplit : ip = IZR (Int_part ip) + frac_part ip)
    by (unfold frac_part; lra).
  destruct (Rlt_dec 0 (frac_part ip)) as [Hfr|Hfr];
    cbn [rate_log Simulator.poisson snd].
  - change (sum (k_rate_per_inning * frac_part ip :: s1))
      with (k_rate_per_inning * frac_part ip + sum s1).
    rewrite Hf. rewrite Hsplit at 3. lra.
  - destruct (base_fp ip) as [Hge _].
    assert (Hz : frac_part ip = 0) by lra.
    rewrite Hf. rewrite Hsplit at 2. rewrite Hz. lra.
Qed.

Lemma trials_rates (k_rate_per_inning : R) (ip_samples : list R) (s : list R) :
  Forall (fun ip => 0 <= ip) ip_samples ->
  sum (snd (Simulator.trials rate_log k_rate_per_inning ip_samples s))
  = k_rate_per_inning * sum ip_samples + sum s.
Proof.
  intro H. revert s. induction H as [|ip rest Hip Hrest IH]; intro s.
  - change (sum s = k_rate_per_inning * 0 + sum s). lra.
  - cbn [Simulator.trials].
    pose proof (trial_rates k_rate_per_inning ip s Hip) as Ht.
    destruct (Simulator.trial rate_log k_rate_per_inning ip s) as [ks s1].
    specialize (IH s1).
    destruct (Simulator.trials rate_log k_rate_per_inning rest s1) as [l s2].
    cbn [snd] in *. rewrite IH, Ht.
    change (sum (ip :: rest)) with (ip + sum rest). lra.
Qed.

Lemma normal_samples_rate_log (loc scale : R) (n : nat) (s : list R) :
  Simulator.normal_samples rate_log loc scale n s = (repeat loc n, s).
Proof.
  induction n as [|n IH]; [reflexivity|].
  cbn [Simulator.normal_samples rate_log Simulator.normal].
  change (Simulator.normal_samples
            {| Simulator.normal := fun loc _ s => (loc, s);
               Simulator.poisson := fun lam s => (O, lam :: s) |} loc scale n s)
    with (Simulator.normal_samples rate_log loc scale n s).
  now rewrite IH.
Qed.

Lemma sum_repeat (x : R) (n : nat) : sum (repeat x n) = INR n * x.
Proof.
  induction n as [|n IH].
  - change (0 = 0 * x). lra.
  - rewrite S_INR. change (x + sum (repeat x n) = (INR n + 1) * x). lra.
Qed.

Lemma simulate_ks_rate_sum (adjusted_mean base_ip scaled_ip : R) (n : nat)
  (s : list R) :
  0 < adjusted_mean -> 0 < base_ip -> 0 < scaled_ip ->
  sum (snd (Simulator.simulate_ks rate_log adjusted_mean base_ip scaled_ip n s))
  = INR n * (adjusted_mean / base_ip * clip scaled_ip 3.0 8.0) + sum s.
Proof.
  intros Ha Hb Hc.
  unfold Simulator.simulate_ks, Simulator.k_rate_per_inning.
  cbn [Simulator.adjusted_mean Simulator.base_ip Simulator.scaled_ip].
  destruct (Rle_dec adjusted_mean 0); [lra|].
  destruct (Rle_dec base_ip 0); [lra|].
  destruct (Rle_dec scaled_ip 0); [lra|].
  rewrite normal_samples_rate_log, map_repeat, trials_rates, sum_repeat.
  - lra.
  - apply Forall_forall. intros ip Hin. apply repeat_spec in Hin. subst ip.
    pose proof (clip_bounds scaled_ip 3.0 8.0 ltac:(lra)). lra.
Qed.

(** X11.  A trial of the simulation splits its innings into the full
    innings and the fraction without loss: with every normal draw at its
    mean, the rates of the Poisson draws of [n] trials add up to [n] times
    [adjusted_mean / base_ip] times the scaled innings clamped to 3 to 8.
    In the call that [project_strikeouts] makes for a pitcher with fewer
    than five game logs, the divisor is the default dispersion 1.0, so a
    trial draws for the adjusted mean times the clamped innings, at least
    three times the adjusted mean. *)
Theorem simulate_ks_rates :
  (forall adjusted_mean base_ip scaled_ip n s,
      0 < adjusted_mean -> 0 < base_ip -> 0 < scaled_ip ->
      sum (snd (Simulator.simulate_ks rate_log adjusted_mean base_ip scaled_ip
                  n s))
      = INR n * (adjusted_mean / base_ip * clip scaled_ip 3.0 8.0) + sum s) /\
  (forall py env pitcher_name opponent_team park p n s,
      Models.project_strikeouts py env pitcher_name opponent_team park
      = Ok (Some p) ->
      (List.length (Models.ks_logs p) < 5)%nat ->
      0 < Models.adjusted_mean p -> 0 < Models.scaled_ip p ->
      sum (snd (Simulator.simulate_ks rate_log
                  (Simulator.adjusted_mean (Models.samples p))
                  (Simulator.base_ip (Models.samples p))
                  (Simulator.scaled_ip (Models.samples p)) n s))
      = INR n * (Models.adjusted_mean p * clip (Models.scaled_ip p) 3.0 8.0)
        + sum s /\
      3 * Models.adjusted_mean p
      <= Models.adjusted_mean p * clip (Models.scaled_ip p) 3.0 8.0).
Proof.
  split; [intros; now apply simulate_ks_rate_sum|].
  intros py env pitcher_name opponent_team park p n s H Hlen Ha Hc.
  destruct (project_strikeouts_fields _ _ _ _ _ _ H)
    as (data & raw & name_col & pm & _ & _ & _ & _ & _ & _ & _ & _ & _ & _ & _
        & _ & _ & Hd & _ & _ & Hs).
  assert (Hone : Models.dispersion p = 1.0).
  { rewrite Hd. destruct (Nat.leb_spec 5 (List.length (Models.ks_logs p)));
      [lia|reflexivity]. }
  rewrite Hs.
  cbn [Simulator.adjusted_mean Simulator.base_ip Simulator.scaled_ip].
  rewrite Hone, simulate_ks_rate_sum by lra.
  pose proof (clip_bounds (Models.scaled_ip p) 3.0 8.0 ltac:(lra)) as Hclip.
  assert (Hdiv : Models.adjusted_mean p / 1.0 = Models.adjusted_mean p) by lra.
  rewrite Hdiv. split; [reflexivity | nra].
Qed.

(** Two trials at 6.6 strikeouts over 6.0 base innings, 5.5 scaled. *)
Lemma simulate_ks_rates_witness :
  sum (snd (Simulator.simulate_ks rate_log 6.6 6.0 5.5 2 []))
  = INR 2 * (6.6 / 6.0 * clip 5.5 3.0 8.0) + sum [].
Proof.
  apply (proj1 simulate_ks_rates); lra.
Defined.

(** ** The pitcher cache *)

(** X12.  [get_recent_ks_and_ip] raises [FileNotFoundError] exactly when
    the cache file is missing and raises nothing else, whatever the
    innings entries hold; when it returns, the strikeout list and the
    innings list have one entry for every game log. *)
Theorem get_recent_ks_and_ip_outcomes (py : Python) (env : Models.Env)
  (pitcher_name : string) :
  (Models.get_recent_ks_and_ip py env pitcher_name = Raise FileNotFoundError
   <-> Models.cache_file env (Models.safe_name pitcher_name) = None) /\
  (forall e, Models.get_recent_ks_and_ip py env pitcher_name = Raise e ->
             e = FileNotFoundError) /\
  (forall ks ip hand team logs,
      Models.get_recent_ks_and_ip py env pitcher_name
      = Ok (ks, ip, hand, team, logs) ->
      List.length ks = List.length logs /\ List.length ip = List.length logs).
Proof.
  unfold Models.get_recent_ks_and_ip.
  destruct (Models.cache_file env (Models.safe_name pitcher_name)) as [data|].
  - destruct (traverse _ (Models.logs data)) as [ip'|e'|] eqn:E; cbn [bind].
    + split; [split; discriminate|]. split; [discriminate|].
      intros ks ip hand team logs H. injection H as <- <- _ _ <-.
      apply traverse_Forall2 in E. apply Forall2_length in E.
      now rewrite length_map.
    + exfalso. apply traverse_no_raise in E; [exact E|].
      intro log. apply parse_ip_no_raise.
    + split; [split; discriminate|]. split; discriminate.
  - split; [split; reflexivity|]. split; [|discriminate].
    intros e H. now injection H as <-.
Qed.

(** ** Game logs that a projection cannot use *)

Lemma log_k_rate_countable (log : GameLog) (r : R) :
  Modifiers.log_k_rate log = Ok r -> countable_log log.
Proof.
  unfold Modifiers.log_k_rate, countable_log.
  destruct (innings_pitched log) as [[ip|s]|]; [|discriminate|trivial].
  destruct (Req_dec_T ip 0); [discriminate|]. intros _. assumption.
Qed.

Lemma Forall2_left {A B : Type} (Q : A -> B -> Prop) (P : A -> Prop)
  (l : list A) (l' : list B) :
  Forall2 Q l l' -> (forall a b, Q a b -> P a) -> Forall P l.
Proof.
  intros H HQ. induction H as [|a b l l' Hab _ IH]; constructor; eauto.
Qed.

Lemma calculate_stuff_modifier_countable (pitcher_row : Series)
  (logs : list GameLog) (m : R) :
  Modifiers.calculate_stuff_modifier pitcher_row logs = Ok m ->
  Forall countable_log (last_n 3 logs).
Proof.
  unfold Modifiers.calculate_stuff_modifier. intro H.
  destruct logs as [|log0 logs']; [constructor|].
  set (logs := log0 :: logs') in *.
  cbv zeta in H.
  destruct (as_float (dict_get pitcher_row "Stuff+" (CNum 100.0)));
    cbn [bind] in H; try discriminate.
  destruct (as_float (dict_get pitcher_row "FBv" (CNum 92.0)));
    cbn [bind] in H; try discriminate.
  subst logs. cbv iota in H.
  destruct (traverse Modifiers.log_k_rate (last_n 3 (log0 :: logs')))
    as [rates|e|] eqn:E; cbn [bind] in H; try discriminate.
  apply traverse_Forall2 in E.
  eapply Forall2_left; [exact E|]. intros log r. apply log_k_rate_countable.
Qed.

(** X13.  A projection needs countable game logs: when one of the last
    three logs of the cache file has its innings as text (the form in
    which the scraper stores them) or as zero, [project_strikeouts] yields
    no projection (the quotient strikeouts / innings raises inside
    [calculate_stuff_modifier]), and the orchestrator gets [None] or
    nothing from [_get_projection]. *)
Theorem project_strikeouts_uncountable_logs (py : Python) (env : Models.Env)
  (pitcher_name opponent_team park : string) (data : Models.PitcherCache) :
  Models.cache_file env (Models.safe_name pitcher_name) = Some data ->
  ~ Forall countable_log (last_n 3 (Models.logs data)) ->
  forall p : Models.Projection,
    Models.project_strikeouts py env pitcher_name opponent_team park
    <> Ok (Some p) /\
    Orchestrator._get_projection py env pitcher_name opponent_team park
    <> Ok (Some p).
Proof.
  intros Hdata Hlogs p.
  assert (Hp : Models.project_strikeouts py env pitcher_name opponent_team park
               <> Ok (Some p)).
  { intro H.
    destruct (project_strikeouts_modifiers _ _ _ _ _ _ H)
      as (data' & raw & name_col & row & others & k & Hdata' & _ & _ & _ & _
          & _ & _ & _ & _ & _ & _ & Hstuff & _).
    rewrite Hdata in Hdata'. injection Hdata' as <-.
    apply Hlogs. eapply calculate_stuff_modifier_countable, Hstuff. }
  split; [exact Hp|].
  unfold Orchestrator._get_projection.
  destruct (Models.project_strikeouts py env pitcher_name opponent_team park)
    as [o|e|]; cbn [catch]; try discriminate.
  exact Hp.
Qed.

Lemma project_strikeouts_uncountable_logs_witness :
  ~ (exists p : Models.Projection,
        Models.project_strikeouts python_stub env_text_innings
          "Max Fried" "BOS" "Fenway Park" = Ok (Some p)) /\
  ~ (exists p : Models.Projection,
        Orchestrator._get_projection python_stub env_text_innings
          "Max Fried" "BOS" "Fenway Park" = Ok (Some p)).
Proof.
  assert (H : forall p : Models.Projection,
             Models.project_strikeouts python_stub env_text_innings
               "Max Fried" "BOS" "Fenway Park" <> Ok (Some p) /\
             Orchestrator._get_projection python_stub env_text_innings
               "Max Fried" "BOS" "Fenway Park" <> Ok (Some p)).
  { apply (project_strikeouts_uncountable_logs python_stub env_text_innings
             "Max Fried" "BOS" "Fenway Park" text_start).
    - reflexivity.
    - intro H. inversion H as [|log l Hlog _]. exact Hlog. }
  split; intros [p Hp]; now apply (H p).
Defined.

(** ** The adjusted mean against the strikeout logs *)

(** X14.  With at least one game log, the adjusted mean of a projection
    lies between 0.85 times the smallest and 1.15 times the largest
    strikeout figure of the logs: the base is their EWMA and the total
    modifier is clamped to 0.85 to 1.15. *)
Theorem project_strikeouts_adjusted_mean_range (py : Python) (env : Models.Env)
  (pitcher_name opponent_team park : string) (p : Models.Projection)
  (lo hi : R) :
  Models.project_strikeouts py env pitcher_name opponent_team park = Ok (Some p) ->
  Models.ks_logs p <> [] ->
  Forall (fun k => lo <= k <= hi) (Models.ks_logs p) ->
  0 <= lo ->
  0.85 * lo <= Models.adjusted_mean p <= 1.15 * hi.
Proof.
  intros H Hne Hks Hlo.
  destruct (project_strikeouts_fields _ _ _ _ _ _ H)
    as (data & raw & name_col & pm & _ & _ & _ & _ & _ & _ & _ & _ & _ & _ & _
        & Hbase & _ & _ & Htotal & Hadj & _).
  assert (Hb : lo <= Models.base_ks p <= hi).
  { rewrite Hbase. destruct (Models.ks_logs p) as [|k ks] eqn:E; [congruence|].
    unfold StatsLogic.calculate_ewma.
    destruct (ewma_weights StatsLogic.alpha_default (List.length (k :: ks)))
      as (Hlen & He & Hpos).
    apply normalized_dot_bounds; try assumption.
    apply Hpos. discriminate. }
  assert (Ht : 0.85 <= Models.total_mod p <= 1.15).
  { rewrite Htotal. apply clip_bounds. lra. }
  rewrite Hadj. nra.
Qed.

Lemma project_strikeouts_adjusted_mean_range_witness :
  exists p : Models.Projection,
    Models.project_strikeouts python_stub env_one_start
      "Max Fried" "BOS" "Fenway Park" = Ok (Some p) /\
    0.85 * 7 <= Models.adjusted_mean p <= 1.15 * 7.
Proof.
  destruct env_one_start_projects as [p Hp]. exists p.
  split; [exact Hp|].
  destruct (project_strikeouts_fields _ _ _ _ _ _ Hp)
    as (data & raw & name_col & pm & Hdata & _ & _ & _ & _ & Hks & _).
  assert (Hc : Models.cache_file env_one_start (Models.safe_name "Max Fried")
               = Some one_start) by reflexivity.
  rewrite Hc in Hdata. injection Hdata as <-.
  assert (Hlogs : Models.ks_logs p = [7]) by exact Hks.
  apply (project_strikeouts_adjusted_mean_range _ _ _ _ _ _ 7 7 Hp).
  - rewrite Hlogs. discriminate.
  - rewrite Hlogs. apply Forall_cons; [lra|apply Forall_nil].
  - lra.
Defined.

(** ** Column names after [load_normalized_trend_df] *)

Lemma lower_ascii_not_upper (c : ascii) : is_upper (lower_ascii c) = false.
Proof.
  destruct c as [[] [] [] [] [] [] [] []]; vm_compute; reflexivity.
Qed.

Lemma list_ascii_app (s t : string) :
  list_ascii_of_string (s ++ t)
  = (list_ascii_of_string s ++ list_ascii_of_string t)%list.
Proof.
  induction s as [|c s IH]; [reflexivity|]. cbn. now rewrite IH.
Qed.

Lemma lower_chars (s : string) (x : ascii) :
  In x (list_ascii_of_string (lower s)) -> is_upper x = false.
Proof.
  unfold lower. induction s as [|c s IH]; cbn; [tauto|].
  intros [<-|H]; [apply lower_ascii_not_upper | now apply IH].
Qed.

Lemma replace_char_chars (c : ascii) (by_ s : string) (x : ascii) :
  In x (list_ascii_of_string (replace_char c by_ s)) ->
  In x (list_ascii_of_string by_) \/ In x (list_ascii_of_string s).
Proof.
  induction s as [|d s IH]; cbn; [tauto|].
  destruct (Ascii.eqb c d).
  - rewrite list_ascii_app, in_app_iff. tauto.
  - cbn. tauto.
Qed.

Lemma lstrip_chars (s : string) (x : ascii) :
  In x (list_ascii_of_string (lstrip s)) -> In x (list_ascii_of_string s).
Proof.
  induction s as [|c s IH]; cbn; [tauto|].
  destruct (is_space c); cbn; tauto.
Qed.

Lemma rev_string_chars (s : string) (x : ascii) :
  In x (list_ascii_of_string (rev_string s)) -> In x (list_ascii_of_string s).
Proof.
  unfold rev_string. rewrite list_ascii_of_string_of_list_ascii.
  intro H. now apply in_rev.
Qed.

Lemma strip_chars (s : string) (x : ascii) :
  In x (list_ascii_of_string (strip s)) -> In x (list_ascii_of_string s).
Proof.
  unfold strip. intro H.
  now apply lstrip_chars, rev_string_chars, lstrip_chars, rev_string_chars.
Qed.

Lemma normalize_column_chars (c : string) (x : ascii) :
  In x (list_ascii_of_string (Models.normalize_column c)) -> is_upper x = false.
Proof.
  unfold Models.normalize_column. intro H. apply strip_chars in H.
  apply replace_char_chars in H. destruct H as [H|H].
  { cbn in H. repeat (destruct H as [<-|H]; [reflexivity|]). destruct H. }
  apply replace_char_chars in H. destruct H as [H|H].
  { cbn in H. repeat (destruct H as [<-|H]; [reflexivity|]). destruct H. }
  now apply lower_chars in H.
Qed.

Lemma normalize_column_not_K_pct (c : string) : Models.normalize_column c <> "K%".
Proof.
  intro H.
  pose proof (normalize_column_chars c "K"%char) as Hc.
  rewrite H in Hc. specialize (Hc ltac:(cbn; tauto)). discriminate Hc.
Qed.

Lemma normalize_column_not_wRC_plus (c : string) :
  Models.normalize_column c <> "wRC+".
Proof.
  intro H.
  pose proof (normalize_column_chars c "R"%char) as Hc.
  rewrite H in Hc. specialize (Hc ltac:(cbn; tauto)). discriminate Hc.
Qed.

(** ** Rows of a normalized table *)

Lemma dict_find_set_other {A : Type} (d : dict A) (k k' : string) (v : A) :
  k <> k' -> dict_find (dict_set d k v) k' = dict_find d k'.
Proof.
  intro Hne. induction d as [|[k0 v0] d IH]; cbn.
  - destruct (String.eqb_spec k k'); [contradiction|reflexivity].
  - destruct (String.eqb_spec k0 k) as [->|Hk]; cbn.
    + destruct (String.eqb_spec k k'); [contradiction|reflexivity].
    + destruct (String.eqb k0 k'); [reflexivity|exact IH].
Qed.

Lemma dict_find_renamed {A : Type} (f : string -> string) (row : dict A)
  (k : string) :
  (forall key, In key (map fst row) -> f key <> k) ->
  dict_find (map (fun kv => (f (fst kv), snd kv)) row) k = None.
Proof.
  induction row as [|[k0 v0] row IH]; intro H; cbn; [reflexivity|].
  destruct (String.eqb_spec (f k0) k) as [E|_].
  - exfalso. apply (H k0); [now left|exact E].
  - apply IH. intros key Hin. apply H. now right.
Qed.

Lemma team_row_lookup_row (py : Python) (team_col team_name : string)
  (df : DataFrame) (r : Series) :
  team_row_lookup py team_col team_name df = Some r ->
  exists row temp, In row (rows df) /\ r = dict_set row "_temp_team" (CStr temp).
Proof.
  unfold team_row_lookup. intro H. cbv zeta in H.
  assert (Hf : forall key (tr : string * Series) l,
             filter (fun tr => String.eqb (fst tr) key)
               (map (fun row => (upper (strip (astype_str py (series_at row team_col))),
                                 row)) (rows df)) = tr :: l ->
             In (snd tr) (rows df)).
  { intros key tr l E.
    assert (Hin : In tr (tr :: l)) by now left.
    rewrite <- E in Hin. apply filter_In in Hin. destruct Hin as [Hin _].
    apply in_map_iff in Hin. destruct Hin as (row & <- & Hrow). exact Hrow. }
  match type of H with
  | match ?x with _ => _ end = _ => destruct x as [|tr l] eqn:E1
  end.
  - destruct (get_close_matches py _ _ _ _) as [|m ms]; [discriminate|].
    match type of H with
    | match ?x with _ => _ end = _ =>
        destruct x as [|tr l] eqn:E2; [discriminate|]
    end.
    injection H as <-. exists (snd tr), (fst tr). split; [|reflexivity].
    eapply Hf, E2.
  - injection H as <-. exists (snd tr), (fst tr). split; [|reflexivity].
    eapply Hf, E1.
Qed.

Lemma normalized_row_lookup (py : Python) (team_col team_name k : string)
  (df : DataFrame) (r : Series) :
  team_row_lookup py team_col team_name (Models.load_normalized_trend_df df)
  = Some r ->
  k <> "_temp_team" ->
  no_header k df ->
  dict_find r k = None.
Proof.
  intros H Hk Hno. apply team_row_lookup_row in H.
  destruct H as (row & temp & Hin & ->).
  rewrite dict_find_set_other by congruence.
  cbn [Models.load_normalized_trend_df rows] in Hin.
  apply in_map_iff in Hin. destruct Hin as (row0 & <- & Hin0).
  apply dict_find_renamed. intros key Hkey. now apply (Hno row0).
Qed.

Lemma normalized_row_no_raw_header (py : Python) (team_col team_name k : string)
  (df : DataFrame) (r : Series) :
  team_row_lookup py team_col team_name (Models.load_normalized_trend_df df)
  = Some r ->
  k <> "_temp_team" ->
  (forall c, Models.normalize_column c <> k) ->
  dict_find r k = None.
Proof.
  intros H Hk Hno. eapply normalized_row_lookup; eauto.
  intros row key _ _. apply Hno.
Qed.

(** ** The trend tables inside a projection *)

Lemma Rpower_one (y : R) : Rpower 1 y = 1.
Proof. unfold Rpower. rewrite ln_1, Rmult_0_r. apply exp_0. Qed.

Lemma modifiers_row_lookup (py : Python) (team_name : string) (df : DataFrame)
  (r : Series) :
  Modifiers.get_recent_team_row py team_name df = Some r ->
  exists team_col, team_row_lookup py team_col team_name df = Some r.
Proof.
  unfold Modifiers.get_recent_team_row.
  destruct (get_column_name df _) as [team_col|]; [|discriminate].
  intro H. now exists team_col.
Qed.

Lemma stats_logic_row_lookup (py : Python) (team_name : string) (df : DataFrame)
  (r : Series) :
  StatsLogic.get_recent_team_row py team_name df = Some r ->
  exists team_col, team_row_lookup py team_col team_name df = Some r.
Proof.
  unfold StatsLogic.get_recent_team_row.
  destruct (df_empty df); [discriminate|].
  destruct (get_column_name df _) as [team_col|]; [|discriminate].
  intro H. now exists team_col.
Qed.

Lemma calculate_team_trend_modifier_normalized (py : Python)
  (team_name pitcher_hand : string)
  (l21_lhp l21_rhp delta_lhp delta_rhp : DataFrame) :
  no_header "k_pct" l21_lhp -> no_header "k_pct" l21_rhp ->
  no_header "k_pct" delta_lhp -> no_header "k_pct" delta_rhp ->
  Modifiers.calculate_team_trend_modifier py team_name pitcher_hand
    (Models.load_normalized_trend_df l21_lhp)
    (Models.load_normalized_trend_df l21_rhp)
    (Models.load_normalized_trend_df delta_lhp)
    (Models.load_normalized_trend_df delta_rhp)
  = Ok (match
          Modifiers.get_recent_team_row py team_name
            (Models.load_normalized_trend_df
               (if String.eqb pitcher_hand "L" then l21_lhp else l21_rhp)),
          Modifiers.get_recent_team_row py team_name
            (Models.load_normalized_trend_df
               (if String.eqb pitcher_hand "L" then delta_lhp else delta_rhp))
        with
        | Some _, Some _ => 1.15
        | _, _ => if String.eqb pitcher_hand "L" then 1.05 else 1.02
        end).
Proof.
  intros Ha Hb Hc Hd.
  unfold Modifiers.calculate_team_trend_modifier,
    Modifiers.calculate_team_trend_modifier_try.
  assert (Hrow : forall df r,
             no_header "k_pct" df ->
             Modifiers.get_recent_team_row py team_name
               (Models.load_normalized_trend_df df) = Some r ->
             forall default, dict_get r "k_pct" default = default).
  { intros df r Hno Hr default. apply modifiers_row_lookup in Hr.
    destruct Hr as [team_col Hr]. unfold dict_get.
    rewrite (normalized_row_lookup _ _ _ "k_pct" _ _ Hr); [reflexivity| |exact Hno].
    discriminate. }
  assert (Hclip : clip (0.98 + 0.25 * (LEAGUE_AVG_TEAM_K_PCT / LEAGUE_AVG_TEAM_K_PCT)
                        + 0.00) 0.85 1.15 = 1.15).
  { unfold LEAGUE_AVG_TEAM_K_PCT.
    replace (0.195 / 0.195) with 1 by (field; lra). solve_clip. }
  destruct (String.eqb pitcher_hand "L"); cbv beta iota zeta.
  - destruct (Modifiers.get_recent_team_row py team_name
                (Models.load_normalized_trend_df l21_lhp)) as [r|] eqn:Er;
      [|reflexivity].
    destruct (Modifiers.get_recent_team_row py team_name
                (Models.load_normalized_trend_df delta_lhp)) as [d|] eqn:Ed;
      [|reflexivity].
    rewrite (Hrow _ _ Ha Er), (Hrow _ _ Hc Ed). cbn [as_float bind].
    destruct (Rlt_dec 1.0 LEAGUE_AVG_TEAM_K_PCT) as [Hlt|_];
      [unfold LEAGUE_AVG_TEAM_K_PCT in Hlt; lra|].
    cbn [catch]. now rewrite Hclip.
  - destruct (Modifiers.get_recent_team_row py team_name
                (Models.load_normalized_trend_df l21_rhp)) as [r|] eqn:Er;
      [|reflexivity].
    destruct (Modifiers.get_recent_team_row py team_name
                (Models.load_normalized_trend_df delta_rhp)) as [d|] eqn:Ed;
      [|reflexivity].
    rewrite (Hrow _ _ Hb Er), (Hrow _ _ Hd Ed). cbn [as_float bind].
    destruct (Rlt_dec 1.0 LEAGUE_AVG_TEAM_K_PCT) as [Hlt|_];
      [unfold LEAGUE_AVG_TEAM_K_PCT in Hlt; lra|].
    cbn [catch]. now rewrite Hclip.
Qed.

Lemma PARK_FACTORS_get_range (park : string) :
  0.93 <= dict_get PARK_FACTORS park 1.0 <= 1.07.
Proof.
  unfold dict_get. destruct (dict_find PARK_FACTORS park) as [f|] eqn:E; [|lra].
  apply dict_find_In in E. apply in_map_iff in E.
  destruct E as (item & <- & Hin).
  pose proof PARK_FACTORS_range as Hall. rewrite Forall_forall in Hall.
  exact (Hall _ Hin).
Qed.

Lemma scale_ip_mean_normalized (py : Python) (base_ip : R)
  (opponent hand park : string)
  (l21_lhp l21_rhp delta_lhp delta_rhp : DataFrame) :
  no_header "k_pct" l21_lhp -> no_header "k_pct" l21_rhp ->
  no_header "wrc_plus" delta_lhp -> no_header "wrc_plus" delta_rhp ->
  StatsLogic.scale_ip_mean py base_ip opponent hand park
    (Models.load_normalized_trend_df l21_lhp)
    (Models.load_normalized_trend_df l21_rhp)
    (Models.load_normalized_trend_df delta_lhp)
    (Models.load_normalized_trend_df delta_rhp)
  = Ok (base_ip * dict_get PARK_FACTORS park 1.0).
Proof.
  intros Ha Hb Hc Hd.
  unfold StatsLogic.scale_ip_mean, StatsLogic.scale_ip_mean_try.
  cbv zeta.
  set (recent_df := if String.eqb hand "L"
                    then Models.load_normalized_trend_df l21_lhp
                    else Models.load_normalized_trend_df l21_rhp).
  set (delta_df := if String.eqb hand "L"
                   then Models.load_normalized_trend_df delta_lhp
                   else Models.load_normalized_trend_df delta_rhp).
  assert (Hrecent : forall r,
             StatsLogic.get_recent_team_row py opponent recent_df = Some r ->
             dict_get r "k_pct" (dict_get r "K%" (CNum LEAGUE_AVG_TEAM_K_PCT))
             = CNum LEAGUE_AVG_TEAM_K_PCT).
  { intros r Hr. apply stats_logic_row_lookup in Hr.
    destruct Hr as [team_col Hr]. unfold dict_get. subst recent_df.
    destruct (String.eqb hand "L").
    - rewrite (normalized_row_lookup _ _ _ "k_pct" _ _ Hr);
        [|discriminate|exact Ha].
      rewrite (normalized_row_no_raw_header _ _ _ "K%" _ _ Hr);
        [reflexivity|discriminate|apply normalize_column_not_K_pct].
    - rewrite (normalized_row_lookup _ _ _ "k_pct" _ _ Hr);
        [|discriminate|exact Hb].
      rewrite (normalized_row_no_raw_header _ _ _ "K%" _ _ Hr);
        [reflexivity|discriminate|apply normalize_column_not_K_pct]. }
  assert (Hdelta : forall r,
             StatsLogic.get_recent_team_row py opponent delta_df = Some r ->
             dict_get r "wRC+" (dict_get r "wrc_plus" (CNum 0)) = CNum 0).
  { intros r Hr. apply stats_logic_row_lookup in Hr.
    destruct Hr as [team_col Hr]. unfold dict_get. subst delta_df.
    destruct (String.eqb hand "L").
    - rewrite (normalized_row_no_raw_header _ _ _ "wRC+" _ _ Hr);
        [|discriminate|apply normalize_column_not_wRC_plus].
      rewrite (normalized_row_lookup _ _ _ "wrc_plus" _ _ Hr);
        [reflexivity|discriminate|exact Hc].
    - rewrite (normalized_row_no_raw_header _ _ _ "wRC+" _ _ Hr);
        [|discriminate|apply normalize_column_not_wRC_plus].
      rewrite (normalized_row_lookup _ _ _ "wrc_plus" _ _ Hr);
        [reflexivity|discriminate|exact Hd]. }
  assert (Hk : forall x,
             (k_pct <- as_float (CNum LEAGUE_AVG_TEAM_K_PCT) ;;
              k_factor <- py_pow ((if Rlt_dec 1.0 k_pct then k_pct / 100 else k_pct)
                                  / LEAGUE_AVG_TEAM_K_PCT) 0.5 ;;
              Ok (x * k_factor)) = Ok (x * 1)).
  { intro x. cbn [as_float bind].
    destruct (Rlt_dec 1.0 LEAGUE_AVG_TEAM_K_PCT) as [Hlt|_];
      [unfold LEAGUE_AVG_TEAM_K_PCT in Hlt; lra|].
    replace (LEAGUE_AVG_TEAM_K_PCT / LEAGUE_AVG_TEAM_K_PCT) with 1
      by (unfold LEAGUE_AVG_TEAM_K_PCT; field; lra).
    unfold py_pow. destruct (Rlt_dec 0 1) as [_|Hn]; [|lra].
    cbn [bind]. now rewrite Rpower_one. }
  assert (Hw : forall x,
             (wrc_delta <- as_float (CNum 0) ;;
              ratio <- (if Req_dec_T (100 + wrc_delta) 0
                        then Raise ZeroDivisionError
                        else Ok (100 / (100 + wrc_delta))) ;;
              wrc_factor <- py_pow ratio 0.3 ;;
              Ok (x * wrc_factor)) = Ok (x * 1)).
  { intro x. cbn [as_float bind].
    destruct (Req_dec_T (100 + 0) 0) as [Hz|_]; [lra|]. cbn [bind].
    replace (100 / (100 + 0)) with 1 by (field; lra).
    unfold py_pow. destruct (Rlt_dec 0 1) as [_|Hn]; [|lra].
    cbn [bind]. now rewrite Rpower_one. }
  pose proof (PARK_FACTORS_get_range park) as Hpark.
  assert (Hfinal : forall x, x = dict_get PARK_FACTORS park 1.0 ->
                             base_ip * clip x 0.8 1.2
                             = base_ip * dict_get PARK_FACTORS park 1.0).
  { intros x ->. f_equal. unfold clip, Rmin, Rmax.
    repeat destruct Rle_dec; lra. }
  destruct (StatsLogic.get_recent_team_row py opponent recent_df) as [r|] eqn:Er;
    destruct (StatsLogic.get_recent_team_row py opponent delta_df) as [d|] eqn:Ed;
    try rewrite (Hrecent _ eq_refl); try rewrite (Hdelta _ eq_refl);
    try rewrite Hk; cbn [bind]; try rewrite Hw; cbn [bind catch];
    f_equal; apply Hfinal; lra.
Qed.

Lemma l21_raw_headers (k : string) :
  k <> "team" -> k <> "kpct" -> no_header k l21_raw.
Proof.
  intros H1 H2 row key Hrow Hkey. cbn in Hrow.
  destruct Hrow as [<-|[]]. cbn in Hkey.
  destruct Hkey as [<-|[<-|[]]]; vm_compute; congruence.
Qed.

Lemma delta_raw_headers (k : string) :
  k <> "team" -> k <> "kpct" -> k <> "wrcplus" -> no_header k delta_raw.
Proof.
  intros H1 H2 H3 row key Hrow Hkey. cbn in Hrow.
  destruct Hrow as [<-|[]]. cbn in Hkey.
  destruct Hkey as [<-|[<-|[<-|[]]]]; vm_compute; congruence.
Qed.

(** X15.  [project_strikeouts] hands [calculate_team_trend_modifier] the
    tables of [load_normalized_trend_df], in which the header "K%" has
    become "kpct", while the function reads the key "k_pct".  Unless a
    header of the CSV files normalizes to "k_pct", the figures of the
    tables are never read: the team trend modifier is 1.15 when the team
    has a row in both tables of the pitcher's hand, and the fallback (1.05
    for a left-hander, 1.02 otherwise) when it has not. *)
Theorem project_strikeouts_team_trend_mod (py : Python) (env : Models.Env) :
  no_header "k_pct" (Models.TEAM_TRENDS_LHP_L21 env) ->
  no_header "k_pct" (Models.TEAM_TRENDS_RHP_L21 env) ->
  no_header "k_pct" (Models.TEAM_TRENDS_LHP_DELTA env) ->
  no_header "k_pct" (Models.TEAM_TRENDS_RHP_DELTA env) ->
  let trend_mod team_name pitcher_hand :=
    match
      Modifiers.get_recent_team_row py team_name
        (Models.load_normalized_trend_df
           (if String.eqb pitcher_hand "L" then Models.TEAM_TRENDS_LHP_L21 env
            else Models.TEAM_TRENDS_RHP_L21 env)),
      Modifiers.get_recent_team_row py team_name
        (Models.load_normalized_trend_df
           (if String.eqb pitcher_hand "L" then Models.TEAM_TRENDS_LHP_DELTA env
            else Models.TEAM_TRENDS_RHP_DELTA env))
    with
    | Some _, Some _ => 1.15
    | _, _ => if String.eqb pitcher_hand "L" then 1.05 else 1.02
    end in
  (forall team_name pitcher_hand,
      Modifiers.calculate_team_trend_modifier py team_name pitcher_hand
        (Models.load_normalized_trend_df (Models.TEAM_TRENDS_LHP_L21 env))
        (Models.load_normalized_trend_df (Models.TEAM_TRENDS_RHP_L21 env))
        (Models.load_normalized_trend_df (Models.TEAM_TRENDS_LHP_DELTA env))
        (Models.load_normalized_trend_df (Models.TEAM_TRENDS_RHP_DELTA env))
      = Ok (trend_mod team_name pitcher_hand)) /\
  (forall pitcher_name opponent_team park p,
      Models.project_strikeouts py env pitcher_name opponent_team park
      = Ok (Some p) ->
      Models.team_trend_mod p
      = trend_mod (strip opponent_team) (Models.pitcher_hand p)).
Proof.
  intros Ha Hb Hc Hd trend_mod.
  assert (Hfun : forall team_name pitcher_hand,
             Modifiers.calculate_team_trend_modifier py team_name pitcher_hand
               (Models.load_normalized_trend_df (Models.TEAM_TRENDS_LHP_L21 env))
               (Models.load_normalized_trend_df (Models.TEAM_TRENDS_RHP_L21 env))
               (Models.load_normalized_trend_df (Models.TEAM_TRENDS_LHP_DELTA env))
               (Models.load_normalized_trend_df (Models.TEAM_TRENDS_RHP_DELTA env))
             = Ok (trend_mod team_name pitcher_hand)).
  { intros team_name pitcher_hand.
    now apply calculate_team_trend_modifier_normalized. }
  split; [exact Hfun|].
  intros pitcher_name opponent_team park p H.
  destruct (project_strikeouts_modifiers _ _ _ _ _ _ H)
    as (data & raw & name_col & row & others & k & _ & _ & _ & _ & _ & _ & _
        & Htrend & _).
  rewrite Hfun in Htrend. now injection Htrend as <-.
Qed.

Lemma project_strikeouts_team_trend_mod_witness :
  Modifiers.calculate_team_trend_modifier python_stub "BOS" "L"
    (Models.load_normalized_trend_df l21_raw)
    (Models.load_normalized_trend_df l21_raw)
    (Models.load_normalized_trend_df delta_raw)
    (Models.load_normalized_trend_df delta_raw)
  = Ok 1.15.
Proof.
  destruct (project_strikeouts_team_trend_mod python_stub env_trends) as [Hfun _].
  - apply l21_raw_headers; discriminate.
  - apply l21_raw_headers; discriminate.
  - apply delta_raw_headers; discriminate.
  - apply delta_raw_headers; discriminate.
  - exact (Hfun "BOS" "L").
Defined.

(** X16.  The same normalization turns "K%" into "kpct" and "wRC+" into
    "wrcplus", while [scale_ip_mean] reads "k_pct" or "K%" and "wRC+" or
    "wrc_plus".  Unless a header of the CSV files normalizes to "k_pct"
    (recent tables) or "wrc_plus" (delta tables), the opponent never
    scales the innings: [scale_ip_mean] returns the base innings times
    the factor that [PARK_FACTORS] has under the exact park name (1.0
    without entry), and so does every projection. *)
Theorem project_strikeouts_scaled_ip (py : Python) (env : Models.Env) :
  no_header "k_pct" (Models.TEAM_TRENDS_LHP_L21 env) ->
  no_header "k_pct" (Models.TEAM_TRENDS_RHP_L21 env) ->
  no_header "wrc_plus" (Models.TEAM_TRENDS_LHP_DELTA env) ->
  no_header "wrc_plus" (Models.TEAM_TRENDS_RHP_DELTA env) ->
  (forall base_ip opponent hand park,
      StatsLogic.scale_ip_mean py base_ip opponent hand park
        (Models.load_normalized_trend_df (Models.TEAM_TRENDS_LHP_L21 env))
        (Models.load_normalized_trend_df (Models.TEAM_TRENDS_RHP_L21 env))
        (Models.load_normalized_trend_df (Models.TEAM_TRENDS_LHP_DELTA env))
        (Models.load_normalized_trend_df (Models.TEAM_TRENDS_RHP_DELTA env))
      = Ok (base_ip * dict_get PARK_FACTORS park 1.0)) /\
  (forall pitcher_name opponent_team park p,
      Models.project_strikeouts py env pitcher_name opponent_team park
      = Ok (Some p) ->
      Models.scaled_ip p = Models.base_ip p * dict_get PARK_FACTORS park 1.0).
Proof.
  intros Ha Hb Hc Hd.
  assert (Hfun : forall base_ip opponent hand park,
             StatsLogic.scale_ip_mean py base_ip opponent hand park
               (Models.load_normalized_trend_df (Models.TEAM_TRENDS_LHP_L21 env))
               (Models.load_normalized_trend_df (Models.TEAM_TRENDS_RHP_L21 env))
               (Models.load_normalized_trend_df (Models.TEAM_TRENDS_LHP_DELTA env))
               (Models.load_normalized_trend_df (Models.TEAM_TRENDS_RHP_DELTA env))
             = Ok (base_ip * dict_get PARK_FACTORS park 1.0)).
  { intros base_ip opponent hand park. now apply scale_ip_mean_normalized. }
  split; [exact Hfun|].
  intros pitcher_name opponent_team park p H.
  destruct (project_strikeouts_modifiers _ _ _ _ _ _ H)
    as (data & raw & name_col & row & others & k & _ & _ & _ & _ & _ & _ & _
        & _ & _ & _ & _ & _ & _ & _ & Hscaled).
  rewrite Hfun in Hscaled. cbn [catch] in Hscaled. now injection Hscaled as <-.
Qed.

Lemma project_strikeouts_scaled_ip_witness :
  StatsLogic.scale_ip_mean python_stub 6.0 "BOS" "L" "Fenway Park"
    (Models.load_normalized_trend_df l21_raw)
    (Models.load_normalized_trend_df l21_raw)
    (Models.load_normalized_trend_df delta_raw)
    (Models.load_normalized_trend_df delta_raw)
  = Ok (6.0 * dict_get PARK_FACTORS "Fenway Park" 1.0).
Proof.
  destruct (project_strikeouts_scaled_ip python_stub env_trends) as [Hfun _].
  - apply l21_raw_headers; discriminate.
  - apply l21_raw_headers; discriminate.
  - apply delta_raw_headers; discriminate.
  - apply delta_raw_headers; discriminate.
  - exact (Hfun 6.0 "BOS" "L" "Fenway Park").
Defined.

(** ** The loop of the orchestrator *)

Lemma find_opponent_scheduled (team : string) :
  Orchestrator._find_opponent team <> "Unknown" ->
  Orchestrator._find_opponent (Orchestrator._find_opponent team) = team /\
  Orchestrator._get_park_for_team team <> "Unknown Park".
Proof.
  unfold Orchestrator._find_opponent at 1 3.
  unfold dict_get, Orchestrator.team_schedule, dict_find.
  repeat match goal with
         | |- context [String.eqb ?k team] =>
             destruct (String.eqb_spec k team) as [<-|_];
             [intros _; split; [reflexivity | vm_compute; discriminate]|]
         end.
  intro H. now contradiction H.
Qed.

Lemma flat_map_some_In {A : Type} (l : list (option A)) (x : A) :
  In x (flat_map (fun o => match o with Some r => [r] | None => [] end) l) ->
  In (Some x) l.
Proof.
  intro H. apply in_flat_map in H. destruct H as ([y|] & Hin & Hx).
  - destruct Hx as [<-|[]]. exact Hin.
  - destruct Hx.
Qed.

Lemma traverse_In {A B : Type} (f : A -> outcome B) (l : list A) (ys : list B)
  (y : B) :
  traverse f l = Ok ys -> In y ys -> exists x, In x l /\ f x = Ok y.
Proof.
  intros H Hy. apply traverse_Forall2 in H.
  induction H as [|x y' l ys' Hxy _ IH]; [destruct Hy|].
  destruct Hy as [<-|Hy].
  - exists x. split; [now left|exact Hxy].
  - destruct (IH Hy) as (x' & Hin & Hx'). exists x'. split; [now right|exact Hx'].
Qed.

(** X17.  Every entry of the list [projections] that [run] builds comes
    from a prop whose pitcher passed the validation of the cache, faces
    the scheduled opponent of the pitcher's team (whose own scheduled
    opponent is that team) in the home park of the pitcher's team, and
    rests on a projection that [project_strikeouts] returned for these
    three; its recommendation is OVER, UNDER or PASS and never SKIP.  The
    validation leaves no pitcher without game logs, so the base of such a
    projection is always the EWMA of the logs and never the league
    average. *)
Theorem projections_rows (py : Python) (env : Models.Env) (round2 : R -> R)
  (pitcher_names : list string) (props : list Orchestrator.Prop_)
  (rows : list Orchestrator.OutputRow) :
  Orchestrator.projections py env round2
    (Orchestrator.valid_pitchers env pitcher_names) props = Ok rows ->
  Forall
    (fun row =>
       let prop := Orchestrator.prop row in
       In prop props /\
       In (Orchestrator.pitcher prop) pitcher_names /\
       Orchestrator.valid_pitcher env (Orchestrator.pitcher prop) = true /\
       Orchestrator.opponent row
       = Orchestrator._find_opponent (Orchestrator.team prop) /\
       Orchestrator._find_opponent (Orchestrator.opponent row)
       = Orchestrator.team prop /\
       Orchestrator.park row
       = Orchestrator._get_park_for_team (Orchestrator.team prop) /\
       Orchestrator.park row <> "Unknown Park" /\
       Orchestrator.recommendation (Orchestrator.edge_data row) <> "SKIP" /\
       exists p : Models.Projection,
         Models.project_strikeouts py env (Orchestrator.pitcher prop)
           (Orchestrator.opponent row) (Orchestrator.park row) = Ok (Some p) /\
         Models.ks_logs p <> [] /\
         Models.base_ks p
         = StatsLogic.calculate_ewma (Models.ks_logs p) StatsLogic.alpha_default /\
         Orchestrator.projected_ks (Orchestrator.edge_data row)
         = round2 (round2 (Models.adjusted_mean p)))
    rows.
Proof.
  unfold Orchestrator.projections. intro H.
  destruct (traverse _ props) as [results| |] eqn:Et; cbn [bind] in H;
    try discriminate.
  injection H as <-. apply Forall_forall. intros row Hrow.
  apply flat_map_some_In in Hrow.
  destruct (traverse_In _ _ _ _ Et Hrow) as (prop & Hprop & Hp).
  clear Et Hrow. unfold Orchestrator.process_prop in Hp. cbv zeta in Hp.
  destruct (existsb (String.eqb (Orchestrator.pitcher prop))
              (Orchestrator.valid_pitchers env pitcher_names)) eqn:Ev;
    cbn [negb] in Hp; [|discriminate Hp].
  apply existsb_eqb_In in Ev. apply filter_In in Ev. destruct Ev as [Hname Hvalid].
  destruct (String.eqb_spec
              (Orchestrator._find_opponent (Orchestrator.team prop)) "Unknown")
    as [|Hopp]; cbn [orb] in Hp; [discriminate Hp|].
  destruct (String.eqb (Orchestrator._find_opponent (Orchestrator.team prop)) "UNK");
    [discriminate Hp|].
  unfold Orchestrator._get_projection in Hp.
  destruct (Models.project_strikeouts py env (Orchestrator.pitcher prop)
              (Orchestrator._find_opponent (Orchestrator.team prop))
              (Orchestrator._get_park_for_team (Orchestrator.team prop)))
    as [[p|]| |] eqn:Eproj; cbn [catch bind] in Hp; try discriminate Hp.
  unfold Orchestrator._calculate_edge in Hp.
  destruct (Req_dec_T (Orchestrator.line prop) 0); cbn [catch bind] in Hp;
    [discriminate Hp|].
  injection Hp as <-. cbn.
  destruct (find_opponent_scheduled _ Hopp) as [Hinv Hpark].
  repeat split; try assumption; try reflexivity.
  - destruct (Rlt_dec _ _); [discriminate|].
    destruct (Rlt_dec _ _); discriminate.
  - exists p.
    destruct (project_strikeouts_fields _ _ _ _ _ _ Eproj)
      as (data & raw & name_col & pm & Hdata & _ & _ & _ & _ & Hks & _ & _ & _
          & _ & _ & Hbase & _).
    assert (Hlogs : Models.ks_logs p <> []).
    { unfold Orchestrator.valid_pitcher in Hvalid.
      change (lower (replace_char " " "_" (Orchestrator.pitcher prop)))
        with (Models.safe_name (Orchestrator.pitcher prop)) in Hvalid.
      rewrite Hdata in Hvalid. rewrite Hks.
      destruct (Models.logs data); [discriminate Hvalid|discriminate]. }
    repeat split; try assumption; try reflexivity.
    rewrite Hbase. destruct (Models.ks_logs p); [contradiction|reflexivity].
Qed.

Lemma env_one_start_projects_at_home :
  exists p : Models.Projection,
    Models.project_strikeouts python_stub env_one_start
      "Max Fried" "BOS" "Yankee Stadium" = Ok (Some p).
Proof.
  eexists. unfold Models.project_strikeouts. run.
  destruct (Req_dec_T (60 * / 10) 0); [exfalso; lra|].
  destruct (Req_dec_T (22 * / 100) 0); [exfalso; lra|].
  reflexivity.
Qed.

Lemma projections_rows_witness :
  exists row : Orchestrator.OutputRow,
    Orchestrator.projections python_stub env_one_start (fun x => x)
      (Orchestrator.valid_pitchers env_one_start ["Max Fried"])
      [ {| Orchestrator.pitcher := "Max Fried"; Orchestrator.team := "NYY";
           Orchestrator.line := 5.5 |} ] = Ok [row] /\
    Orchestrator.opponent row = "BOS" /\
    Orchestrator.park row = "Yankee Stadium" /\
    Orchestrator.recommendation (Orchestrator.edge_data row) <> "SKIP".
Proof.
  destruct env_one_start_projects_at_home as [p Hp].
  assert (Hrun : exists row,
             Orchestrator.projections python_stub env_one_start (fun x => x)
               (Orchestrator.valid_pitchers env_one_start ["Max Fried"])
               [ {| Orchestrator.pitcher := "Max Fried";
                    Orchestrator.team := "NYY";
                    Orchestrator.line := 5.5 |} ] = Ok [row] /\
             Orchestrator.team (Orchestrator.prop row) = "NYY").
  { unfold Orchestrator.projections, Orchestrator.process_prop.
    cbn [traverse Orchestrator.pitcher Orchestrator.team Orchestrator.line].
    assert (Hv : existsb (String.eqb "Max Fried")
                   (Orchestrator.valid_pitchers env_one_start ["Max Fried"])
                 = true) by reflexivity.
    rewrite Hv. cbn [negb].
    assert (Ho : Orchestrator._find_opponent "NYY" = "BOS") by reflexivity.
    assert (Hk : Orchestrator._get_park_for_team "NYY" = "Yankee Stadium")
      by reflexivity.
    rewrite Ho, Hk. cbn [String.eqb Ascii.eqb Bool.eqb orb].
    unfold Orchestrator._get_projection. rewrite Hp. cbn [catch bind].
    unfold Orchestrator._calculate_edge.
    destruct (Req_dec_T 5.5 0); [exfalso; lra|].
    cbn [catch bind flat_map app]. eexists. split; reflexivity. }
  destruct Hrun as (row & Hrun & Hteam). exists row. split; [exact Hrun|].
  pose proof (projections_rows _ _ _ _ _ _ Hrun) as Hall.
  inversion Hall as [|r l Hrow _]; subst.
  destruct Hrow as (_ & _ & _ & Hopp & _ & Hpark & _ & Hrec & _).
  rewrite Hteam in Hopp, Hpark.
  repeat split; assumption.
Defined.

(** ** A pitcher found by close match *)

(** X18.  The statistics row of a projection may come from a close match
    of the pitcher's name, but the putaway pitch is looked up under the
    name as given: when no row of the reference table carries that name
    (trimmed, in lower case), the putaway pitch of the projection is the
    default "SL", whatever the matched row holds. *)
Theorem project_strikeouts_fuzzy_putaway (py : Python) (env : Models.Env)
  (pitcher_name opponent_team park : string) (p : Models.Projection)
  (name_col : string) :
  Models.project_strikeouts py env pitcher_name opponent_team park = Ok (Some p) ->
  get_column_name (Models.FINAL_PITCHER_FILE env)
    ["Name"; "name"; "pitcher_name"; "player_name"] = Some name_col ->
  (forall row, In row (rows (Models.FINAL_PITCHER_FILE env)) ->
               Models.normalized_name py name_col row <> lower pitcher_name) ->
  Models.putaway_pitch p = CStr "SL".
Proof.
  intros H Hcol Hnone.
  destruct (project_strikeouts_modifiers _ _ _ _ _ _ H)
    as (data & raw & name_col' & row & others & k & _ & _ & _ & _ & _ & _ & _
        & _ & _ & _ & Hput & _).
  unfold Models.get_putaway_pitch in Hput. rewrite Hcol in Hput.
  destruct (Models.str_accessor (Models.FINAL_PITCHER_FILE env) name_col);
    cbn [bind] in Hput; try discriminate Hput.
  rewrite filter_nil_iff in Hput.
  - now injection Hput as <-.
  - intros r Hr. specialize (Hnone r Hr).
    unfold Models.str_name_is, Models.normalized_name in *.
    destruct (series_at r name_col) as [x|s|]; try reflexivity.
    cbn [astype_str] in Hnone. now apply String.eqb_neq.
Qed.

(** ** When the stuff modifier is computed *)

Lemma as_float_num (c : cell) (x : R) : as_float c = Ok x -> c = CNum x.
Proof.
  destruct c as [r|s|]; intro H; try discriminate H. now injection H as <-.
Qed.

(** X19.  [calculate_stuff_modifier] returns a number exactly when the
    seven entries it reads from the pitcher's record (or their defaults)
    are numbers, each of the last three game logs has numeric, non-zero
    innings (or none), and, if the K% is zero, there are game logs and
    the mean strikeout rate of the last three is not zero.  (With a K% of
    zero the quotient raises nothing: it is an infinity, which the clamp
    brings to 1.1 or 0.9, unless it is 0 / 0.)  The number lies within
    0.85 and 1.20. *)
Theorem calculate_stuff_modifier_returns_iff (pitcher_row : Series)
  (logs : list GameLog) :
  ((exists m, Modifiers.calculate_stuff_modifier pitcher_row logs = Ok m)
   <->
   (Forall (fun kd => exists r, dict_get pitcher_row (fst kd) (CNum (snd kd)) = CNum r)
           [("Stuff+", 100.0); ("k_pct", 0.22); ("SwStr%", 0.105);
            ("CSW%", 0.27); ("FBv", 92.0); ("O-Swing%", 0.30);
            ("Z-Contact%", 0.88)] /\
    Forall countable_log (last_n 3 logs) /\
    (dict_get pitcher_row "k_pct" (CNum 0.22) = CNum 0 ->
     logs <> [] /\
     forall rates, traverse Modifiers.log_k_rate (last_n 3 logs) = Ok rates ->
                   mean rates <> 0))) /\
  (forall m, Modifiers.calculate_stuff_modifier pitcher_row logs = Ok m ->
             0.85 <= m <= 1.20).
Proof.
  split; [|intros m; apply calculate_stuff_modifier_range].
  split.
  - intros [m H]. split; [|split].
    + unfold Modifiers.calculate_stuff_modifier in H. cbv zeta in H.
      destruct (as_float (dict_get pitcher_row "Stuff+" (CNum 100.0)))
        as [stuff_plus| |] eqn:E1; cbn [bind] in H; try discriminate H.
      destruct (as_float (dict_get pitcher_row "FBv" (CNum 92.0)))
        as [velo| |] eqn:E2; cbn [bind] in H; try discriminate H.
      match type of H with
      | bind ?r _ = _ => destruct r as [recent| |]; cbn [bind] in H;
                         try discriminate H
      end.
      destruct (as_float (dict_get pitcher_row "k_pct" (CNum 0.22)))
        as [k_pct| |] eqn:E3; cbn [bind] in H; try discriminate H.
      match type of H with
      | bind ?r _ = _ => destruct r as [recent_factor| |]; cbn [bind] in H;
                         try discriminate H
      end.
      destruct (as_float (dict_get pitcher_row "SwStr%" (CNum 0.105)))
        as [swstr| |] eqn:E4; cbn [bind] in H; try discriminate H.
      destruct (as_float (dict_get pitcher_row "O-Swing%" (CNum 0.30)))
        as [chase| |] eqn:E5; cbn [bind] in H; try discriminate H.
      destruct (as_float (dict_get pitcher_row "Z-Contact%" (CNum 0.88)))
        as [z_contact| |] eqn:E6; cbn [bind] in H; try discriminate H.
      destruct (as_float (dict_get pitcher_row "CSW%" (CNum 0.27)))
        as [csw| |] eqn:E7; cbn [bind] in H; try discriminate H.
      apply as_float_num in E1, E2, E3, E4, E5, E6, E7.
      repeat (apply Forall_cons; [cbn [fst snd]; eauto|]). apply Forall_nil.
    + eapply calculate_stuff_modifier_countable, H.
    + intro Hzero.
      unfold Modifiers.calculate_stuff_modifier in H. cbv zeta in H.
      rewrite Hzero in H.
      destruct (as_float (dict_get pitcher_row "Stuff+" (CNum 100.0)));
        cbn [bind] in H; try discriminate H.
      destruct (as_float (dict_get pitcher_row "FBv" (CNum 92.0)));
        cbn [bind] in H; try discriminate H.
      destruct logs as [|log logs'].
      * exfalso. cbn [bind as_float] in H.
        destruct (Req_dec_T 0 0) as [_|Hn]; [|now apply Hn].
        destruct (Rlt_dec 0 0) as [Hlt|_]; [lra|].
        cbn [bind] in H. discriminate H.
      * split; [discriminate|]. intros rates Hrates.
        rewrite Hrates in H. cbn [bind as_float] in H.
        destruct (Req_dec_T 0 0) as [_|Hn]; [|now elim Hn].
        destruct (Rlt_dec 0 (mean rates)) as [Hpos|Hnpos]; [lra|].
        destruct (Rlt_dec (mean rates) 0) as [Hneg|Hnneg]; [lra|].
        cbn [bind] in H. discriminate H.
  - intros (Hcells & Hlogs & Hzero).
    assert (Hnum : forall k d,
               In (k, d) [("Stuff+", 100.0); ("k_pct", 0.22); ("SwStr%", 0.105);
                          ("CSW%", 0.27); ("FBv", 92.0); ("O-Swing%", 0.30);
                          ("Z-Contact%", 0.88)] ->
               exists r, dict_get pitcher_row k (CNum d) = CNum r).
    { intros k d Hin. rewrite Forall_forall in Hcells.
      exact (Hcells (k, d) Hin). }
    assert (Hrates : exists rates,
               traverse Modifiers.log_k_rate (last_n 3 logs) = Ok rates).
    { apply traverse_returns. eapply Forall_impl; [|exact Hlogs].
      intros log Hlog. unfold countable_log in Hlog. unfold Modifiers.log_k_rate.
      destruct (innings_pitched log) as [[ip|s]|]; [|contradiction|eauto].
      destruct (Req_dec_T ip 0); [contradiction|eauto]. }
    destruct Hrates as [rates Hrates].
    unfold Modifiers.calculate_stuff_modifier.
    destruct (Hnum "Stuff+" 100.0) as [stuff_plus ->]; [cbn; tauto|].
    destruct (Hnum "k_pct" 0.22) as [k_pct Ek]; [cbn; tauto|]. rewrite Ek in *.
    destruct (Hnum "SwStr%" 0.105) as [swstr ->]; [cbn; tauto|].
    destruct (Hnum "CSW%" 0.27) as [csw ->]; [cbn; tauto|].
    destruct (Hnum "FBv" 92.0) as [velo ->]; [cbn; tauto|].
    destruct (Hnum "O-Swing%" 0.30) as [chase ->]; [cbn; tauto|].
    destruct (Hnum "Z-Contact%" 0.88) as [z_contact ->]; [cbn; tauto|].
    cbn [as_float bind].
    destruct (Req_dec_T k_pct 0) as [Hk|Hk].
    + subst k_pct. destruct (Hzero eq_refl) as [Hne Hmean].
      destruct logs as [|log logs']; [contradiction|].
      rewrite Hrates. cbn [bind]. specialize (Hmean rates Hrates).
      destruct (Req_dec_T 0 0) as [_|Hn]; [|now elim Hn].
      destruct (Rlt_dec 0 (mean rates)) as [Hpos|Hnpos];
        [cbn [bind]; eexists; reflexivity|].
      destruct (Rlt_dec (mean rates) 0) as [Hneg|Hnneg];
        [cbn [bind]; eexists; reflexivity|].
      exfalso. lra.
    + destruct logs as [|log logs'].
      * cbn [bind]. destruct (Req_dec_T k_pct 0); [contradiction|]. cbn [bind].
        eexists. reflexivity.
      * rewrite Hrates. cbn [bind].
        destruct (Req_dec_T k_pct 0); [contradiction|]. cbn [bind].
        eexists. reflexivity.
Qed.

(** A K% of 0 with one start of 7 strikeouts in 6.0 innings: the recent
    factor is 1.1 and the modifier is 0.85. *)
Lemma calculate_stuff_modifier_zero_k_pct :
  Modifiers.calculate_stuff_modifier [("k_pct", CNum 0)]
    [ {| strikeouts := Some 7; innings_pitched := Some (IPNum 6.0) |} ]
  = Ok 0.85.
Proof.
  unfold Modifiers.calculate_stuff_modifier. run.
  destruct (Req_dec_T (60 * / 10) 0); [exfalso; lra|].
  cbv beta iota.
  destruct (Req_dec_T 0 0) as [_|Hn]; [|now elim Hn].
  match goal with
  | |- context [Rlt_dec 0 ?x] => destruct (Rlt_dec 0 x) as [_|Hn]
  end.
  - f_equal. unfold clip, Rmin, Rmax. repeat destruct Rle_dec; lra.
  - exfalso. apply Hn. unfold mean, sum. cbn [fold_right List.length INR].
    apply Rdiv_lt_0_compat; lra.
Qed.

(** ** The two copies of the team lookup *)

(** X20.  stats_logic and modifiers each define [get_recent_team_row].
    A row found by the copy of modifiers is found by the copy of
    stats_logic, and the two agree on every table with a column Team,
    team, Tm or tm (the copy of stats_logic alone accepts TEAM).  A row
    that is returned is a row of the table to which the scratch entry
    [_temp_team] has been added. *)
Theorem get_recent_team_row_copies (py : Python) (team_name : string)
  (df : DataFrame) :
  (forall r, Modifiers.get_recent_team_row py team_name df = Some r ->
             StatsLogic.get_recent_team_row py team_name df = Some r) /\
  (get_column_name df ["Team"; "team"; "Tm"; "tm"] <> None ->
   StatsLogic.get_recent_team_row py team_name df
   = Modifiers.get_recent_team_row py team_name df) /\
  (forall r, StatsLogic.get_recent_team_row py team_name df = Some r ->
             exists row temp,
               In row (rows df) /\ r = dict_set row "_temp_team" (CStr temp)).
Proof.
  assert (Hcol : forall c,
             get_column_name df ["Team"; "team"; "Tm"; "tm"] = Some c ->
             get_column_name df ["Team"; "team"; "Tm"; "tm"; "TEAM"] = Some c).
  { unfold get_column_name. cbn [find]. intros c H.
    repeat match goal with
           | |- context [existsb ?f (columns df)] =>
               destruct (existsb f (columns df)); [exact H|]
           end.
    discriminate H. }
  assert (Hempty : forall c,
             get_column_name df ["Team"; "team"; "Tm"; "tm"] = Some c ->
             df_empty df = true ->
             team_row_lookup py c team_name df = None).
  { intros c Hc He. unfold df_empty in He.
    destruct (columns df) as [|c0 cs] eqn:Ec.
    { unfold get_column_name in Hc. rewrite Ec in Hc. discriminate Hc. }
    destruct (rows df) as [|r0 rs] eqn:Er; [|discriminate He].
    unfold team_row_lookup. rewrite Er. cbn [map filter].
    destruct (get_close_matches py _ _ _ _); reflexivity. }
  assert (Hagree : get_column_name df ["Team"; "team"; "Tm"; "tm"] <> None ->
                   StatsLogic.get_recent_team_row py team_name df
                   = Modifiers.get_recent_team_row py team_name df).
  { intro Hsome.
    unfold StatsLogic.get_recent_team_row, Modifiers.get_recent_team_row.
    destruct (get_column_name df ["Team"; "team"; "Tm"; "tm"]) as [c|] eqn:Ec;
      [|contradiction].
    rewrite (Hcol c eq_refl).
    destruct (df_empty df) eqn:Ee; [|reflexivity].
    symmetry. now apply Hempty. }
  split; [|split; [exact Hagree|]].
  - intros r H. rewrite Hagree; [exact H|].
    unfold Modifiers.get_recent_team_row in H.
    destruct (get_column_name df ["Team"; "team"; "Tm"; "tm"]);
      [discriminate|discriminate H].
  - intros r H. apply stats_logic_row_lookup in H. destruct H as [c H].
    eapply team_row_lookup_row, H.
Qed.

(** The misspelled name "Max Freid" against the row "Max Fried". *)
Lemma env_misspelled_projects :
  exists p : Models.Projection,
    Models.project_strikeouts python_close env_misspelled
      "Max Freid" "BOS" "Fenway Park" = Ok (Some p).
Proof.
  eexists. unfold Models.project_strikeouts. run.
  destruct (Req_dec_T (60 * / 10) 0); [exfalso; lra|].
  destruct (Req_dec_T (22 * / 100) 0); [exfalso; lra|].
  reflexivity.
Qed.

Lemma project_strikeouts_fuzzy_putaway_witness :
  exists p : Models.Projection,
    Models.project_strikeouts python_close env_misspelled
      "Max Freid" "BOS" "Fenway Park" = Ok (Some p) /\
    Models.putaway_pitch p = CStr "SL".
Proof.
  destruct env_misspelled_projects as [p Hp]. exists p.
  split; [exact Hp|].
  apply (project_strikeouts_fuzzy_putaway _ _ _ _ _ _ "Name" Hp).
  - reflexivity.
  - intros row [<-|[]]. vm_compute. discriminate.
Defined.

(** ** Five equal strikeout figures *)

Lemma std_constant (l : list R) (k : R) :
  l <> [] -> (forall x, In x l -> x = k) -> std l = 0.
Proof.
  intros Hne Hall. unfold std.
  assert (Hmean : mean l = k).
  { assert (Hb : k <= mean l <= k).
    { apply mean_bounds; [exact Hne|].
      apply Forall_forall. intros x Hx. rewrite (Hall x Hx). lra. }
    lra. }
  rewrite Hmean.
  assert (Hz : 0 <= mean (map (fun x => (x - k) * (x - k)) l) <= 0).
  { apply mean_bounds.
    - destruct l; [contradiction|discriminate].
    - apply Forall_forall. intros y Hy. apply in_map_iff in Hy.
      destruct Hy as (x & <- & Hx). rewrite (Hall x Hx). lra. }
  replace (mean (map (fun x => (x - k) * (x - k)) l)) with 0 by lra.
  apply sqrt_0.
Qed.

(** X21.  The second argument of the simulator call is the dispersion of
    the strikeout logs, which [simulate_ks] takes for the base innings and
    tests for being positive: for a pitcher whose last five strikeout
    figures are equal the dispersion is zero, and the simulation of the
    projection returns zeros only, whatever the adjusted mean. *)
Theorem project_strikeouts_equal_logs (py : Python) (env : Models.Env)
  (pitcher_name opponent_team park : string) (p : Models.Projection) (k : R) :
  Models.project_strikeouts py env pitcher_name opponent_team park = Ok (Some p) ->
  (5 <= List.length (Models.ks_logs p))%nat ->
  (forall x, In x (last_n 5 (Models.ks_logs p)) -> x = k) ->
  Models.dispersion p = 0 /\
  forall (S : Type) (g : Simulator.Generator S) (n : nat) (s : S),
    Simulator.simulate_ks g
      (Simulator.adjusted_mean (Models.samples p))
      (Simulator.base_ip (Models.samples p))
      (Simulator.scaled_ip (Models.samples p)) n s
    = (repeat O n, s).
Proof.
  intros H Hlen Hall.
  destruct (project_strikeouts_fields _ _ _ _ _ _ H)
    as (data & raw & name_col & pm & _ & _ & _ & _ & _ & _ & _ & _ & _ & _ & _
        & _ & _ & Hd & _ & _ & Hs).
  assert (Hzero : Models.dispersion p = 0).
  { rewrite Hd. destruct (Nat.leb_spec 5 (List.length (Models.ks_logs p)));
      [|lia].
    apply std_constant with k; [|exact Hall].
    intro Hnil. apply (f_equal (@List.length R)) in Hnil.
    unfold last_n in Hnil. rewrite length_skipn in Hnil. cbn in Hnil. lia. }
  split; [exact Hzero|].
  intros S g n s. rewrite Hs.
  cbn [Simulator.adjusted_mean Simulator.base_ip Simulator.scaled_ip].
  rewrite Hzero. unfold Simulator.simulate_ks, Simulator.k_rate_per_inning.
  cbn [Simulator.adjusted_mean Simulator.base_ip Simulator.scaled_ip].
  destruct (Rle_dec (Models.adjusted_mean p) 0); [reflexivity|].
  destruct (Rle_dec 0 0); [reflexivity|lra].
Qed.

Lemma env_five_equal_starts_projects :
  exists p : Models.Projection,
    Models.project_strikeouts python_stub env_five_equal_starts
      "Max Fried" "BOS" "Fenway Park" = Ok (Some p).
Proof.
  eexists. unfold Models.project_strikeouts. run.
  repeat match goal with
         | |- context [Req_dec_T ?a ?b] =>
             destruct (Req_dec_T a b); [exfalso; lra|]
         end.
  reflexivity.
Qed.

Lemma project_strikeouts_equal_logs_witness :
  exists p : Models.Projection,
    Models.project_strikeouts python_stub env_five_equal_starts
      "Max Fried" "BOS" "Fenway Park" = Ok (Some p) /\
    Models.dispersion p = 0.
Proof.
  destruct env_five_equal_starts_projects as [p Hp]. exists p.
  split; [exact Hp|].
  destruct (project_strikeouts_fields _ _ _ _ _ _ Hp)
    as (data & raw & name_col & pm & Hdata & _ & _ & _ & _ & Hks & _).
  assert (Hc : Models.cache_file env_five_equal_starts (Models.safe_name "Max Fried")
               = Some five_equal_starts) by reflexivity.
  rewrite Hc in Hdata. injection Hdata as <-.
  assert (Hlogs : Models.ks_logs p = [7; 7; 7; 7; 7]) by exact Hks.
  apply (project_strikeouts_equal_logs _ _ _ _ _ _ 7 Hp).
  - rewrite Hlogs. cbn. lia.
  - rewrite Hlogs. cbn. intros x Hx.
    repeat (destruct Hx as [<-|Hx]; [reflexivity|]). destruct Hx.
Defined.
